(** * Sovereign Doc: the conversion core of [sovereign_doc_core.py]

    A shallow embedding of the conversion pipeline (plain-text and Markdown
    heuristics, the package writer, the omega score and the orchestrator
    [convert_any]) together with the properties of its specification.

    Conventions.
    - A Python [str] is a list of Unicode code points ([N]); [bytes] is a list
      of octets.
    - Python's [float] is IEEE-754 binary64, that is Rocq's primitive [float].
    - The Unicode character database and the zip, XML and UTF-8 codecs belong
      to the Python runtime, not to this repository: they are the fields of
      the classes [UnicodeDB] and [Runtime]. *)

From Stdlib Require Import Floats ZArith Uint63 String Ascii.
From stdpp Require Import gmap list pretty sorting.

Set Warnings "-inexact-float".

(** ** Python strings *)

Abbreviation str := (list N).
Abbreviation bytes := (list N).

Module Py.

(** An ASCII literal as a [str]. *)
Definition lit (s : string) : str :=
  (fun a => N_of_ascii a) <$> list_ascii_of_string s.
Arguments lit : simpl never.

Definition LF : N := 10.
Definition CR : N := 13.
Definition DQUOTE : N := 34.

Definition in_range (lo hi c : N) : bool := N.leb lo c && N.leb c hi.

(** [Py_UNICODE_ISSPACE]: the characters removed by [str.strip()] and
    separating words in [str.split()]. *)
Definition isspace (c : N) : bool :=
  in_range 9 13 c || in_range 28 32 c || N.eqb c 133 || N.eqb c 160
  || N.eqb c 5760 || in_range 8192 8202 c || N.eqb c 8232 || N.eqb c 8233
  || N.eqb c 8239 || N.eqb c 8287 || N.eqb c 12288.

(** [Py_UNICODE_ISLINEBREAK]: the line boundaries of [str.splitlines()]. *)
Definition islinebreak (c : N) : bool :=
  in_range 10 13 c || in_range 28 30 c || N.eqb c 133
  || N.eqb c 8232 || N.eqb c 8233.

Definition mem (c : N) (chars : str) : bool := existsb (N.eqb c) chars.

Fixpoint drop_while (f : N -> bool) (s : str) : str :=
  match s with
  | [] => []
  | c :: s' => if f c then drop_while f s' else s
  end.

Fixpoint take_while (f : N -> bool) (s : str) : str :=
  match s with
  | [] => []
  | c :: s' => if f c then c :: take_while f s' else []
  end.

(** [s.lstrip()], [s.rstrip()], [s.strip()] *)
Definition lstrip (s : str) : str := drop_while isspace s.
Definition rstrip (s : str) : str := rev (drop_while isspace (rev s)).
Definition strip (s : str) : str := rstrip (lstrip s).

(** [s.lstrip(chars)], [s.rstrip(chars)] *)
Definition lstrip_chars (chars s : str) : str :=
  drop_while (fun c => mem c chars) s.
Definition rstrip_chars (chars s : str) : str :=
  rev (drop_while (fun c => mem c chars) (rev s)).

(** [s.startswith(p)] and [s.startswith((p1, p2, ...))] *)
Fixpoint startswith (s p : str) {struct p} : bool :=
  match p with
  | [] => true
  | a :: p' =>
      match s with
      | [] => false
      | b :: s' => N.eqb a b && startswith s' p'
      end
  end.

Definition startswith_any (s : str) (ps : list str) : bool :=
  existsb (startswith s) ps.

Definition endswith (s p : str) : bool := startswith (rev s) (rev p).

(** [sep.join(l)] *)
Fixpoint join (sep : str) (l : list str) : str :=
  match l with
  | [] => []
  | x :: l' =>
      match l' with
      | [] => x
      | _ :: _ => x ++ sep ++ join sep l'
      end
  end.

(** [s.splitlines()]: [cur] is the line being read.  A line boundary ends the
    current line; CR LF is one boundary; no empty line is produced after a
    final boundary. *)
Fixpoint splitlines_from (cur s : str) : list str :=
  match s with
  | [] => match cur with [] => [] | _ :: _ => [cur] end
  | c :: s' =>
      if islinebreak c then
        cur :: (if N.eqb c CR then
                  match s' with
                  | d :: s'' =>
                      if N.eqb d LF then splitlines_from [] s''
                      else splitlines_from [] s'
                  | [] => splitlines_from [] s'
                  end
                else splitlines_from [] s')
      else splitlines_from (cur ++ [c]) s'
  end.

Definition splitlines (s : str) : list str := splitlines_from [] s.

(** [s.split()]: words separated by runs of whitespace. *)
Fixpoint split_ws_from (cur s : str) : list str :=
  match s with
  | [] => match cur with [] => [] | _ :: _ => [cur] end
  | c :: s' =>
      if isspace c then
        match cur with
        | [] => split_ws_from [] s'
        | _ :: _ => cur :: split_ws_from [] s'
        end
      else split_ws_from (cur ++ [c]) s'
  end.

Definition split_ws (s : str) : list str := split_ws_from [] s.

(** [s.split(maxsplit=1)]: the first word, then the remainder without its
    leading whitespace (its trailing whitespace is kept) when not empty. *)
Definition split_ws_max1 (s : str) : list str :=
  match lstrip s with
  | [] => []
  | (_ :: _) as t =>
      let word := take_while (fun c => negb (isspace c)) t in
      match lstrip (drop_while (fun c => negb (isspace c)) t) with
      | [] => [word]
      | (_ :: _) as rest => [word; rest]
      end
  end.

(** [s.split(sep)] for a non-empty separator: occurrences are found left to
    right and do not overlap; [skip] counts the characters of a matched
    separator still to be passed over. *)
Fixpoint split_from (sep cur s : str) (skip : nat) : list str :=
  match s with
  | [] => [cur]
  | c :: s' =>
      match skip with
      | S k => split_from sep cur s' k
      | O =>
          if startswith s sep
          then cur :: split_from sep [] s' (length sep - 1)
          else split_from sep (cur ++ [c]) s' 0
      end
  end.

Definition split (sep s : str) : list str := split_from sep [] s 0.

(** [s.count(sub)] for a non-empty [sub]: non-overlapping occurrences. *)
Fixpoint count_from (sub s : str) (skip : nat) : nat :=
  match s with
  | [] => 0
  | _ :: s' =>
      match skip with
      | S k => count_from sub s' k
      | O =>
          if startswith s sub
          then S (count_from sub s' (length sub - 1))
          else count_from sub s' 0
      end
  end.

Definition count (sub s : str) : nat := count_from sub s 0.

(** [s.replace(old, new)] for a one-character [old]. *)
Definition replace_char (old : N) (new s : str) : str :=
  flat_map (fun c => if N.eqb c old then new else [c]) s.

(** [str(n)] for a natural number. *)
Definition str_of_nat (n : nat) : str := lit (pretty n).

Definition is_ascii (c : N) : bool := N.ltb c 128.

End Py.

(** The part of the Unicode character database used through [str.isupper],
    [str.isdigit] and [str.lower]: consulted for non-ASCII input only. *)
Class UnicodeDB := {
  uc_isupper : N -> bool;
  uc_islower : N -> bool;
  uc_istitle : N -> bool;
  uc_isdigit : N -> bool;
  uc_lower : str -> str
}.

Section Unicode.
Context `{UnicodeDB}.

Definition ch_isupper (c : N) : bool :=
  if Py.is_ascii c then Py.in_range 65 90 c else uc_isupper c.
Definition ch_islower (c : N) : bool :=
  if Py.is_ascii c then Py.in_range 97 122 c else uc_islower c.
Definition ch_istitle (c : N) : bool :=
  if Py.is_ascii c then false else uc_istitle c.
Definition ch_isdigit (c : N) : bool :=
  if Py.is_ascii c then Py.in_range 48 57 c else uc_isdigit c.

(** [s.isupper()] *)
Definition isupper (s : str) : bool :=
  match s with
  | [] => false
  | [c] => ch_isupper c
  | _ => negb (existsb (fun c => ch_islower c || ch_istitle c) s)
         && existsb ch_isupper s
  end.

(** [s.isdigit()] *)
Definition isdigit (s : str) : bool :=
  match s with
  | [] => false
  | _ :: _ => forallb ch_isdigit s
  end.

(** [s.lower()] *)
Definition lower (s : str) : str :=
  if forallb Py.is_ascii s
  then (fun c => if Py.in_range 65 90 c then (c + 32)%N else c) <$> s
  else uc_lower s.

End Unicode.

(** ** Plain-text heuristics *)

Section Heuristics.
Context `{UnicodeDB}.
Import Py.

Definition BULLET : N := 8226.
Definition bullet_glyphs : str := [BULLET; 45; 42]%N.

(** The body of the loop of [txt_to_markdown]: the line appended to
    [md_lines] for one input line. *)
Definition txt_to_markdown_line (line : str) : str :=
  let stripped := strip line in
  match stripped with
  | [] => []
  | first :: _ =>
      let words := split_ws stripped in
      let heading :=
        if Nat.leb 1 (length words) && Nat.leb (length words) 8 then
          let upperish := length (filter (fun w => isupper (take 1 w) = true) words) in
          Nat.leb (Nat.max 1 (length words / 2)) upperish
        else false in
      if heading then lit "# " ++ stripped
      else if mem first bullet_glyphs
      then lit "- " ++ strip (lstrip_chars bullet_glyphs stripped)
      else stripped
  end.

Definition txt_to_markdown (text : str) : str :=
  rstrip (join [LF] (txt_to_markdown_line <$> splitlines text)) ++ [LF].

Definition _html_escape (s : str) : str :=
  replace_char 62 (lit "&gt;")
    (replace_char 60 (lit "&lt;") (replace_char 38 (lit "&amp;") s)).

Definition text_to_html (text : str) : str :=
  let paragraphs :=
    filter (fun p => p <> []) (strip <$> split [LF; LF] text) in
  let parts :=
    [lit "<!DOCTYPE html>"; lit "<html>"; lit "<body>"]
    ++ ((fun p => lit "<p>" ++ _html_escape p ++ lit "</p>") <$> paragraphs)
    ++ [lit "</body>"; lit "</html>"] in
  join [LF] parts ++ [LF].

(** ** Markdown heuristics *)

(** The state of the loop of [markdown_to_html]: [in_list] and
    [html_lines]. *)
Definition html_state : Type := bool * list str.

Definition close_list (st : html_state) : html_state :=
  let '(in_list, html_lines) := st in
  if in_list then (false, html_lines ++ [lit "</ul>"]) else st.

Definition append_line (st : html_state) (l : str) : html_state :=
  (st.1, st.2 ++ [l]).

Definition markdown_to_html_line (st : html_state) (line : str) : html_state :=
  let stripped := strip line in
  match stripped with
  | [] => close_list st
  | _ :: _ =>
      if startswith stripped (lit "### ") then
        append_line (close_list st)
          (lit "<h3>" ++ _html_escape (strip (drop 4 stripped)) ++ lit "</h3>")
      else if startswith stripped (lit "## ") then
        append_line (close_list st)
          (lit "<h2>" ++ _html_escape (strip (drop 3 stripped)) ++ lit "</h2>")
      else if startswith stripped (lit "# ") then
        append_line (close_list st)
          (lit "<h1>" ++ _html_escape (strip (drop 2 stripped)) ++ lit "</h1>")
      else if startswith_any stripped [lit "- "; lit "* "; lit "+ "] then
        let st1 :=
          if st.1 then st else (true, st.2 ++ [lit "<ul>"]) in
        append_line st1
          (lit "<li>" ++ _html_escape (strip (drop 2 stripped)) ++ lit "</li>")
      else
        append_line (close_list st)
          (lit "<p>" ++ _html_escape stripped ++ lit "</p>")
  end.

Definition html_header : str :=
  lit "<!DOCTYPE html>" ++ [LF] ++ lit "<html>" ++ [LF] ++ lit "<body>" ++ [LF].
Definition html_footer : str :=
  [LF] ++ lit "</body>" ++ [LF] ++ lit "</html>" ++ [LF].

(** [html_lines] when the loop and the final [close_list()] are done. *)
Definition markdown_html_lines (md : str) : list str :=
  (close_list (foldl markdown_to_html_line (false, []) (splitlines md))).2.

Definition markdown_to_html (md : str) : str :=
  html_header ++ join [LF] (markdown_html_lines md) ++ html_footer.

(** The body of the loop of [markdown_to_plain_text]: the value appended to
    [out] for one line. *)
Definition markdown_to_plain_text_line (line : str) : str :=
  let stripped := lstrip line in
  if startswith stripped (lit "#") then
    strip (lstrip_chars (lit "#") stripped)
  else if startswith_any stripped [lit "- "; lit "* "; lit "+ "] then
    strip (drop 2 stripped)
  else
    match split_ws_max1 stripped with
    | [p0; p1] =>
        if isdigit (rstrip_chars (lit ".") p0) then strip p1 else stripped
    | _ => stripped
    end.

Definition markdown_to_plain_text (md : str) : str :=
  strip (join [LF] (markdown_to_plain_text_line <$> splitlines md)) ++ [LF].

End Heuristics.

(** ** Quality scorer *)

Module Score.
Import Py.
#[local] Open Scope float_scope.

(** A Python [int] that is a length or a count, as a [float]. *)
Definition float_of_nat (n : nat) : float :=
  PrimFloat.of_uint63 (Uint63.of_Z (Z.of_nat n)).

(** [min(a, b)] and [max(a, b)] on floats: the first argument is kept unless
    the second is strictly smaller (resp. greater). *)
Definition fmin (a b : float) : float := if b <? a then b else a.
Definition fmax (a b : float) : float := if a <? b then b else a.

Definition count_if (f : str -> bool) (lines : list str) : nat :=
  length (List.filter f lines).

Definition _compute_omega_score (converted dst_fmt : str) : float :=
  let chars_out := length converted in
  let length_score := fmin (float_of_nat chars_out / 10000) 1 in
  let structure_score :=
    if bool_decide (dst_fmt = lit "md") then
      let lines := splitlines converted in
      let headings :=
        count_if (fun ln => startswith (lstrip ln) (lit "#")) lines in
      let lists :=
        count_if (fun ln =>
          startswith_any (lstrip ln) [lit "- "; lit "* "; lit "1. "]) lines in
      fmin (float_of_nat (headings + lists) / 50) 1
    else if bool_decide (dst_fmt = lit "html") || bool_decide (dst_fmt = lit "docx") then
      let paras := (count [LF; LF] converted + 1)%nat in
      fmin (float_of_nat paras / 50) 1
    else 0 in
  fmax 0 (fmin (0.4 * length_score + 0.6 * structure_score) 1).

End Score.

(** ** Paths and the file system *)

(** A path: the directory part and the final component. *)
Record Path := mkPath { parent : str; name : str }.

#[global] Instance Path_eq_dec : EqDecision Path.
Proof. solve_decision. Defined.

#[global] Instance Path_countable : Countable Path.
Proof.
  refine (inj_countable' (fun p => (parent p, name p))
                         (fun q => mkPath q.1 q.2) _).
  intros []. reflexivity.
Defined.

(** The exceptions of the core.  [SovereignDocError] is the one error class
    the core raises itself; the constructor records which [raise] it was:
    - [InputMissing p]: "Input file does not exist: p"
    - [UnsupportedInput]: "Unsupported input format. Use .docx, .txt, or .md"
    - [UnsupportedOutput]: "Unsupported output format. Use txt, md, html, or docx"
    - [DocxUnreadable p]: "Unable to open or read p as docx"
    - [DocxXmlInvalid p]: "Unable to parse XML in p" *)
Inductive SovereignDocError :=
| InputMissing (p : Path)
| UnsupportedInput
| UnsupportedOutput
| DocxUnreadable (p : Path)
| DocxXmlInvalid (p : Path).

(** [Unbounded] is not a Python exception: it marks a loop of the model that
    used up its iteration bound. *)
Inductive exn :=
| Domain (e : SovereignDocError)
| ValueError
| LookupError
| UnicodeDecodeError
| UnicodeEncodeError
| OSError
| Unbounded.

Inductive outcome (A : Type) :=
| Ok (a : A)
| Raise (e : exn).
Arguments Ok {A} a.
Arguments Raise {A} e.

Module Pathlib.
Import Py.

Definition SLASH : N := 47.
Definition DOT : N := 46.

(** [s.rfind(c)] *)
Fixpoint rfind (c : N) (s : str) : option nat :=
  match s with
  | [] => None
  | x :: s' =>
      match rfind c s' with
      | Some i => Some (S i)
      | None => if N.eqb x c then Some 0%nat else None
      end
  end.

(** The index of the dot that starts the suffix of a name, when it has one:
    the last dot, neither first nor last in the name. *)
Definition suffix_index (nm : str) : option nat :=
  match rfind DOT nm with
  | Some i => if Nat.ltb 0 i && Nat.ltb i (length nm - 1) then Some i else None
  | None => None
  end.

Definition suffix (p : Path) : str :=
  match suffix_index (name p) with
  | Some i => drop i (name p)
  | None => []
  end.

Definition stem (p : Path) : str :=
  match suffix_index (name p) with
  | Some i => take i (name p)
  | None => name p
  end.

Definition with_name (p : Path) (nm : str) : outcome Path :=
  match name p with
  | [] => Raise ValueError
  | _ :: _ =>
      if bool_decide (nm = []) || mem SLASH nm || bool_decide (nm = [DOT])
      then Raise ValueError
      else Ok (mkPath (parent p) nm)
  end.

Definition with_suffix (p : Path) (sfx : str) : outcome Path :=
  if mem SLASH sfx then Raise ValueError
  else if (negb (bool_decide (sfx = [])) && negb (startswith sfx [DOT]))
          || bool_decide (sfx = [DOT])
  then Raise ValueError
  else
    match name p with
    | [] => Raise ValueError
    | _ :: _ =>
        let old_suffix := suffix p in
        Ok (mkPath (parent p)
              (match old_suffix with
               | [] => name p ++ sfx
               | _ :: _ =>
                   take (length (name p) - length old_suffix) (name p) ++ sfx
               end))
    end.

End Pathlib.

(** What a path refers to. *)
Inductive node :=
| File (content : bytes)
| Dir.

(** An XML element as [ElementTree] parses it: tag, text, children. *)
#[warnings="-register-all"]
Inductive element :=
| Elem (tag : str) (text : option str) (children : list element).

(** An [ElementTree] element under construction: its children are
    references into the heap of elements, so that appending to a child is
    seen from its parent. *)
Record enode := mkNode {
  e_tag : str;
  e_text : option str;
  e_children : list nat
}.

Abbreviation heap := (list enode).

(** What [ET.fromstring] gives: the root of the tree, a [ParseError], or one
    of the exceptions it raises that are no [ParseError]: a [ValueError] for
    a declared multi-byte encoding the parser does not support, a
    [LookupError] for a declared encoding that is not known. *)
Inductive xml_parse :=
| XmlTree (root : element)
| XmlParseError
| XmlValueError
| XmlLookupError.

(** The codecs of the Python runtime.
    - [utf8_decode_text b]: [read_text(encoding="utf-8")] on a file holding
      [b]; [None] is [UnicodeDecodeError].
    - [utf8_encode_text s]: the octets [write_text(s, encoding="utf-8")]
      stores; [None] is [UnicodeEncodeError].
    - [zip_read b n]: [ZipFile(path).read(n)] on a file holding [b]; [None]
      is any exception (not an archive, no such member).
    - [zip_write l]: the archive with the members [l] written in order.
    - [xml_fromstring b]: [ET.fromstring(b)].
    - [xml_tostring h root]: [ET.tostring(root, encoding="utf-8",
      xml_declaration=True)] with the prefix [w] registered. *)
Class Runtime := {
  utf8_decode_text : bytes -> option str;
  utf8_encode_text : str -> option bytes;
  zip_read : bytes -> str -> option bytes;
  zip_write : list (str * bytes) -> bytes;
  xml_fromstring : bytes -> xml_parse;
  xml_tostring : heap -> nat -> bytes
}.

(** ** Package reader and writer *)

Module Docx.
Import Py.

Definition DOCX_MAIN_XML : str := lit "word/document.xml".
Definition w_ns : str :=
  lit "http://schemas.openxmlformats.org/wordprocessingml/2006/main".

(** The qualified tag [{w_ns}local]. *)
Definition wtag (local : string) : str :=
  lit "{" ++ w_ns ++ lit "}" ++ lit local.

Definition tag_of (e : element) : str := let 'Elem t _ _ := e in t.
Definition text_of (e : element) : option str := let 'Elem _ t _ := e in t.
Definition children_of (e : element) : list element := let 'Elem _ _ c := e in c.

(** [e.iter()]: the element and its descendants, in document order. *)
Fixpoint iter (e : element) : list element :=
  match e with
  | Elem _ _ cs => e :: concat (List.map iter cs)
  end.

(** [e.findall(".//w:local", NS)]: the descendants with that tag. *)
Definition findall_desc (local : string) (e : element) : list element :=
  List.filter (fun d => bool_decide (tag_of d = wtag local))
    (concat (List.map iter (children_of e))).

(** The [texts] of one paragraph element in [extract_docx_text]. *)
Definition run_texts (p : element) : list str :=
  omap (fun t => match text_of t with
                 | Some ((_ :: _) as s) => Some s
                 | _ => None
                 end) (findall_desc "t" p).

(** The [paragraphs] list of [extract_docx_text]. *)
Definition extracted_paragraphs (root : element) : list str :=
  omap (fun p =>
          match run_texts p with
          | [] => None
          | (_ :: _) as texts =>
              match strip (concat texts) with
              | [] => None
              | (_ :: _) as txt => Some txt
              end
          end) (findall_desc "p" root).

(** [ET.Element(tag)] *)
Definition Element (tag : str) (h : heap) : nat * heap :=
  (length h, h ++ [mkNode tag None []]).

(** [ET.SubElement(parent, tag)] *)
Definition SubElement (parent : nat) (tag : str) (h : heap) : nat * heap :=
  let id := length h in
  (id,
   alter (fun n => mkNode (e_tag n) (e_text n) (e_children n ++ [id])) parent h
   ++ [mkNode tag None []]).

(** [e.text = s] *)
Definition set_text (id : nat) (s : str) (h : heap) : heap :=
  alter (fun n => mkNode (e_tag n) (Some s) (e_children n)) id h.

(** The body of the loop of [_create_basic_docx_xml]. *)
Definition add_paragraph (body : nat) (h : heap) (text : str) : heap :=
  let '(p, h1) := SubElement body (wtag "p") h in
  let '(r, h2) := SubElement p (wtag "r") h1 in
  let '(t, h3) := SubElement r (wtag "t") h2 in
  set_text t text h3.

(** The elements [_create_basic_docx_xml] has built when it serializes
    them, and the root [document]. *)
Definition docx_document (paragraphs : list str) : heap * nat :=
  let '(document, h0) := Element (wtag "document") [] in
  let '(body, h1) := SubElement document (wtag "body") h0 in
  (foldl (add_paragraph body) h1 paragraphs, document).

(** The tree below an element of the heap, read to depth [fuel]. *)
Fixpoint tree_of (fuel : nat) (h : heap) (id : nat) : option element :=
  match fuel with
  | O => None
  | S fuel' =>
      match h !! id with
      | None => None
      | Some n =>
          match mapM (tree_of fuel' h) (e_children n) with
          | Some cs => Some (Elem (e_tag n) (e_text n) cs)
          | None => None
          end
      end
  end.

Definition q (s : string) : str := [DQUOTE] ++ lit s ++ [DQUOTE].

Definition content_types_xml : bytes :=
  lit "<?xml version=" ++ q "1.0" ++ lit " encoding=" ++ q "UTF-8" ++ lit "?>" ++ [LF]
  ++ lit "<Types xmlns="
  ++ q "http://schemas.openxmlformats.org/package/2006/content-types" ++ lit ">" ++ [LF]
  ++ lit "  <Default Extension=" ++ q "rels" ++ lit " ContentType="
  ++ q "application/vnd.openxmlformats-package.relationships+xml" ++ lit "/>" ++ [LF]
  ++ lit "  <Default Extension=" ++ q "xml" ++ lit " ContentType="
  ++ q "application/xml" ++ lit "/>" ++ [LF]
  ++ lit "  <Override PartName=" ++ q "/word/document.xml" ++ lit " ContentType="
  ++ q "application/vnd.openxmlformats-officedocument.wordprocessingml.document.main+xml"
  ++ lit "/>" ++ [LF]
  ++ lit "</Types>" ++ [LF].

Definition rels_xml : bytes :=
  lit "<?xml version=" ++ q "1.0" ++ lit " encoding=" ++ q "UTF-8" ++ lit "?>" ++ [LF]
  ++ lit "<Relationships xmlns="
  ++ q "http://schemas.openxmlformats.org/package/2006/relationships" ++ lit ">" ++ [LF]
  ++ lit "  <Relationship Id=" ++ q "rId1" ++ [LF]
  ++ lit "    Type="
  ++ q "http://schemas.openxmlformats.org/officeDocument/2006/relationships/officeDocument"
  ++ [LF]
  ++ lit "    Target=" ++ q "word/document.xml" ++ lit "/>" ++ [LF]
  ++ lit "</Relationships>" ++ [LF].

Section WithRuntime.
Context `{Runtime}.

Definition _create_basic_docx_xml (paragraphs : list str) : bytes :=
  let '(h, document) := docx_document paragraphs in
  xml_tostring h document.

(** The [paragraphs] of [text_to_docx_bytes]. *)
Definition docx_paragraphs (text : str) : list str :=
  match filter (fun p => p <> []) (strip <$> split [LF; LF] text) with
  | [] => [[]]
  | (_ :: _) as paragraphs => paragraphs
  end.

(** The returned [dict], in insertion order. *)
Definition text_to_docx_bytes (text : str) : list (str * bytes) :=
  let paragraphs := docx_paragraphs text in
  let document_xml := _create_basic_docx_xml paragraphs in
  [ (lit "[Content_Types].xml", content_types_xml);
    (lit "_rels/.rels", rels_xml);
    (lit "word/document.xml", document_xml) ].

End WithRuntime.
End Docx.

(** ** Conversion orchestrator *)

(** One row of the log, before the CSV writer formats it. *)
Record log_row := mkRow {
  row_timestamp : str;
  row_input_path : Path;
  row_output_path : Path;
  row_src_format : str;
  row_dst_format : str;
  row_mode : str;
  row_duration_ms : float;
  row_chars_out : nat;
  row_omega_score : float
}.

(** The state the core acts on: the files (paths are compared as written:
    a case-sensitive file system, one spelling per file) and the rows of
    [sovereign_doc_log.csv], [None] while that file does not exist. *)
Record world := mkWorld {
  files : gmap Path node;
  log_file : option (list log_row)
}.

(** What a call observes of its environment: the clock, the time the
    conversion takes, and whether the log file can be opened for append. *)
Record env := mkEnv {
  env_now : str;
  env_duration_ms : float;
  env_log_writable : bool
}.

(** Computations that read and write the world and may raise. *)
Definition M (A : Type) : Type := world -> outcome A * world.

#[global] Instance M_ret : MRet M := fun A a w => (Ok a, w).
#[global] Instance M_bind : MBind M := fun A B k m w =>
  match m w with
  | (Ok a, w') => k a w'
  | (Raise e, w') => (Raise e, w')
  end.

Definition raise {A : Type} (e : exn) : M A := fun w => (Raise e, w).
Definition lift {A : Type} (o : outcome A) : M A := fun w => (o, w).
Definition get_files : M (gmap Path node) := fun w => (Ok (files w), w).
Definition put_file (p : Path) (b : bytes) : M unit :=
  fun w => (Ok tt, mkWorld (<[p := File b]> (files w)) (log_file w)).

Definition is_file (fs : gmap Path node) (p : Path) : bool :=
  match fs !! p with
  | Some (File _) => true
  | _ => false
  end.

Definition exists_ (fs : gmap Path node) (p : Path) : bool :=
  match fs !! p with
  | Some _ => true
  | None => false
  end.

Section Core.
Context `{UnicodeDB} `{Runtime}.
Import Py Pathlib Docx Score.

(** The loop of [_unique_path], for at most [fuel] tests of
    [candidate.exists()]. *)
Fixpoint _unique_path_loop (fuel : nat) (fs : gmap Path node)
    (base_path candidate : Path) (counter : nat) : outcome Path :=
  match fuel with
  | O => Raise Unbounded
  | S fuel' =>
      if exists_ fs candidate then
        match with_name base_path
                (stem base_path ++ lit " (" ++ str_of_nat counter ++ lit ")"
                 ++ suffix base_path) with
        | Ok candidate' =>
            _unique_path_loop fuel' fs base_path candidate' (S counter)
        | Raise e => Raise e
        end
      else Ok candidate
  end.

(** One more test than there are entries always finds a free name. *)
Definition _unique_path (base_path : Path) : M Path :=
  fs ← get_files;
  lift (_unique_path_loop (S (size fs)) fs base_path base_path 1).

(** [_log_conversion]: the row is appended; any failure is swallowed. *)
Definition _log_conversion (e : env) (input_path output_path : Path)
    (src_fmt dst_fmt mode : str) (duration_ms : float) (chars_out : nat)
    (omega_score : float) : M unit :=
  fun w =>
    let row := mkRow (env_now e) input_path output_path src_fmt dst_fmt mode
                 duration_ms chars_out omega_score in
    if env_log_writable e
    then (Ok tt, mkWorld (files w) (Some (default [] (log_file w) ++ [row])))
    else (Ok tt, w).

Definition extract_docx_text (docx_path : Path) : M str :=
  fs ← get_files;
  match fs !! docx_path with
  | Some (File b) =>
      match zip_read b DOCX_MAIN_XML with
      | None => raise (Domain (DocxUnreadable docx_path))
      | Some xml_bytes =>
          match xml_fromstring xml_bytes with
          | XmlParseError => raise (Domain (DocxXmlInvalid docx_path))
          | XmlValueError => raise ValueError
          | XmlLookupError => raise LookupError
          | XmlTree root =>
              match extracted_paragraphs root with
              | [] => mret []
              | (_ :: _) as paragraphs =>
                  mret (strip (join [LF; LF] paragraphs) ++ [LF])
              end
          end
      end
  | _ => raise (Domain (InputMissing docx_path))
  end.

(** [p.read_text(encoding="utf-8")] *)
Definition read_text (p : Path) : M str :=
  fs ← get_files;
  match fs !! p with
  | Some (File b) =>
      match utf8_decode_text b with
      | Some s => mret s
      | None => raise UnicodeDecodeError
      end
  | _ => raise OSError
  end.

(** [p.write_text(s, encoding="utf-8")]: the file is opened for writing,
    hence created or truncated, before [s] is encoded. *)
Definition write_text (p : Path) (s : str) : M unit :=
  fs ← get_files;
  match fs !! p with
  | Some Dir => raise OSError
  | _ =>
      match utf8_encode_text s with
      | Some b => put_file p b
      | None => put_file p [];; raise UnicodeEncodeError
      end
  end.

(** [with zipfile.ZipFile(p, "w") as zf: zf.writestr(...)] for each member. *)
Definition write_zip (p : Path) (members : list (str * bytes)) : M unit :=
  fs ← get_files;
  match fs !! p with
  | Some Dir => raise OSError
  | _ => put_file p (zip_write members)
  end.

Definition src_exts : list str := [lit ".docx"; lit ".txt"; lit ".md"].
Definition dst_formats : list str := [lit "txt"; lit "md"; lit "html"; lit "docx"].

(** The extract, transform and write steps of [convert_any], for a source
    extension and a destination format already lowercased and checked:
    the converted text. *)
Definition convert_and_write (input_path out_path : Path)
    (src_ext dst_format : str) : M str :=
  plain ← (if bool_decide (src_ext = lit ".docx")
           then extract_docx_text input_path
           else read_text input_path);
  if bool_decide (dst_format = lit "txt") then
    let converted := plain in
    write_text out_path converted;;
    mret converted
  else if bool_decide (dst_format = lit "md") then
    let converted :=
      if bool_decide (src_ext = lit ".md") then plain else txt_to_markdown plain in
    let converted :=
      if endswith converted [LF] then converted else converted ++ [LF] in
    write_text out_path converted;;
    mret converted
  else if bool_decide (dst_format = lit "html") then
    let converted :=
      if bool_decide (src_ext = lit ".md")
      then markdown_to_html plain else text_to_html plain in
    write_text out_path converted;;
    mret converted
  else
    let flat :=
      if bool_decide (src_ext = lit ".md")
      then markdown_to_plain_text plain else plain in
    let files := text_to_docx_bytes flat in
    write_zip out_path files;;
    mret flat.

Definition convert_any (e : env) (input_path : Path) (dst_format mode : str)
    (enable_log : bool) : M Path :=
  fs ← get_files;
  if negb (is_file fs input_path)
  then raise (Domain (InputMissing input_path))
  else
    let src_ext := lower (suffix input_path) in
    if negb (bool_decide (src_ext ∈ src_exts))
    then raise (Domain UnsupportedInput)
    else
      let dst_format := lower dst_format in
      if negb (bool_decide (dst_format ∈ dst_formats))
      then raise (Domain UnsupportedOutput)
      else
        base ← lift (with_suffix input_path []);
        raw_out ← lift (with_suffix base ([DOT] ++ dst_format));
        out_path ← _unique_path raw_out;
        converted ← convert_and_write input_path out_path src_ext dst_format;
        let duration_ms := env_duration_ms e in
        let chars_out := length converted in
        let omega_score := _compute_omega_score converted dst_format in
        (if enable_log
         then _log_conversion e input_path out_path
                (lstrip_chars [DOT] src_ext) dst_format mode duration_ms
                chars_out omega_score
         else mret tt);;
        mret out_path.

End Core.

(** ** Reference instances

    The theorems hold for every [UnicodeDB] and every [Runtime].  The
    examples run with the character database cut down to Latin-1 (code
    points above 255 taken as caseless) and with a runtime for ASCII files without carriage returns (on which UTF-8 and
    newline translation are the identity) that reads no archive. *)

Definition latin1_db : UnicodeDB := {|
  uc_isupper c := Py.in_range 192 214 c || Py.in_range 216 222 c;
  uc_islower c :=
    N.eqb c 170 || N.eqb c 181 || N.eqb c 186
    || Py.in_range 223 246 c || Py.in_range 248 255 c;
  uc_istitle _ := false;
  uc_isdigit c := N.eqb c 178 || N.eqb c 179 || N.eqb c 185;
  uc_lower s :=
    (fun c => if Py.in_range 65 90 c || Py.in_range 192 214 c
                 || Py.in_range 216 222 c
              then (c + 32)%N else c) <$> s
|}.

Definition ascii_text (b : bytes) : bool :=
  forallb (fun c => Py.is_ascii c && negb (N.eqb c Py.CR)) b.

Definition ascii_runtime : Runtime := {|
  utf8_decode_text b := if ascii_text b then Some b else None;
  utf8_encode_text s := if forallb Py.is_ascii s then Some s else None;
  zip_read _ _ := None;
  zip_write l := concat (snd <$> l);
  xml_fromstring _ := XmlParseError;
  xml_tostring _ _ := []
|}.

(** A runtime whose archives and serialized trees can be read back: each
    name, text and list is written after its length.  The runs of the
    package theorems use it. *)
Module Codec.

Fixpoint encode_tree (e : element) : bytes :=
  match e with
  | Elem tag text children =>
      [N.of_nat (length tag)] ++ tag
      ++ match text with
         | None => [0%N]
         | Some t => [1%N; N.of_nat (length t)] ++ t
         end
      ++ [N.of_nat (length children)]
      ++ List.concat (List.map encode_tree children)
  end.

Definition decode_text (s : bytes) : option (option str * bytes) :=
  match s with
  | flag :: s' =>
      if N.eqb flag 0 then Some (None, s')
      else
        match s' with
        | n :: s'' =>
            Some (Some (take (N.to_nat n) s''), drop (N.to_nat n) s'')
        | [] => None
        end
  | [] => None
  end.

Fixpoint decode_tree (fuel : nat) (s : bytes) : option (element * bytes) :=
  match fuel with
  | O => None
  | S fuel' =>
      match s with
      | n :: s1 =>
          let tag := take (N.to_nat n) s1 in
          match decode_text (drop (N.to_nat n) s1) with
          | Some (text, k :: s2) =>
              (fix children (count : nat) (s : bytes) (acc : list element)
                 : option (element * bytes) :=
                 match count with
                 | O => Some (Elem tag text (rev acc), s)
                 | S count' =>
                     match decode_tree fuel' s with
                     | Some (c, s') => children count' s' (c :: acc)
                     | None => None
                     end
                 end) (N.to_nat k) s2 []
          | _ => None
          end
      | [] => None
      end
  end.

Definition encode_members (l : list (str * bytes)) : bytes :=
  List.concat
    (List.map (fun m => [N.of_nat (length m.1)] ++ m.1
                        ++ [N.of_nat (length m.2)] ++ m.2) l).

Fixpoint decode_members (fuel : nat) (b : bytes) : list (str * bytes) :=
  match fuel with
  | O => []
  | S fuel' =>
      match b with
      | n :: b1 =>
          match drop (N.to_nat n) b1 with
          | m :: b2 =>
              (take (N.to_nat n) b1, take (N.to_nat m) b2)
              :: decode_members fuel' (drop (N.to_nat m) b2)
          | [] => []
          end
      | [] => []
      end
  end.

Definition member (b : bytes) (nm : str) : option bytes :=
  snd <$> List.find (fun m => bool_decide (m.1 = nm))
            (decode_members (length b) b).

End Codec.

Definition codec_runtime : Runtime := {|
  utf8_decode_text b := if ascii_text b then Some b else None;
  utf8_encode_text s := if forallb Py.is_ascii s then Some s else None;
  zip_read := Codec.member;
  zip_write := Codec.encode_members;
  xml_fromstring b :=
    match Codec.decode_tree (S (length b)) b with
    | Some (root, []) => XmlTree root
    | _ => XmlParseError
    end;
  xml_tostring h root :=
    match Docx.tree_of (S (length h)) h root with
    | Some e => Codec.encode_tree e
    | None => []
    end
|}.

(** ** Command line (sovereign_doc_cli.py) *)

Module Cli.
Import Py Pathlib.

(** The values [--to] accepts; argparse rejects every other before [main]
    goes on. *)
Inductive dst_choice := ToTxt | ToMd | ToHtml | ToDocx.

Definition choice_str (c : dst_choice) : str :=
  match c with
  | ToTxt => lit "txt"
  | ToMd => lit "md"
  | ToHtml => lit "html"
  | ToDocx => lit "docx"
  end.

(** The result of [parse_args]; [arg_input] is the input path once
    [expanduser().resolve()] has made it absolute. *)
Record args := mkArgs {
  arg_input : Path;
  arg_dst_format : dst_choice;
  arg_no_log : bool
}.

(** A line printed, with the values it is formatted from; the message of an
    exception is kept as the exception. *)
Inductive line :=
  | SingleError (d : SovereignDocError)      (* stderr, [SOVEREIGN DOC ERROR] *)
  | SingleFatal (e : exn)                    (* stderr, [SOVEREIGN DOC FATAL] *)
  | SingleConverted (src_name out_name : str)
  | SingleSaved (out_path : Path)
  | BatchEmpty (folder : Path)
  | BatchStart (n : nat) (folder : Path) (dst_format : str)
  | BatchError (f_name : str) (d : SovereignDocError)              (* stderr *)
  | BatchFatal (f_name : str) (e : exn)                            (* stderr *)
  | BatchOk (f_name out_name : str)
  | BatchCompleted (success_count n : nat).


(** What a run of the command line gives back: the exit status and the
    lines printed, in order. *)
Record report := mkReport {
  status : Z;
  console : list line
}.

(** [str(p)] of an absolute path. *)
Definition path_str (p : Path) : str :=
  if bool_decide (parent p = [SLASH]) then SLASH :: name p
  else parent p ++ SLASH :: name p.

(** Comparison of two strings by code points. *)
Fixpoint str_ltb (s t : str) : bool :=
  match s, t with
  | _, [] => false
  | [], _ :: _ => true
  | a :: s', b :: t' => N.ltb a b || (N.eqb a b && str_ltb s' t')
  end.

(** The order of [sorted] on the entries of one folder: by name. *)
Definition name_le (p q : Path) : Prop := str_ltb (name q) (name p) = false.

#[global] Instance name_le_dec (p q : Path) : Decision (name_le p q).
Proof. unfold name_le. apply _. Defined.

(** [folder.glob("*.docx")]: the entries of the folder, files or not, whose
    name ends with .docx as written. *)
Definition glob_docx (fs : gmap Path node) (folder : Path) : list Path :=
  List.filter
    (fun q => bool_decide (parent q = path_str folder)
              && endswith (name q) (lit ".docx"))
    (fst <$> map_to_list fs).

Section Commands.
Context `{UnicodeDB} `{Runtime}.

Definition _convert_single (e : env) (path : Path) (dst_format : str)
    (logging_enabled : bool) (w : world) : report * world :=
  match convert_any e path dst_format (lit "cli-single") logging_enabled w with
  | (Ok out_path, w') =>
      (mkReport 0 [SingleConverted (name path) (name out_path);
                   SingleSaved out_path], w')
  | (Raise (Domain d), w') => (mkReport 1 [SingleError d], w')
  | (Raise x, w') => (mkReport 1 [SingleFatal x], w')
  end.

(** The loop of [_convert_folder] over the files left; [clock i] is what
    the conversion of the [i]-th file observes of its environment.  It
    gives the lines printed and [success_count]. *)
Fixpoint _convert_folder_loop (clock : nat -> env) (i : nat)
    (docx_files : list Path) (dst_format : str) (logging_enabled : bool)
    (success_count : nat) (w : world) : (list line * nat) * world :=
  match docx_files with
  | [] => (([], success_count), w)
  | f :: rest =>
      match convert_any (clock i) f dst_format (lit "cli-batch")
              logging_enabled w with
      | (Ok out_path, w') =>
          let '((ls, n), w'') :=
            _convert_folder_loop clock (S i) rest dst_format logging_enabled
              (S success_count) w' in
          ((BatchOk (name f) (name out_path) :: ls, n), w'')
      | (Raise (Domain d), w') =>
          let '((ls, n), w'') :=
            _convert_folder_loop clock (S i) rest dst_format logging_enabled
              success_count w' in
          ((BatchError (name f) d :: ls, n), w'')
      | (Raise x, w') =>
          let '((ls, n), w'') :=
            _convert_folder_loop clock (S i) rest dst_format logging_enabled
              success_count w' in
          ((BatchFatal (name f) x :: ls, n), w'')
      end
  end.

Definition _convert_folder (clock : nat -> env) (folder : Path)
    (dst_format : str) (logging_enabled : bool) (w : world) : report * world :=
  let docx_files := merge_sort name_le (glob_docx (files w) folder) in
  match docx_files with
  | [] => (mkReport 0 [BatchEmpty folder], w)
  | _ :: _ =>
      let '((ls, n), w') :=
        _convert_folder_loop clock 0 docx_files dst_format logging_enabled 0 w in
      (mkReport 0
         (BatchStart (length docx_files) folder dst_format :: ls
          ++ [BatchCompleted n (length docx_files)]), w')
  end.

Definition main (clock : nat -> env) (a : args) (w : world) : report * world :=
  let input_path := arg_input a in
  let logging_enabled := negb (arg_no_log a) in
  match files w !! input_path with
  | Some Dir =>
      _convert_folder clock input_path (choice_str (arg_dst_format a))
        logging_enabled w
  | _ =>
      _convert_single (clock 0) input_path (choice_str (arg_dst_format a))
        logging_enabled w
  end.

End Commands.
End Cli.

(* ==== Properties ==== *)

(** * Properties *)

(** ** Python strings: unit checks and basic lemmas *)

Module PyFacts.
Import Py.

Example splitlines_boundaries :
  splitlines (lit "a" ++ [CR; LF] ++ lit "b" ++ [CR] ++ lit "c" ++ [LF; LF])
  = [lit "a"; lit "b"; lit "c"; []].
Proof. reflexivity. Qed.

Example split_ws_max1_rest :
  split_ws_max1 (lit "  1.  two  words ") = [lit "1."; lit "two  words "].
Proof. reflexivity. Qed.

Example split_overlap :
  split [LF; LF] (lit "a" ++ [LF; LF; LF] ++ lit "b") = [lit "a"; LF :: lit "b"].
Proof. reflexivity. Qed.

Example count_overlap : count [LF; LF] [LF; LF; LF] = 1.
Proof. reflexivity. Qed.

Lemma drop_while_app_all (f : N -> bool) (ws s : str) :
  forallb f ws = true -> drop_while f (ws ++ s) = drop_while f s.
Proof.
  induction ws as [|c ws IH]; simpl; [reflexivity|].
  intros Hc. apply andb_prop in Hc as [Hc Hws]. rewrite Hc. auto.
Qed.

Lemma lstrip_app_space (ws s : str) :
  forallb isspace ws = true -> lstrip (ws ++ s) = lstrip s.
Proof. apply drop_while_app_all. Qed.

Lemma strip_app_space (ws s : str) :
  forallb isspace ws = true -> strip (ws ++ s) = strip s.
Proof. intros Hws. unfold strip. f_equal. by apply lstrip_app_space. Qed.

(** [drop_while] removes a prefix made of characters satisfying [f] and
    stops at the first character that does not. *)
Lemma drop_while_split (f : N -> bool) (s : str) :
  exists ws, forallb f ws = true /\ s = ws ++ drop_while f s
             /\ match drop_while f s with
                | c :: _ => f c = false
                | [] => True
                end.
Proof.
  induction s as [|c s (ws & Hws & Hs & Hhd)]; simpl.
  - exists []. done.
  - destruct (f c) eqn:Hc.
    + exists (c :: ws). simpl. rewrite Hc, Hws. split; [done|].
      split; [by f_equal | done].
    + exists []. simpl. by rewrite Hc.
Qed.

Lemma startswith_app (p r : str) : startswith (p ++ r) p = true.
Proof.
  induction p as [|a p IH]; [done|].
  cbn [app startswith]. rewrite N.eqb_refl. exact IH.
Qed.

End PyFacts.

(** ** Plain-text heuristics *)

Section TxtToMarkdown.
Context `{UnicodeDB}.
Import Py.

(** C3. On the text "Hello World", a blank line and two lines "• item one"
    and "• item two", each ended by a line feed, [txt_to_markdown] returns
    "# Hello World", a blank line, "- item one" and "- item two", each ended
    by a line feed.  The bullet glyph is not an ASCII character: that it is
    not an uppercase letter is a fact of the character database. *)
Theorem txt_to_markdown_hello_world :
  uc_isupper BULLET = false ->
  txt_to_markdown
    (lit "Hello World" ++ [LF; LF] ++ [BULLET] ++ lit " item one" ++ [LF]
     ++ [BULLET] ++ lit " item two" ++ [LF])
  = lit "# Hello World" ++ [LF; LF] ++ lit "- item one" ++ [LF]
    ++ lit "- item two" ++ [LF].
Proof.
  destruct H as [up lo ti di low]. simpl. intros Hb.
  vm_compute in Hb. vm_compute. rewrite Hb. reflexivity.
Qed.

End TxtToMarkdown.

Lemma txt_to_markdown_hello_world_latin1 :
  @uc_isupper latin1_db BULLET = false
  /\ @txt_to_markdown latin1_db
       (Py.lit "Hello World" ++ [Py.LF; Py.LF] ++ [BULLET] ++ Py.lit " item one"
        ++ [Py.LF] ++ [BULLET] ++ Py.lit " item two" ++ [Py.LF])
     = Py.lit "# Hello World" ++ [Py.LF; Py.LF] ++ Py.lit "- item one" ++ [Py.LF]
       ++ Py.lit "- item two" ++ [Py.LF].
Proof.
  split; [reflexivity|].
  apply (@txt_to_markdown_hello_world latin1_db). reflexivity.
Defined.

(** ** Markdown to HTML *)

Module HtmlFacts.
Import Py PyFacts.

(** Literals are compared as lists of code points. *)
Ltac lits :=
  repeat match goal with
    | |- context [lit ?s] =>
        let v := eval vm_compute in (lit s) in change (lit s) with v
    | H : context [lit ?s] |- _ =>
        let v := eval vm_compute in (lit s) in change (lit s) with v in H
    end.

Lemma startswith_cons (s : str) (a : N) (p : str) :
  startswith s (a :: p) = true <-> exists s', s = a :: s' /\ startswith s' p = true.
Proof.
  split.
  - destruct s as [|b s]; cbn [startswith]; [discriminate|].
    intros Hs. apply andb_prop in Hs as [Hab Hs].
    apply N.eqb_eq in Hab as ->. eauto.
  - intros (s' & -> & Hs). cbn [startswith]. by rewrite N.eqb_refl.
Qed.

Ltac sw_inv :=
  lits;
  repeat match goal with
    | H : startswith _ (_ :: _) = true |- _ =>
        apply startswith_cons in H as (? & -> & H)
    end.

Lemma h3_not_h2 (s : str) :
  startswith s (lit "### ") = true -> startswith s (lit "## ") = false.
Proof. intros Hs. sw_inv. reflexivity. Qed.

Lemma h3_not_h1 (s : str) :
  startswith s (lit "### ") = true -> startswith s (lit "# ") = false.
Proof. intros Hs. sw_inv. reflexivity. Qed.

Lemma h2_not_h1 (s : str) :
  startswith s (lit "## ") = true -> startswith s (lit "# ") = false.
Proof. intros Hs. sw_inv. reflexivity. Qed.

Lemma h2_not_h3 (s : str) :
  startswith s (lit "## ") = true -> startswith s (lit "### ") = false.
Proof. intros Hs. sw_inv. reflexivity. Qed.

Lemma h1_not_h3 (s : str) :
  startswith s (lit "# ") = true -> startswith s (lit "### ") = false.
Proof. intros Hs. sw_inv. reflexivity. Qed.

Lemma h1_not_h2 (s : str) :
  startswith s (lit "# ") = true -> startswith s (lit "## ") = false.
Proof. intros Hs. sw_inv. reflexivity. Qed.

Definition bullet_markers : list str := [lit "- "; lit "* "; lit "+ "].

Lemma bullet_not_heading (s : str) :
  startswith_any s bullet_markers = true ->
  startswith s (lit "### ") = false /\ startswith s (lit "## ") = false
  /\ startswith s (lit "# ") = false.
Proof.
  unfold startswith_any, bullet_markers. cbn [existsb].
  rewrite orb_false_r. intros Hs.
  apply orb_prop in Hs as [Hs|Hs]; [|apply orb_prop in Hs as [Hs|Hs]];
    sw_inv; repeat split; reflexivity.
Qed.

(** The stripped line starts with one of the six block markers. *)
Definition is_marker (stripped : str) : bool :=
  startswith stripped (lit "### ") || startswith stripped (lit "## ")
  || startswith stripped (lit "# ") || startswith_any stripped bullet_markers.

Lemma markdown_to_html_line_strip (st : html_state) (l1 l2 : str) :
  strip l1 = strip l2 ->
  markdown_to_html_line st l1 = markdown_to_html_line st l2.
Proof. unfold markdown_to_html_line. by intros ->. Qed.

End HtmlFacts.

(** ** List tags of [markdown_to_html] are balanced *)

Module ListBalance.
Import Py PyFacts HtmlFacts.

Definition UL : str := lit "<ul>".
Definition ULC : str := lit "</ul>".
Definition LT : N := 60.

(** The document shell after the last line of the body. *)
Definition closing_tags : str := lit "</body>" ++ [LF] ++ lit "</html>" ++ [LF].

(** A piece of output is neutral when, put in front of any text, it adds no
    occurrence of either list tag. *)
Definition neutral (l : str) : Prop :=
  forall r, count UL (l ++ r) = count UL r /\ count ULC (l ++ r) = count ULC r.

Lemma neutral_nil : neutral [].
Proof. by intros r. Qed.

Lemma neutral_app (a b : str) : neutral a -> neutral b -> neutral (a ++ b).
Proof.
  intros Ha Hb r. rewrite <- app_assoc.
  destruct (Ha (b ++ r)) as [-> ->]. apply Hb.
Qed.

(** Both tags start with "<": text without that character is neutral. *)
Lemma neutral_no_lt (t : str) : Forall (fun c => c <> LT) t -> neutral t.
Proof.
  induction 1 as [|c t Hc _ IH]; [apply neutral_nil|].
  intros r. destruct (IH r) as [IH1 IH2].
  unfold count, UL, ULC in *. lits. cbn [app count_from startswith].
  assert (N.eqb 60 c = false) as -> by (apply N.eqb_neq; auto).
  by cbn [andb].
Qed.

Lemma replace_char_no_lt (old : N) (new s : str) :
  Forall (fun c => c <> LT) new ->
  (old = LT \/ Forall (fun c => c <> LT) s) ->
  Forall (fun c => c <> LT) (replace_char old new s).
Proof.
  intros Hnew Hs. unfold replace_char.
  induction s as [|c s IH]; cbn [flat_map]; [constructor|].
  apply Forall_app. split.
  - destruct (N.eqb_spec c old) as [->|Hne]; [done|].
    constructor; [|constructor].
    destruct Hs as [->|Hs]; [done|]. by inversion Hs.
  - apply IH. destruct Hs as [?|Hs]; [by left|]. right. by inversion Hs.
Qed.

Lemma html_escape_no_lt (s : str) : Forall (fun c => c <> LT) (_html_escape s).
Proof.
  unfold _html_escape.
  apply replace_char_no_lt; [by repeat constructor|]. right.
  apply replace_char_no_lt; [by repeat constructor|]. by left.
Qed.

Lemma neutral_escaped (s : str) : neutral (_html_escape s).
Proof. apply neutral_no_lt, html_escape_no_lt. Qed.

(** A tag other than the two list tags, around escaped text. *)
Lemma neutral_wrapped (opening closing s : str) :
  neutral opening -> neutral closing ->
  neutral (opening ++ _html_escape s ++ closing).
Proof.
  intros Ho Hc. apply neutral_app; [done|].
  apply neutral_app; [apply neutral_escaped | done].
Qed.

(** The number of list-open and list-close lines among the lines emitted
    so far. *)
Inductive tally : list str -> nat -> nat -> Prop :=
| tally_nil : tally [] 0 0
| tally_open ls o c : tally ls o c -> tally (ls ++ [UL]) (S o) c
| tally_close ls o c : tally ls o c -> tally (ls ++ [ULC]) o (S c)
| tally_neutral ls l o c : tally ls o c -> neutral l -> tally (ls ++ [l]) o c.

Definition unlines (ls : list str) : str :=
  concat ((fun l => l ++ [LF]) <$> ls).

Lemma unlines_snoc (ls : list str) (l : str) :
  unlines (ls ++ [l]) = unlines ls ++ l ++ [LF].
Proof.
  unfold unlines. rewrite fmap_app, concat_app. cbn. by rewrite app_nil_r.
Qed.

Lemma join_unlines (ls : list str) (r : str) :
  ls <> [] -> join [LF] ls ++ LF :: r = unlines ls ++ r.
Proof.
  induction ls as [|l ls IH]; [done|]. intros _.
  destruct ls as [|l' ls].
  - cbn. by rewrite app_nil_r, <- app_assoc.
  - change (join [LF] (l :: l' :: ls)) with (l ++ [LF] ++ join [LF] (l' :: ls)).
    change (unlines (l :: l' :: ls)) with ((l ++ [LF]) ++ unlines (l' :: ls)).
    rewrite <- !app_assoc. do 2 f_equal. by apply IH.
Qed.

Lemma neutral_LF : neutral [LF].
Proof. intros r. split; reflexivity. Qed.

(** Occurrences of the tags in the text count the tags emitted as lines. *)
Lemma count_unlines (ls : list str) (o c : nat) :
  tally ls o c ->
  forall r, count UL (unlines ls ++ r) = o + count UL r
            /\ count ULC (unlines ls ++ r) = c + count ULC r.
Proof.
  induction 1 as [|ls o c _ IH|ls o c _ IH|ls l o c _ IH Hl]; intros r.
  - done.
  - rewrite unlines_snoc, <- !app_assoc.
    destruct (IH (UL ++ [LF] ++ r)) as [-> ->].
    change (count UL (UL ++ [LF] ++ r)) with (S (count UL r)).
    change (count ULC (UL ++ [LF] ++ r)) with (count ULC r).
    split; lia.
  - rewrite unlines_snoc, <- !app_assoc.
    destruct (IH (ULC ++ [LF] ++ r)) as [-> ->].
    change (count UL (ULC ++ [LF] ++ r)) with (count UL r).
    change (count ULC (ULC ++ [LF] ++ r)) with (S (count ULC r)).
    split; lia.
  - rewrite unlines_snoc, <- !app_assoc.
    destruct (IH (l ++ [LF] ++ r)) as [-> ->].
    destruct (Hl ([LF] ++ r)) as [-> ->].
    split; f_equal; reflexivity.
Qed.

(** The invariant of the loop: one more list opened than closed exactly
    while [in_list] holds. *)
Definition balanced (st : html_state) : Prop :=
  exists o c, tally st.2 o c /\ o = c + (if st.1 then 1 else 0).

Lemma balanced_init : balanced (false, []).
Proof. exists 0, 0. split; [constructor | done]. Qed.

Lemma balanced_close_list (st : html_state) :
  balanced st -> balanced (close_list st) /\ (close_list st).1 = false.
Proof.
  destruct st as [[] ls]; intros (o & c & Ht & Ho); cbn in *.
  - split; [|done]. exists o, (S c).
    split; [exact (tally_close ls o c Ht) | cbn [fst]; lia].
  - split; [|done]. by exists o, c.
Qed.

Lemma balanced_append_neutral (st : html_state) (l : str) :
  balanced st -> neutral l -> balanced (append_line st l).
Proof.
  intros (o & c & Ht & Ho) Hl. exists o, c. split; [|done].
  by apply tally_neutral.
Qed.

Lemma balanced_open (st : html_state) :
  balanced st ->
  balanced (if st.1 then st else (true, st.2 ++ [lit "<ul>"])).
Proof.
  destruct st as [[] ls]; [done|]. intros (o & c & Ht & Ho). cbn in *.
  exists (S o), c. split; [exact (tally_open ls o c Ht) | cbn [fst]; lia].
Qed.

Ltac neutral_tag := intros ?; split; reflexivity.

Lemma balanced_step (st : html_state) (line : str) :
  balanced st -> balanced (markdown_to_html_line st line).
Proof.
  intros Hst. unfold markdown_to_html_line.
  destruct (balanced_close_list st Hst) as [Hcl _].
  destruct (strip line) as [|ch s]; [done|].
  destruct (startswith (ch :: s) (lit "### "));
    [|destruct (startswith (ch :: s) (lit "## "));
      [|destruct (startswith (ch :: s) (lit "# "));
        [|destruct (startswith_any (ch :: s) _)]]].
  - apply balanced_append_neutral; [done|]. apply neutral_wrapped; neutral_tag.
  - apply balanced_append_neutral; [done|]. apply neutral_wrapped; neutral_tag.
  - apply balanced_append_neutral; [done|]. apply neutral_wrapped; neutral_tag.
  - apply balanced_append_neutral; [by apply balanced_open|].
    apply neutral_wrapped; neutral_tag.
  - apply balanced_append_neutral; [done|]. apply neutral_wrapped; neutral_tag.
Qed.

Lemma balanced_foldl (lines : list str) (st : html_state) :
  balanced st -> balanced (foldl markdown_to_html_line st lines).
Proof.
  revert st. induction lines as [|l lines IH]; intros st Hst; [done|].
  cbn [foldl]. by apply IH, balanced_step.
Qed.

(** The emitted lines hold as many list-open as list-close lines. *)
Lemma markdown_html_lines_tally (md : str) :
  exists n, tally (markdown_html_lines md) n n.
Proof.
  unfold markdown_html_lines.
  destruct (balanced_close_list _
              (balanced_foldl (splitlines md) _ balanced_init))
    as [(o & c & Ht & Ho) Hin].
  rewrite Hin in Ho. exists c. by replace o with c in Ht by lia.
Qed.

(** C4. In the output of [markdown_to_html], for every input, the tag
    "<ul>" occurs as often as the tag "</ul>"; and this already holds of the
    output up to the closing "</body>" tag: every list is closed before that
    tag is emitted. *)
Theorem markdown_to_html_lists_closed (md : str) :
  count UL (markdown_to_html md) = count ULC (markdown_to_html md)
  /\ exists body,
       markdown_to_html md = body ++ closing_tags
       /\ count UL body = count ULC body.
Proof.
  destruct (markdown_html_lines_tally md) as [n Hn].
  unfold markdown_to_html.
  assert (Hhead : neutral html_header) by neutral_tag.
  change html_footer with (LF :: closing_tags).
  destruct (markdown_html_lines md) as [|l ls] eqn:E.
  - split; [reflexivity|].
    exists (html_header ++ [LF]). split; reflexivity.
  - assert (Hne : l :: ls <> []) by done.
    split.
    + destruct (Hhead (join [LF] (l :: ls) ++ LF :: closing_tags)) as [-> ->].
      rewrite join_unlines by done.
      destruct (count_unlines _ _ _ Hn closing_tags) as [-> ->]. reflexivity.
    + exists (html_header ++ join [LF] (l :: ls) ++ [LF]). split.
      * by rewrite <- !app_assoc.
      * destruct (Hhead (join [LF] (l :: ls) ++ [LF])) as [-> ->].
        rewrite join_unlines by done.
        destruct (count_unlines _ _ _ Hn []) as [-> ->]. reflexivity.
Qed.

Example markdown_to_html_two_lists :
  markdown_to_html (lit "- a" ++ [LF] ++ lit "text" ++ [LF] ++ lit "* b <ul>")
  = html_header
    ++ join [LF] [lit "<ul>"; lit "<li>a</li>"; lit "</ul>"; lit "<p>text</p>";
                  lit "<ul>"; lit "<li>b &lt;ul&gt;</li>"; lit "</ul>"]
    ++ html_footer.
Proof. reflexivity. Qed.

End ListBalance.

(** ** Markdown to plain text *)

Section MarkdownToPlainText.
Context `{UnicodeDB}.
Import Py PyFacts HtmlFacts.

(** The three kinds of line from which [markdown_to_plain_text] strips a
    marker, in the words of the specification.  A heading line starts, after
    its leading whitespace, with "#"; a bullet line with "- ", "* " or
    "+ ". *)
Definition is_heading_line (line : str) : bool :=
  startswith (lstrip line) (lit "#").

Definition is_bullet_line (line : str) : bool :=
  startswith_any (lstrip line) bullet_markers.

Definition nonempty (s : str) : bool :=
  match s with [] => false | _ :: _ => true end.

(** An ordered-list line as the specification words it: "digits with optional
    trailing period, followed by whitespace and content", the digits being
    0 to 9. *)
Definition ordered_line_as_stated (line : str) : bool :=
  let s := lstrip line in
  let digits := take_while (in_range 48 57) s in
  let rest := drop_while (in_range 48 57) s in
  let rest :=
    match rest with
    | c :: r => if N.eqb c Pathlib.DOT then r else rest
    | [] => rest
    end in
  nonempty digits
  && match rest with c :: _ => isspace c | [] => false end
  && nonempty (lstrip rest).

(** The first word of a line, and what follows the whitespace after it. *)
Definition first_word (line : str) : str :=
  take_while (fun c => negb (isspace c)) (lstrip line).

Definition after_first_word (line : str) : str :=
  lstrip (drop_while (fun c => negb (isspace c)) (lstrip line)).

(** One or more digits, in the sense of [str.isdigit], then any number of
    periods. *)
Definition digits_then_periods (word : str) : bool :=
  nonempty (take_while ch_isdigit word)
  && forallb (N.eqb Pathlib.DOT) (drop_while ch_isdigit word).

(** A numbered line: the first word is digits then periods, and content
    follows it.  Every line from which the code strips a number is one
    ([isdigit_rstrip_periods]); the ordered-list lines as stated are numbered
    lines ([ordered_line_numbered]), and so are "1... x" and a line numbered
    with digits that are not 0 to 9. *)
Definition numbered_line (line : str) : bool :=
  digits_then_periods (first_word line) && nonempty (after_first_word line).

Lemma take_drop_while (f : N -> bool) (s : str) :
  s = take_while f s ++ drop_while f s.
Proof.
  induction s as [|c s IH]; [done|]. cbn. destruct (f c); [|done].
  cbn. by f_equal.
Qed.

Lemma take_while_all (f : N -> bool) (s : str) :
  forallb f (take_while f s) = true.
Proof.
  induction s as [|c s IH]; [done|]. cbn. destruct (f c) eqn:Hc; [|done].
  cbn. by rewrite Hc.
Qed.

Lemma take_while_app (f : N -> bool) (a b : str) :
  forallb f a = true ->
  match b with c :: _ => f c = false | [] => True end ->
  take_while f (a ++ b) = a /\ drop_while f (a ++ b) = b.
Proof.
  intros Ha Hb. induction a as [|c a IH]; cbn.
  - destruct b as [|c b]; [done|]. cbn. by rewrite Hb.
  - cbn in Ha. apply andb_prop in Ha as [Hc Ha]. rewrite Hc.
    destruct (IH Ha) as [-> ->]. done.
Qed.

Lemma lstrip_idem (s : str) : lstrip (lstrip s) = lstrip s.
Proof.
  unfold lstrip.
  destruct (drop_while_split isspace s) as (ws & _ & _ & Hhd).
  destruct (drop_while isspace s) as [|c t]; [done|]. cbn. by rewrite Hhd.
Qed.

(** [s.rstrip(chars)] takes off a suffix made of [chars]. *)
Lemma rstrip_chars_split (chars s : str) :
  exists tail, s = rstrip_chars chars s ++ tail
               /\ forallb (fun c => mem c chars) tail = true.
Proof.
  unfold rstrip_chars.
  destruct (drop_while_split (fun c => mem c chars) (rev s))
    as (ws & Hws & Hs & _).
  exists (rev ws). split.
  - rewrite <- rev_app_distr, <- Hs. by rewrite rev_involutive.
  - rewrite forallb_forall in *. intros x Hx. apply Hws.
    by apply in_rev.
Qed.

Lemma isdigit_inv (s : str) :
  isdigit s = true -> s <> [] /\ forallb ch_isdigit s = true.
Proof. destruct s; [done|]. by intros Hs. Qed.

(** The test of the code on the first word, [rstrip(".").isdigit()], holds
    only of digits followed by periods. *)
Lemma isdigit_rstrip_periods (word : str) :
  isdigit (rstrip_chars (lit ".") word) = true ->
  digits_then_periods word = true.
Proof.
  intros Hd. apply isdigit_inv in Hd as [Hne Hall].
  destruct (rstrip_chars_split (lit ".") word) as (tail & Hword & Htail).
  assert (Hdots : forallb (N.eqb Pathlib.DOT) tail = true).
  { rewrite forallb_forall in Htail |- *. intros x Hx.
    specialize (Htail x Hx). change (lit ".") with [Pathlib.DOT] in Htail.
    cbn in Htail. rewrite orb_false_r in Htail.
    apply N.eqb_eq in Htail as ->. apply N.eqb_refl. }
  assert (Hhd : match tail with c :: _ => ch_isdigit c = false | [] => True end).
  { destruct tail as [|c tail]; [done|]. cbn [forallb] in Hdots.
    apply andb_prop in Hdots as [Hc _]. apply N.eqb_eq in Hc as <-.
    reflexivity. }
  destruct (take_while_app ch_isdigit _ _ Hall Hhd) as [Htake Hdrop].
  unfold digits_then_periods. rewrite Hword, Htake, Hdrop, Hdots.
  by destruct (rstrip_chars (lit ".") word).
Qed.

(** What the loop keeps of a line that is no heading line, no bullet line and
    no numbered line: the line without its leading whitespace. *)
Lemma default_line_kept (line : str) :
  is_heading_line line = false ->
  is_bullet_line line = false ->
  numbered_line line = false ->
  markdown_to_plain_text_line line = lstrip line.
Proof.
  unfold is_heading_line, is_bullet_line, numbered_line.
  intros Hh Hb Hn.
  unfold markdown_to_plain_text_line. fold bullet_markers. rewrite Hh, Hb.
  unfold split_ws_max1. rewrite lstrip_idem.
  destruct (lstrip line) as [|c t] eqn:Hline; [done|].
  fold (lstrip (drop_while (fun c0 => negb (isspace c0)) (c :: t))).
  unfold first_word, after_first_word in Hn. rewrite Hline in Hn.
  destruct (lstrip (drop_while _ (c :: t))) as [|d rest]; [done|].
  destruct (isdigit (rstrip_chars (lit ".") _)) eqn:Hd; [|done].
  apply isdigit_rstrip_periods in Hd. by rewrite Hd in Hn.
Qed.

(** The text has a character that is no whitespace. *)
Definition has_text (s : str) : bool := existsb (fun c => negb (isspace c)) s.

Lemma has_text_app (a b : str) : has_text (a ++ b) = has_text a || has_text b.
Proof. apply existsb_app. Qed.

Lemma has_text_rev (s : str) : has_text (rev s) = has_text s.
Proof.
  unfold has_text. apply eq_true_iff_eq. rewrite !existsb_exists.
  split; intros (x & Hx & Hc); exists x; (split; [|done]);
    [by apply in_rev | by apply in_rev in Hx].
Qed.

Lemma lstrip_has_text (s : str) : lstrip s <> [] -> has_text (lstrip s) = true.
Proof.
  unfold lstrip. destruct (drop_while_split isspace s) as (_ & _ & _ & Hhd).
  destruct (drop_while isspace s) as [|c t]; [done|]. intros _.
  cbn. by rewrite Hhd.
Qed.

Lemma rstrip_has_text (s : str) : rstrip s <> [] -> has_text (rstrip s) = true.
Proof.
  unfold rstrip. intros Hne. rewrite has_text_rev. apply lstrip_has_text.
  intros Heq. apply Hne. unfold lstrip in Heq. by rewrite Heq.
Qed.

Lemma strip_has_text (s : str) : strip s <> [] -> has_text (strip s) = true.
Proof. apply rstrip_has_text. Qed.

Lemma lstrip_app_text (a r : str) :
  has_text a = true -> lstrip (a ++ r) = lstrip a ++ r.
Proof.
  unfold lstrip. induction a as [|c a IH]; [done|]. cbn.
  destruct (isspace c); cbn; [exact IH | done].
Qed.

Lemma rstrip_app_text (l b : str) :
  has_text b = true -> rstrip (l ++ b) = l ++ rstrip b.
Proof.
  intros Hb. unfold rstrip. rewrite rev_app_distr.
  fold (lstrip (rev b ++ rev l)). rewrite lstrip_app_text
    by (by rewrite has_text_rev).
  by rewrite rev_app_distr, rev_involutive.
Qed.

(** Stripping a text takes nothing from its middle. *)
Lemma strip_middle (a m b : str) :
  has_text a = true -> has_text b = true ->
  strip (a ++ m ++ b) = lstrip a ++ m ++ rstrip b.
Proof.
  intros Ha Hb. unfold strip. rewrite lstrip_app_text by done.
  rewrite !app_assoc. rewrite rstrip_app_text by done.
  by rewrite <- !app_assoc.
Qed.

(** What the loop keeps of a line has no whitespace at its head. *)
Lemma kept_has_text (line : str) :
  markdown_to_plain_text_line line <> [] ->
  has_text (markdown_to_plain_text_line line) = true.
Proof.
  unfold markdown_to_plain_text_line.
  destruct (startswith (lstrip line) (lit "#")); [apply strip_has_text|].
  destruct (startswith_any _ _); [apply strip_has_text|].
  destruct (split_ws_max1 (lstrip line)) as [|p0 [|p1 [|p2 ps]]];
    try apply lstrip_has_text.
  destruct (isdigit _); [apply strip_has_text | apply lstrip_has_text].
Qed.

Lemma join_cons (sep x : str) (l : list str) :
  l <> [] -> join sep (x :: l) = x ++ sep ++ join sep l.
Proof. by destruct l. Qed.

Lemma join_app (sep : str) (a b : list str) :
  a <> [] -> b <> [] -> join sep (a ++ b) = join sep a ++ sep ++ join sep b.
Proof.
  intros Ha Hb. induction a as [|y a IH]; [done|].
  destruct a as [|z a]; [by cbn [app]; rewrite join_cons|].
  change ((y :: z :: a) ++ b) with (y :: (z :: a) ++ b).
  rewrite !join_cons by done. rewrite IH by done.
  by rewrite <- !app_assoc.
Qed.

Lemma join_has_text (sep : str) (l : list str) :
  Exists (fun x => has_text x = true) l -> has_text (join sep l) = true.
Proof.
  induction l as [|x l IH]; intros Hex; [by apply Exists_nil in Hex|].
  destruct l as [|y l]; [by apply Exists_cons in Hex as [|?%Exists_nil]|].
  rewrite join_cons by done. rewrite !has_text_app.
  apply Exists_cons in Hex as [->|Hex]; [done|].
  rewrite IH by done. by rewrite !orb_true_r.
Qed.

(** A text joined around one of its lines. *)
Lemma join_around (l1 l2 : list str) (x : str) :
  l1 <> [] -> l2 <> [] ->
  join [LF] (l1 ++ x :: l2)
  = join [LF] l1 ++ ([LF] ++ x ++ [LF]) ++ join [LF] l2.
Proof.
  intros H1 H2. rewrite join_app by done. rewrite join_cons by done.
  by rewrite <- !app_assoc.
Qed.

(** C5, as the code has it.  Take a line of the text that is no heading line,
    no bullet line and no numbered line (a line whose first word is digits
    then periods, with content after it: the ordered-list lines as stated
    are among these).  What the loop keeps of it is the line without its
    leading whitespace: the leading whitespace is not preserved, the rest is
    unchanged, trailing whitespace included.  The result of
    [markdown_to_plain_text] is the kept lines joined by line feeds, stripped
    as a whole, and ended by one line feed; when some line before and some
    line after keep text, the strip does not reach the line and the result
    holds it, as kept, between two line feeds. *)
Theorem markdown_to_plain_text_default_line (md : str) (pre post : list str)
    (line : str) :
  splitlines md = pre ++ line :: post ->
  is_heading_line line = false ->
  is_bullet_line line = false ->
  numbered_line line = false ->
  let kept := lstrip line in
  let out_pre := markdown_to_plain_text_line <$> pre in
  let out_post := markdown_to_plain_text_line <$> post in
  (exists ws, forallb isspace ws = true
              /\ line = ws ++ kept
              /\ match kept with
                 | c :: _ => isspace c = false
                 | [] => True
                 end)
  /\ markdown_to_plain_text md
     = strip (join [LF] (out_pre ++ kept :: out_post)) ++ [LF]
  /\ (Exists (fun l => l <> []) out_pre ->
      Exists (fun l => l <> []) out_post ->
      markdown_to_plain_text md
      = lstrip (join [LF] out_pre) ++ ([LF] ++ kept ++ [LF])
        ++ rstrip (join [LF] out_post) ++ [LF]).
Proof.
  intros Hlines Hh Hb Hn. cbv zeta.
  assert (Hmd : markdown_to_plain_text md
                = strip (join [LF]
                           ((markdown_to_plain_text_line <$> pre)
                            ++ lstrip line
                            :: (markdown_to_plain_text_line <$> post)))
                  ++ [LF]).
  { unfold markdown_to_plain_text. rewrite Hlines, fmap_app, fmap_cons.
    by rewrite (default_line_kept line Hh Hb Hn). }
  split; [apply drop_while_split|]. split; [exact Hmd|].
  intros Hpre Hpost. rewrite Hmd.
  assert (Htext : forall ls : list str,
            Exists (fun l => l <> []) (markdown_to_plain_text_line <$> ls) ->
            markdown_to_plain_text_line <$> ls <> []
            /\ has_text (join [LF] (markdown_to_plain_text_line <$> ls)) = true).
  { intros ls Hex. split.
    { intros Heq. rewrite Heq in Hex. by apply Exists_nil in Hex. }
    apply join_has_text. apply Exists_exists in Hex as (x & Hx & Hne).
    apply Exists_exists. exists x. split; [done|].
    apply list_elem_of_fmap in Hx as (l & -> & _). by apply kept_has_text. }
  destruct (Htext pre Hpre) as [Hne1 Ht1].
  destruct (Htext post Hpost) as [Hne2 Ht2].
  rewrite join_around by done. rewrite strip_middle by done.
  by rewrite <- !app_assoc.
Qed.

(** A digit 0 to 9 is a digit for [str.isdigit] and is no whitespace. *)
Lemma ascii_digit_inv (c : N) :
  in_range 48 57 c = true -> ch_isdigit c = true /\ isspace c = false.
Proof.
  unfold in_range. intros [Hlo%N.leb_le Hhi%N.leb_le]%andb_prop.
  assert (Hc : exists k, k < 10 /\ c = N.of_nat (48 + k)).
  { exists (N.to_nat c - 48). lia. }
  destruct Hc as (k & Hk & ->).
  do 10 (destruct k as [|k]; [by vm_compute|]). lia.
Qed.

(** The ordered-list lines as stated are numbered lines. *)
Lemma ordered_line_numbered (line : str) :
  ordered_line_as_stated line = true -> numbered_line line = true.
Proof.
  unfold ordered_line_as_stated, numbered_line, first_word, after_first_word.
  cbv zeta.
  pose proof (take_drop_while (in_range 48 57) (lstrip line)) as Hs.
  pose proof (take_while_all (in_range 48 57) (lstrip line)) as Hdigits.
  set (digits := take_while (in_range 48 57) (lstrip line)) in *.
  set (rest0 := drop_while (in_range 48 57) (lstrip line)) in *.
  clearbody digits rest0.
  assert (Hd1 : forallb ch_isdigit digits = true).
  { rewrite forallb_forall in Hdigits |- *. intros x Hx.
    by apply ascii_digit_inv, Hdigits. }
  assert (Hd2 : forallb (fun c => negb (isspace c)) digits = true).
  { rewrite forallb_forall in Hdigits |- *. intros x Hx.
    destruct (ascii_digit_inv x (Hdigits x Hx)) as [_ ->]. done. }
  intros [[Hne Hsp]%andb_prop Hcontent]%andb_prop.
  assert (Hshape : exists dots rest,
            lstrip line = (digits ++ dots) ++ rest
            /\ (dots = [] \/ dots = [Pathlib.DOT])
            /\ match rest with c :: _ => isspace c = true | [] => False end
            /\ nonempty (lstrip rest) = true).
  { destruct rest0 as [|c r]; [done|].
    destruct (N.eqb_spec c Pathlib.DOT) as [->|Hc].
    - exists [Pathlib.DOT], r. rewrite Hs, <- app_assoc.
      split; [done|]. split; [by right|]. split; [by destruct r|done].
    - exists [], (c :: r). rewrite Hs, app_nil_r.
      split; [done|]. split; [by left|]. done. }
  destruct Hshape as (dots & rest & Hline & Hdots & Hrest & Hcont).
  rewrite Hline.
  assert (Hword : forallb (fun c => negb (isspace c)) (digits ++ dots) = true).
  { rewrite forallb_app, Hd2. by destruct Hdots as [->| ->]. }
  assert (Hstop : match rest with
                  | c :: _ => negb (isspace c) = false
                  | [] => True
                  end).
  { destruct rest as [|c r]; [done|]. by rewrite Hrest. }
  destruct (take_while_app _ _ _ Hword Hstop) as [-> ->].
  rewrite Hcont, andb_true_r. unfold digits_then_periods.
  assert (Hstop2 : match dots with
                   | c :: _ => ch_isdigit c = false
                   | [] => True
                   end).
  { by destruct Hdots as [->| ->]. }
  destruct (take_while_app _ _ _ Hd1 Hstop2) as [-> ->].
  rewrite Hne. by destruct Hdots as [->| ->].
Qed.

End MarkdownToPlainText.

Lemma markdown_to_plain_text_default_line_example :
  let md := Py.lit "intro" ++ [Py.LF] ++ Py.lit "  plain text  " ++ [Py.LF]
            ++ Py.lit "end" ++ [Py.LF] in
  Py.splitlines md = [Py.lit "intro"] ++ Py.lit "  plain text  " :: [Py.lit "end"]
  /\ is_heading_line (Py.lit "  plain text  ") = false
  /\ is_bullet_line (Py.lit "  plain text  ") = false
  /\ @numbered_line latin1_db (Py.lit "  plain text  ") = false
  /\ @markdown_to_plain_text latin1_db md
     = Py.lit "intro" ++ [Py.LF] ++ Py.lit "plain text  " ++ [Py.LF]
       ++ Py.lit "end" ++ [Py.LF].
Proof.
  cbv zeta. do 4 (split; [reflexivity|]).
  destruct (@markdown_to_plain_text_default_line latin1_db
              (Py.lit "intro" ++ [Py.LF] ++ Py.lit "  plain text  " ++ [Py.LF]
               ++ Py.lit "end" ++ [Py.LF])
              [Py.lit "intro"] [Py.lit "end"] (Py.lit "  plain text  ")
              eq_refl eq_refl eq_refl eq_refl) as (_ & _ & Hout).
  rewrite Hout; [reflexivity | |]; apply Exists_cons_hd; discriminate.
Defined.

(** C5, as stated, fails.  A line that is no heading line, no bullet line and
    no ordered-list line is not kept as it is: its leading whitespace is
    lost; "1... x" and a line numbered with a superscript two are no
    ordered-list lines as stated (digits with an optional trailing period),
    yet only their content is kept; and the trailing whitespace of the last
    line is lost to the final strip. *)
Lemma markdown_to_plain_text_indent_lost :
  let text (line : string) : str :=
    Py.lit "intro" ++ [Py.LF] ++ Py.lit line ++ [Py.LF] ++ Py.lit "end"
    ++ [Py.LF] in
  (is_heading_line (Py.lit "  plain text") = false
   /\ is_bullet_line (Py.lit "  plain text") = false
   /\ ordered_line_as_stated (Py.lit "  plain text") = false
   /\ @markdown_to_plain_text latin1_db (text "  plain text")
      = text "plain text")
  /\ (is_heading_line (Py.lit "1... x") = false
      /\ is_bullet_line (Py.lit "1... x") = false
      /\ ordered_line_as_stated (Py.lit "1... x") = false
      /\ @markdown_to_plain_text latin1_db (text "1... x") = text "x")
  /\ (ordered_line_as_stated ([178%N] ++ Py.lit " x") = false
      /\ @markdown_to_plain_text latin1_db
           (Py.lit "intro" ++ [Py.LF] ++ [178%N] ++ Py.lit " x" ++ [Py.LF]
            ++ Py.lit "end" ++ [Py.LF])
         = text "x")
  /\ @markdown_to_plain_text latin1_db
       (Py.lit "intro" ++ [Py.LF] ++ Py.lit "plain text  ")
     = Py.lit "intro" ++ [Py.LF] ++ Py.lit "plain text" ++ [Py.LF].
Proof. cbv zeta. repeat split; reflexivity. Qed.

(** ** Quality scorer *)

Module ScoreFacts.
Import Py PyFacts HtmlFacts Score.
#[local] Open Scope float_scope.

Lemma Prim2SF_zero : Prim2SF 0 = S754_zero false.
Proof. reflexivity. Qed.

Lemma Prim2SF_one : Prim2SF 1 = S754_finite false 4503599627370496 (-52).
Proof. reflexivity. Qed.

Lemma SFltb_SFleb (x y : spec_float) : SFltb x y = true -> SFleb x y = true.
Proof. unfold SFltb, SFleb. by destruct (SFcompare x y) as [[]|]. Qed.

(** A positive number that is not above a positive finite bound is at most
    that bound: it is not a NaN. *)
Lemma SFleb_of_not_SFltb (m : positive) (e : Z) (y : spec_float) :
  SFltb (S754_zero false) y = true ->
  SFltb (S754_finite false m e) y = false ->
  SFleb y (S754_finite false m e) = true.
Proof.
  unfold SFltb, SFleb.
  destruct y as [s|s| |s my ey]; cbn [SFcompare]; try discriminate.
  all: destruct s; try discriminate.
  intros _.
  rewrite (Z.compare_antisym ey e).
  destruct (ey ?= e)%Z; cbn [CompOpp]; try discriminate; auto.
  change (PosDef.Pos.compare_cont Eq m my) with (Pos.compare m my).
  change (PosDef.Pos.compare_cont Eq my m) with (Pos.compare my m).
  rewrite (Pos.compare_antisym my m).
  destruct (Pos.compare my m); cbn [CompOpp]; try discriminate; auto.
Qed.

Lemma ltb_leb (x y : float) : (x <? y) = true -> (x <=? y) = true.
Proof. rewrite FloatAxioms.ltb_spec, FloatAxioms.leb_spec. apply SFltb_SFleb. Qed.

Lemma leb_one_of_not_ltb (x : float) :
  (0 <? x) = true -> (1 <? x) = false -> (x <=? 1) = true.
Proof.
  rewrite !FloatAxioms.ltb_spec, FloatAxioms.leb_spec.
  rewrite Prim2SF_zero, Prim2SF_one. apply SFleb_of_not_SFltb.
Qed.

(** [max(0.0, min(x, 1.0))] lies between 0 and 1 whatever [x] is. *)
Lemma clamp_bounds (x : float) :
  (0 <=? fmax 0 (fmin x 1)) = true /\ (fmax 0 (fmin x 1) <=? 1) = true.
Proof.
  unfold fmax.
  destruct (0 <? fmin x 1) eqn:Hpos; [|split; reflexivity].
  split; [by apply ltb_leb|].
  unfold fmin in *.
  destruct (1 <? x) eqn:Hx; [reflexivity|].
  by apply leb_one_of_not_ltb.
Qed.

(** C1, as the code has it.  The omega score is a function of the converted
    text and the destination format alone, and lies between 0.0 and 1.0 for
    every text and format.  For the empty text it is 0.0 when the destination
    is txt or md (or any token other than html and docx), and 0.012 when the
    destination is html or docx, where the empty text counts as one
    paragraph. *)
Theorem omega_score_bounded (converted dst_fmt : str) :
  (0 <=? _compute_omega_score converted dst_fmt) = true
  /\ (_compute_omega_score converted dst_fmt <=? 1) = true
  /\ _compute_omega_score [] dst_fmt
     = (if bool_decide (dst_fmt = lit "html") || bool_decide (dst_fmt = lit "docx")
        then 0.012 else 0)
  /\ _compute_omega_score [] (lit "txt") = 0
  /\ _compute_omega_score [] (lit "md") = 0.
Proof.
  split; [apply clamp_bounds|]. split; [apply clamp_bounds|].
  split; [|split; reflexivity].
  unfold _compute_omega_score.
  destruct (bool_decide_reflect (dst_fmt = lit "md")) as [->|_]; [reflexivity|].
  by destruct (bool_decide (dst_fmt = lit "html") || bool_decide (dst_fmt = lit "docx")).
Qed.

(** C1, as stated, fails: the score of the empty text is not 0.0 when the
    destination is html or docx. *)
Lemma omega_score_empty_html_nonzero :
  (_compute_omega_score [] (lit "html") =? 0) = false
  /\ (_compute_omega_score [] (lit "docx") =? 0) = false
  /\ (0 <? _compute_omega_score [] (lit "html")) = true.
Proof. repeat split. Qed.

(** [clamp(x, lo, hi)] *)
Definition clamp (x lo hi : float) : float := fmax lo (fmin x hi).

(** The score for md as C8 states it: markers are the lines that start with
    "#" plus the lines that start with "- ", "* " or "1. ". *)
Definition md_markers_as_stated (converted : str) : nat :=
  count_if (fun ln => startswith ln (lit "#")) (splitlines converted)
  + count_if (fun ln => startswith_any ln [lit "- "; lit "* "; lit "1. "])
      (splitlines converted).

Definition omega_md_as_stated (converted : str) : float :=
  let structureScore := fmin (float_of_nat (md_markers_as_stated converted) / 50) 1 in
  let lengthScore := fmin (float_of_nat (length converted) / 10000) 1 in
  clamp (0.4 * lengthScore + 0.6 * structureScore) 0 1.

(** The score for md with the markers looked for after the leading
    whitespace of each line: a marker line is a line that, without its
    leading whitespace, starts with "#", "- ", "* " or "1. ". *)
Definition is_md_marker_line (ln : str) : bool :=
  startswith (lstrip ln) (lit "#")
  || startswith_any (lstrip ln) [lit "- "; lit "* "; lit "1. "].

Definition md_markers (converted : str) : nat :=
  count_if is_md_marker_line (splitlines converted).

Definition omega_md_spec (converted : str) : float :=
  let structureScore := fmin (float_of_nat (md_markers converted) / 50) 1 in
  let lengthScore := fmin (float_of_nat (length converted) / 10000) 1 in
  clamp (0.4 * lengthScore + 0.6 * structureScore) 0 1.

Lemma count_if_disjoint (f g : str -> bool) (l : list str) :
  (forall x, f x = true -> g x = false) ->
  (count_if f l + count_if g l)%nat = count_if (fun x => f x || g x) l.
Proof.
  intros Hfg. unfold count_if.
  induction l as [|x l IH]; [done|]. cbn [List.filter].
  destruct (f x) eqn:Hf.
  - rewrite (Hfg _ Hf). cbn [orb length]. lia.
  - cbn [orb]. destruct (g x); cbn [length]; lia.
Qed.

Lemma heading_not_list_marker (s : str) :
  startswith s (lit "#") = true ->
  startswith_any s [lit "- "; lit "* "; lit "1. "] = false.
Proof. intros Hs. sw_inv. reflexivity. Qed.

(** C8, as the code has it.  For the destination md the score is
    clamp(0.4 * lengthScore + 0.6 * structureScore, 0.0, 1.0) with
    lengthScore = min(chars / 10000, 1.0) and structureScore =
    min(markers / 50, 1.0), where markers counts the lines that start, after
    their leading whitespace, with "#", "- ", "* " or "1. ". *)
Theorem omega_score_md (converted : str) :
  _compute_omega_score converted (lit "md") = omega_md_spec converted.
Proof.
  unfold _compute_omega_score, omega_md_spec, clamp, md_markers.
  rewrite bool_decide_eq_true_2 by reflexivity.
  rewrite (count_if_disjoint _ _ (splitlines converted))
    by (intros x; apply heading_not_list_marker).
  reflexivity.
Qed.

(** C8, as stated, fails on an indented heading: the code counts it as a
    marker, the stated count does not. *)
Lemma omega_score_md_indented_heading :
  md_markers_as_stated (lit "  # Title") = 0%nat
  /\ md_markers (lit "  # Title") = 1%nat
  /\ (_compute_omega_score (lit "  # Title") (lit "md")
      =? omega_md_as_stated (lit "  # Title")) = false.
Proof. repeat split. Qed.

End ScoreFacts.

(** ** Paths *)

Module PathFacts.
Import Py PyFacts Pathlib.

Example suffix_of_dotted_names :
  suffix (mkPath [] (lit "a.b.txt")) = lit ".txt"
  /\ stem (mkPath [] (lit "a.b.txt")) = lit "a.b"
  /\ suffix (mkPath [] (lit ".hidden")) = []
  /\ suffix (mkPath [] (lit "a.")) = []
  /\ stem (mkPath [] (lit "a..b")) = lit "a.".
Proof. repeat split. Qed.

Lemma lit_inj (s1 s2 : string) : lit s1 = lit s2 -> s1 = s2.
Proof.
  unfold lit. intros Heq.
  rewrite <- (string_of_list_ascii_of_string s1),
          <- (string_of_list_ascii_of_string s2).
  f_equal. revert Heq.
  generalize (list_ascii_of_string s1) (list_ascii_of_string s2).
  induction l as [|a l IH]; intros [|b l']; cbn; try done.
  intros [= Hab Hl]. f_equal; [|by apply IH].
  by rewrite <- (ascii_N_embedding a), <- (ascii_N_embedding b), Hab.
Qed.

Lemma str_of_nat_inj (j k : nat) : str_of_nat j = str_of_nat k -> j = k.
Proof. intros Heq. by apply (inj pretty), lit_inj. Qed.

Definition is_digit_char (a : ascii) : Prop := In a (list_ascii_of_string "0123456789").

Lemma pretty_N_char_digit (x : N) : is_digit_char (pretty_N_char x).
Proof.
  unfold pretty_N_char, is_digit_char.
  repeat case_match; cbn; tauto.
Qed.

Lemma pretty_N_go_digits (x : N) (s : string) :
  Forall is_digit_char (list_ascii_of_string s) ->
  Forall is_digit_char (list_ascii_of_string (pretty_N_go x s)).
Proof.
  revert s. induction (N.lt_wf_0 x) as [x _ IH]. intros s Hs.
  destruct (decide (x = 0%N)) as [->|Hx]; [done|].
  rewrite pretty_N_go_step by lia.
  apply IH; [apply N.div_lt; lia|].
  cbn. constructor; [apply pretty_N_char_digit | done].
Qed.

Lemma pretty_nat_digits (n : nat) :
  Forall is_digit_char (list_ascii_of_string (pretty n)).
Proof.
  unfold pretty, pretty_nat, pretty, pretty_N.
  case_decide; [by repeat constructor; cbn; tauto|].
  by apply pretty_N_go_digits.
Qed.

Lemma mem_app (c : N) (a b : str) : mem c (a ++ b) = mem c a || mem c b.
Proof. apply existsb_app. Qed.

Lemma str_of_nat_no_slash (n : nat) : mem SLASH (str_of_nat n) = false.
Proof.
  unfold str_of_nat, lit.
  induction (pretty_nat_digits n) as [|a l Ha _ IH]; [done|].
  cbn [fmap list_fmap mem existsb] in *.
  unfold mem in IH. rewrite IH, orb_false_r.
  unfold is_digit_char in Ha. cbn in Ha.
  by repeat (destruct Ha as [<-|Ha]; [done|]).
Qed.

(** The name of a path is its stem followed by its suffix. *)
Lemma stem_suffix (p : Path) : stem p ++ suffix p = name p.
Proof.
  unfold stem, suffix. destruct (suffix_index (name p)); [|by rewrite app_nil_r].
  apply take_drop.
Qed.

(** The candidates of [_unique_path] after the path itself. *)
Definition candidate_name (base_path : Path) (counter : nat) : str :=
  stem base_path ++ lit " (" ++ str_of_nat counter ++ lit ")" ++ suffix base_path.

Definition candidate (base_path : Path) (counter : nat) : Path :=
  mkPath (parent base_path) (candidate_name base_path counter).

Lemma candidate_name_length (base_path : Path) (k : nat) :
  length (candidate_name base_path k)
  = length (name base_path) + 3 + length (str_of_nat k).
Proof.
  unfold candidate_name. rewrite <- (stem_suffix base_path), !length_app.
  change (length (lit " (")) with 2. change (length (lit ")")) with 1. lia.
Qed.

Lemma candidate_inj (base_path : Path) (j k : nat) :
  candidate base_path j = candidate base_path k -> j = k.
Proof.
  intros Heq. apply (f_equal name) in Heq.
  unfold candidate, candidate_name in Heq. cbn [name] in Heq.
  apply (app_inv_head (stem base_path)) in Heq.
  apply (app_inv_head (lit " (")) in Heq.
  apply (app_inv_tail (lit ")" ++ suffix base_path)) in Heq.
  by apply str_of_nat_inj.
Qed.

Lemma candidate_ne_base (base_path : Path) (k : nat) :
  candidate base_path k <> base_path.
Proof.
  intros Heq. apply (f_equal (fun p => length (name p))) in Heq.
  cbn [candidate name] in Heq. rewrite candidate_name_length in Heq. lia.
Qed.

Lemma with_name_candidate (base_path : Path) (k : nat) :
  name base_path <> [] -> mem SLASH (name base_path) = false ->
  with_name base_path (candidate_name base_path k) = Ok (candidate base_path k).
Proof.
  intros Hne Hslash. unfold with_name.
  destruct (name base_path) as [|c nm] eqn:Hname; [done|].
  assert (Hlen := candidate_name_length base_path k).
  rewrite bool_decide_eq_false_2
    by (intros Heq; rewrite Heq in Hlen; cbn in Hlen; lia).
  rewrite (bool_decide_eq_false_2 (_ = [DOT]))
    by (intros Heq; rewrite Heq in Hlen; cbn in Hlen; lia).
  assert (mem SLASH (candidate_name base_path k) = false) as ->; [|done].
  rewrite <- Hname, <- stem_suffix, mem_app in Hslash.
  apply orb_false_elim in Hslash as [Hst Hsu].
  unfold candidate_name.
  by rewrite !mem_app, Hst, Hsu, str_of_nat_no_slash.
Qed.

End PathFacts.

(** ** Output path uniqueness *)

Module UniquePath.
Import Py PyFacts Pathlib PathFacts.

Lemma exists_true (fs : gmap Path node) (p : Path) :
  exists_ fs p = true <-> p ∈ dom fs.
Proof.
  unfold exists_. rewrite elem_of_dom.
  destruct (fs !! p); split; try done; by intros [? ?].
Qed.

(** A result of the loop is a path that does not exist. *)
Lemma unique_path_loop_fresh (fuel : nat) (fs : gmap Path node)
    (base_path c r : Path) (k : nat) :
  _unique_path_loop fuel fs base_path c k = Ok r -> fs !! r = None.
Proof.
  revert c k. induction fuel as [|fuel IH]; intros c k; cbn; [done|].
  destruct (exists_ fs c) eqn:Hc.
  - destruct (with_name _ _); [apply IH | done].
  - intros [= <-]. unfold exists_ in Hc. by destruct (fs !! c).
Qed.

(** What the loop returns, for a base path with a proper name: the first of
    the path itself and its numbered candidates that does not exist; it
    runs out of tests only when all the paths it tested exist. *)
Lemma unique_path_loop_spec (fuel : nat) (fs : gmap Path node)
    (base_path c : Path) (k : nat) :
  name base_path <> [] -> mem SLASH (name base_path) = false ->
  match _unique_path_loop fuel fs base_path c k with
  | Ok r =>
      (r = c \/ exists j, k <= j < k + fuel /\ r = candidate base_path j)
  | Raise e =>
      e = Unbounded
      /\ (1 <= fuel -> exists_ fs c = true)
      /\ forall j, k <= j -> j + 1 < k + fuel ->
                   exists_ fs (candidate base_path j) = true
  end.
Proof.
  intros Hne Hslash. revert c k.
  induction fuel as [|fuel IH]; intros c k; cbn [_unique_path_loop].
  { split; [done|]. split; intros; lia. }
  destruct (exists_ fs c) eqn:Hc; [|by left].
  fold (candidate_name base_path k). rewrite with_name_candidate by done.
  specialize (IH (candidate base_path k) (S k)).
  destruct (_unique_path_loop fuel fs base_path (candidate base_path k) (S k))
    as [r|e].
  - right. destruct IH as [->|(j & Hj & ->)]; [exists k | exists j];
      split; (lia || done).
  - destruct IH as (-> & Hk & Hrest). split; [done|]. split; [done|].
    intros j Hj1 Hj2. destruct (decide (j = k)) as [->|Hjk].
    + apply Hk. lia.
    + apply Hrest; lia.
Qed.

(** Among a path and its first [n] candidates at least one does not exist
    when only [n] paths exist. *)
Lemma candidates_not_all_exist (fs : gmap Path node) (base_path : Path) :
  exists_ fs base_path = true ->
  (forall j, 1 <= j <= size fs -> exists_ fs (candidate base_path j) = true) ->
  False.
Proof.
  intros Hbase Hall.
  set (l := base_path :: (candidate base_path <$> seq 1 (size fs))).
  assert (Hnd : NoDup l).
  { constructor.
    - intros (j & Heq & _)%list_elem_of_fmap.
      by apply (candidate_ne_base base_path j).
    - apply NoDup_fmap_2_strong; [|apply NoDup_seq].
      intros j k _ _. apply candidate_inj. }
  assert (Hsub : list_to_set (C := gset Path) l ⊆ dom fs).
  { intros p Hp. apply elem_of_list_to_set in Hp.
    apply exists_true. unfold l in Hp.
    apply elem_of_cons in Hp as [->|(j & -> & Hj)%list_elem_of_fmap]; [done|].
    apply Hall. apply elem_of_seq in Hj. lia. }
  apply subseteq_size in Hsub.
  rewrite size_list_to_set, size_dom in Hsub by done.
  unfold l in Hsub. cbn [length] in Hsub.
  rewrite length_fmap, length_seq in Hsub. lia.
Qed.

(** [_unique_path] returns: one more test than there are entries is enough.
    The result does not exist, lies in the directory of the base path, and
    is the base path itself when that does not exist, else one of its
    numbered candidates. *)
Lemma unique_path_total (w : world) (base_path : Path) :
  name base_path <> [] -> mem SLASH (name base_path) = false ->
  exists r,
    _unique_path base_path w = (Ok r, w)
    /\ files w !! r = None
    /\ parent r = parent base_path
    /\ (r = base_path
        \/ exists_ (files w) base_path = true
           /\ exists j, 1 <= j /\ r = candidate base_path j).
Proof.
  intros Hne Hslash.
  unfold _unique_path, mbind, M_bind, get_files, lift.
  pose proof (unique_path_loop_spec (S (size (files w))) (files w)
                base_path base_path 1 Hne Hslash) as Hspec.
  pose proof (unique_path_loop_fresh (S (size (files w))) (files w)
                base_path base_path) as Hfresh.
  destruct (_unique_path_loop _ _ _ _ _) as [r|e] eqn:Hloop.
  - exists r. split; [done|]. split; [by eapply Hfresh|].
    destruct Hspec as [->|(j & Hj & ->)]; [by split; [|left]|].
    split; [done|]. right.
    destruct (exists_ (files w) base_path) eqn:Hb.
    + split; [done|]. exists j. split; [lia | done].
    + exfalso. cbn [_unique_path_loop] in Hloop. rewrite Hb in Hloop.
      injection Hloop as Heq. by apply (candidate_ne_base base_path j).
  - exfalso. destruct Hspec as (_ & Hb & Hall).
    apply (candidates_not_all_exist (files w) base_path); [apply Hb; lia|].
    intros j Hj. apply Hall; lia.
Qed.

(** The iteration bound of the model is never what ends the loop: on every
    state and every base path [_unique_path] returns a path or raises
    [ValueError] (a base path without a proper name, when it exists). *)
Lemma unique_path_bounded (w : world) (base_path : Path) :
  (_unique_path base_path w).1 <> Raise Unbounded.
Proof.
  destruct (name base_path) as [|c nm] eqn:Hname.
  { unfold _unique_path, mbind, M_bind, get_files, lift.
    cbn [fst _unique_path_loop]. unfold with_name. rewrite Hname.
    by destruct (exists_ _ _). }
  destruct (mem SLASH (name base_path)) eqn:Hslash.
  - unfold _unique_path, mbind, M_bind, get_files, lift.
    cbn [fst _unique_path_loop]. unfold with_name. rewrite Hname.
    assert (mem SLASH (stem base_path ++ lit " (" ++ str_of_nat 1 ++ lit ")"
                       ++ suffix base_path) = true) as ->.
    { rewrite <- (stem_suffix base_path), mem_app in Hslash.
      rewrite !mem_app.
      apply orb_true_iff in Hslash as [-> | ->]; [done|].
      by rewrite !orb_true_r. }
    rewrite orb_true_r. by destruct (exists_ _ _).
  - destruct (unique_path_total w base_path) as (r & -> & _); [|done..].
    by rewrite Hname.
Qed.

End UniquePath.

(** ** Conversion orchestrator *)

Section CoreFacts.
Context `{UnicodeDB} `{Runtime}.
Import Py PyFacts Pathlib PathFacts Docx Score UniquePath.

(** The three errors of the validation at the head of [convert_any]. *)
Definition validation_error (e : exn) : bool :=
  match e with
  | Domain (InputMissing _) | Domain UnsupportedInput
  | Domain UnsupportedOutput => true
  | _ => false
  end.

Ltac run :=
  unfold mbind, M_bind, mret, M_ret, raise, lift, get_files, put_file in *.

Lemma with_suffix_raise (p : Path) (sfx : str) (e : exn) :
  with_suffix p sfx = Raise e -> e = ValueError.
Proof. unfold with_suffix. repeat case_match; congruence. Qed.

Lemma with_name_raise (p : Path) (nm : str) (e : exn) :
  with_name p nm = Raise e -> e = ValueError.
Proof. unfold with_name. repeat case_match; congruence. Qed.

Lemma unique_path_loop_raise (fuel : nat) (fs : gmap Path node)
    (base_path c : Path) (k : nat) (e : exn) :
  _unique_path_loop fuel fs base_path c k = Raise e ->
  validation_error e = false.
Proof.
  revert c k. induction fuel as [|fuel IH]; intros c k; cbn.
  - by intros [= <-].
  - destruct (exists_ fs c); [|done].
    destruct (with_name _ _) as [c'|e'] eqn:Hname; [apply IH|].
    intros [= <-]. by rewrite (with_name_raise _ _ _ Hname).
Qed.

Lemma unique_path_raise (base_path : Path) (w w' : world) (e : exn) :
  _unique_path base_path w = (Raise e, w') -> validation_error e = false.
Proof.
  unfold _unique_path. run. intros Heq.
  eapply unique_path_loop_raise. exact (f_equal fst Heq).
Qed.

Lemma unique_path_world (base_path : Path) (w : world) :
  (_unique_path base_path w).2 = w.
Proof. unfold _unique_path. by run. Qed.

Lemma unique_path_fresh (base_path r : Path) (w w' : world) :
  _unique_path base_path w = (Ok r, w') -> w' = w /\ files w !! r = None.
Proof.
  unfold _unique_path. run. intros Heq.
  split; [exact (eq_sym (f_equal snd Heq))|].
  eapply unique_path_loop_fresh. exact (f_equal fst Heq).
Qed.

(** Writing the output raises no validation error and changes no file but
    the output. *)
Definition writes_only (out : Path) (w : world) (x : outcome unit * world) : Prop :=
  (forall e, x.1 = Raise e -> validation_error e = false)
  /\ (forall p', p' <> out -> files x.2 !! p' = files w !! p')
  /\ log_file x.2 = log_file w.

Lemma write_text_spec (out : Path) (s : str) (w : world) :
  writes_only out w (write_text out s w).
Proof.
  unfold write_text, writes_only. run.
  destruct (files w !! out) as [[b|]|];
    try destruct (utf8_encode_text s); cbn;
    (split; [by intros e [= <-]|]); (split; [|done]);
    intros p' Hp'; by rewrite ?lookup_insert_ne.
Qed.

Lemma write_zip_spec (out : Path) (members : list (str * bytes)) (w : world) :
  writes_only out w (write_zip out members w).
Proof.
  unfold write_zip, writes_only. run.
  destruct (files w !! out) as [[b|]|]; cbn;
    (split; [by intros e [= <-]|]); (split; [|done]);
    intros p' Hp'; by rewrite ?lookup_insert_ne.
Qed.

Lemma source_text_spec (p : Path) (src_ext : str) (w : world) :
  let source : M str :=
    if bool_decide (src_ext = lit ".docx")
    then extract_docx_text p else read_text p in
  (source w).2 = w
  /\ (is_file (files w) p = true ->
      forall e, (source w).1 = Raise e -> validation_error e = false).
Proof.
  cbv zeta. unfold is_file.
  destruct (bool_decide (src_ext = lit ".docx")).
  - unfold extract_docx_text. run.
    destruct (files w !! p) as [[b|]|]; [|by split..].
    destruct (zip_read b DOCX_MAIN_XML); [|by split; [|intros _ e [= <-]]].
    destruct (xml_fromstring _); [|by split; [|intros _ e [= <-]]..].
    by destruct (extracted_paragraphs _).
  - unfold read_text. run.
    destruct (files w !! p) as [[b|]|]; [|by split..].
    destruct (utf8_decode_text b); [done|]. by split; [|intros _ e [= <-]].
Qed.

(** The extract, transform and write steps raise none of the validation
    errors on an input that is a file, and change no file but the output. *)
Lemma convert_and_write_spec (p out : Path) (src_ext dst : str) (w : world) :
  forall r w', convert_and_write p out src_ext dst w = (r, w') ->
  (is_file (files w) p = true ->
   forall e, r = Raise e -> validation_error e = false)
  /\ (forall p', p' <> out -> files w' !! p' = files w !! p')
  /\ log_file w' = log_file w.
Proof.
  intros r w'. unfold convert_and_write.
  unfold mbind at 1, M_bind at 1.
  destruct (source_text_spec p src_ext w) as [Hw Hraise]. cbv zeta in Hw, Hraise.
  destruct ((if bool_decide (src_ext = lit ".docx")
             then extract_docx_text p else read_text p) w)
    as [[plain|e1] w1]; cbn [fst snd] in Hw, Hraise; subst w1.
  2:{ intros [= <- <-]. split; [|done]. intros Hfile e [= <-]. by apply Hraise. }
  assert (Hseq : forall (m : M unit) (conv : str),
            writes_only out w (m w) ->
            (m ≫= (fun _ => mret conv)) w = (r, w') ->
            (is_file (files w) p = true ->
             forall e, r = Raise e -> validation_error e = false)
            /\ (forall p', p' <> out -> files w' !! p' = files w !! p')
            /\ log_file w' = log_file w).
  { intros m conv (Hm1 & Hm2 & Hm3). unfold mbind, M_bind, mret, M_ret.
    destruct (m w) as [[[]|e1] w1]; cbn [fst snd] in *; intros [= <- <-];
      (split; [|done]); intros _ e He;
      [discriminate He | injection He as <-; by apply Hm1]. }
  destruct (bool_decide (dst = lit "txt"));
    [|destruct (bool_decide (dst = lit "md"));
      [|destruct (bool_decide (dst = lit "html"))]];
    apply Hseq; apply write_text_spec || apply write_zip_spec.
Qed.

(** [convert_any] once its three checks have passed. *)
Definition convert_checked (e : env) (input_path : Path)
    (src_ext dst_format mode : str) (enable_log : bool) : M Path :=
  base ← lift (with_suffix input_path []);
  raw_out ← lift (with_suffix base ([DOT] ++ dst_format));
  out_path ← _unique_path raw_out;
  converted ← convert_and_write input_path out_path src_ext dst_format;
  (if enable_log
   then _log_conversion e input_path out_path (lstrip_chars [DOT] src_ext)
          dst_format mode (env_duration_ms e) (length converted)
          (_compute_omega_score converted dst_format)
   else mret tt);;
  mret out_path.

Lemma convert_any_checked (e : env) (p : Path) (dst mode : str) (lg : bool)
    (w : world) :
  is_file (files w) p = true ->
  lower (suffix p) ∈ src_exts ->
  lower dst ∈ dst_formats ->
  convert_any e p dst mode lg w
  = convert_checked e p (lower (suffix p)) (lower dst) mode lg w.
Proof.
  intros Hfile Hsrc Hdst. unfold convert_any, convert_checked.
  unfold mbind at 1, M_bind at 1, get_files at 1. cbv beta iota.
  rewrite Hfile. cbn [negb].
  by rewrite !bool_decide_eq_true_2.
Qed.

Lemma log_conversion_ok (e : env) (p out : Path) (s d m : str) (t : float)
    (n : nat) (o : float) (w : world) :
  exists w', _log_conversion e p out s d m t n o w = (Ok tt, w')
             /\ files w' = files w.
Proof. unfold _log_conversion. destruct (env_log_writable e); eauto. Qed.

Lemma convert_checked_raise (e : env) (p : Path) (src_ext dst mode : str)
    (lg : bool) (w w' : world) (e' : exn) :
  is_file (files w) p = true ->
  convert_checked e p src_ext dst mode lg w = (Raise e', w') ->
  validation_error e' = false.
Proof.
  intros Hfile. unfold convert_checked.
  unfold mbind at 1, M_bind at 1, lift at 1.
  destruct (with_suffix p []) as [base|e1] eqn:Hbase.
  2:{ intros [= <- _]. by rewrite (with_suffix_raise _ _ _ Hbase). }
  unfold mbind at 1, M_bind at 1, lift at 1.
  destruct (with_suffix base _) as [raw_out|e1] eqn:Hraw.
  2:{ intros [= <- _]. by rewrite (with_suffix_raise _ _ _ Hraw). }
  unfold mbind at 1, M_bind at 1.
  destruct (_unique_path raw_out w) as [[out|e1] w1] eqn:Hout.
  2:{ intros [= <- _]. by eapply unique_path_raise. }
  apply unique_path_fresh in Hout as [-> _].
  unfold mbind at 1, M_bind at 1.
  destruct (convert_and_write p out src_ext dst w) as [[conv|e1] w2] eqn:Hconv.
  2:{ intros [= <- _].
      by eapply (proj1 (convert_and_write_spec _ _ _ _ _ _ _ Hconv)). }
  unfold mbind, M_bind, mret, M_ret.
  destruct lg; [|done].
  by destruct (log_conversion_ok e p out (lstrip_chars [DOT] src_ext) dst mode
              (env_duration_ms e) (length conv)
              (_compute_omega_score conv dst) w2) as (w3 & -> & _).
Qed.

(** C6. [convert_any] checks, in this order, that the input path is an
    existing file, that its extension is one of .docx, .txt, .md, and that the
    destination format is one of txt, md, html, docx (both compared in lower
    case, as the code lowercases them before the test).  The first check that
    fails raises its [SovereignDocError] and nothing is changed; when the
    three checks pass, none of these three errors is raised. *)
Theorem convert_any_validation (e : env) (p : Path) (dst mode : str)
    (lg : bool) (w : world) :
  (is_file (files w) p = false ->
   convert_any e p dst mode lg w = (Raise (Domain (InputMissing p)), w))
  /\ (is_file (files w) p = true ->
      lower (suffix p) ∉ src_exts ->
      convert_any e p dst mode lg w = (Raise (Domain UnsupportedInput), w))
  /\ (is_file (files w) p = true ->
      lower (suffix p) ∈ src_exts ->
      lower dst ∉ dst_formats ->
      convert_any e p dst mode lg w = (Raise (Domain UnsupportedOutput), w))
  /\ (is_file (files w) p = true ->
      lower (suffix p) ∈ src_exts ->
      lower dst ∈ dst_formats ->
      forall e', (convert_any e p dst mode lg w).1 = Raise e' ->
                 validation_error e' = false).
Proof.
  split; [|split; [|split]].
  - intros Hfile. unfold convert_any. run. by rewrite Hfile.
  - intros Hfile Hsrc. unfold convert_any. run. rewrite Hfile. cbn [negb].
    by rewrite bool_decide_eq_false_2.
  - intros Hfile Hsrc Hdst. unfold convert_any. run. rewrite Hfile. cbn [negb].
    rewrite bool_decide_eq_true_2 by done. cbn [negb].
    by rewrite bool_decide_eq_false_2.
  - intros Hfile Hsrc Hdst e' Hrun.
    rewrite convert_any_checked in Hrun by done.
    destruct (convert_checked _ _ _ _ _ _ _) as [r w'] eqn:Hc.
    cbn [fst] in Hrun. subst r. by eapply convert_checked_raise.
Qed.

(** *** Letter case of the source extension *)

(** [a] is [b] or the capital of the small ASCII letter [b]. *)
Definition same_letter (a b : N) : bool :=
  N.eqb a b || (in_range 97 122 b && N.eqb a (b - 32)).

(** [s] is the lowercase ASCII text [t] up to the case of its letters. *)
Fixpoint differs_only_in_case (s t : str) : bool :=
  match s, t with
  | [], [] => true
  | a :: s', b :: t' => same_letter a b && differs_only_in_case s' t'
  | _, _ => false
  end.

Definition lower_ascii_text (t : str) : bool :=
  forallb (fun c => is_ascii c && negb (in_range 65 90 c)) t.

Lemma lower_of_case_variant (s t : str) :
  lower_ascii_text t = true -> differs_only_in_case s t = true -> lower s = t.
Proof.
  intros Ht Hst.
  assert (forallb is_ascii s = true
          /\ (fun c => if in_range 65 90 c then (c + 32)%N else c) <$> s = t)
    as [Hascii Hmap].
  { revert t Ht Hst. induction s as [|a s IH]; intros [|b t]; cbn; try done.
    intros [[Hb1 Hb2]%andb_prop Ht]%andb_prop [Hab Hst]%andb_prop.
    destruct (IH t Ht Hst) as [-> ->]. rewrite andb_true_r.
    unfold same_letter in Hab. unfold is_ascii, in_range in *.
    apply negb_true_iff in Hb2.
    apply orb_prop in Hab as [->%N.eqb_eq|[Hb3 ->%N.eqb_eq]%andb_prop].
    - by rewrite Hb1, Hb2.
    - apply andb_prop in Hb3 as [?%N.leb_le ?%N.leb_le].
      assert ((b - 32 <? 128)%N = true) as -> by (apply N.ltb_lt; lia).
      assert ((65 <=? b - 32)%N = true) as -> by (apply N.leb_le; lia).
      assert ((b - 32 <=? 90)%N = true) as -> by (apply N.leb_le; lia).
      split; [done|]. cbn. f_equal. lia. }
  unfold lower. by rewrite Hascii.
Qed.

Lemma src_exts_lower (ext : str) :
  ext ∈ src_exts -> lower_ascii_text ext = true /\ ext <> [].
Proof.
  unfold src_exts. rewrite !elem_of_cons, elem_of_nil.
  by intros [->|[->|[->|[]]]].
Qed.

Lemma suffix_index_bound (nm : str) (i : nat) :
  suffix_index nm = Some i -> i < length nm.
Proof.
  unfold suffix_index. destruct (rfind DOT nm); [|done].
  destruct (_ && _) eqn:Hi; [|done]. intros [= <-].
  apply andb_prop in Hi as [_ Hi%Nat.ltb_lt]. lia.
Qed.

(** Removing the extension of a path that has one leaves its stem. *)
Lemma with_suffix_nil (p : Path) :
  suffix p <> [] -> with_suffix p [] = Ok (mkPath (parent p) (stem p)).
Proof.
  intros Hs. unfold with_suffix. cbn [mem existsb].
  rewrite (bool_decide_eq_true_2 ([] = [])) by done.
  rewrite (bool_decide_eq_false_2 ([] = [DOT])) by done. cbn [negb andb orb].
  unfold suffix, stem in *.
  destruct (suffix_index (name p)) as [i|] eqn:Hi; [|done].
  apply suffix_index_bound in Hi.
  destruct (name p) as [|c nm] eqn:Hname; [cbn in Hi; lia|].
  destruct (drop i (c :: nm)) as [|d ds] eqn:Hdrop; [done|].
  rewrite <- Hdrop, length_drop, app_nil_r. do 2 f_equal.
  f_equal. lia.
Qed.

(** Two errors of the same kind, whatever path their message names. *)
Definition same_error (e1 e2 : exn) : Prop :=
  match e1, e2 with
  | Domain (InputMissing _), Domain (InputMissing _)
  | Domain (DocxUnreadable _), Domain (DocxUnreadable _)
  | Domain (DocxXmlInvalid _), Domain (DocxXmlInvalid _) => True
  | _, _ => e1 = e2
  end.

Definition same_outcome {A : Type} (r1 r2 : outcome A) : Prop :=
  match r1, r2 with
  | Ok a, Ok b => a = b
  | Raise e1, Raise e2 => same_error e1 e2
  | _, _ => False
  end.

Lemma same_error_refl (e : exn) : same_error e e.
Proof. by destruct e as [[]| | | | | |]. Qed.

(** Reading the source gives the same text for two paths with the same
    content. *)
Lemma source_text_same (p q : Path) (src_ext : str) (w : world) :
  files w !! p = files w !! q ->
  let source (x : Path) : M str :=
    if bool_decide (src_ext = lit ".docx")
    then extract_docx_text x else read_text x in
  (exists s, source p w = (Ok s, w) /\ source q w = (Ok s, w))
  \/ (exists e1 e2, source p w = (Raise e1, w) /\ source q w = (Raise e2, w)
                    /\ same_error e1 e2).
Proof.
  intros Hpq. cbv zeta.
  assert (Hraise : forall e1 e2 : exn, same_error e1 e2 ->
            (exists s : str, (Raise e1, w) = (Ok s, w) /\ (Raise e2, w) = (Ok s, w))
            \/ (exists e1' e2', (@Raise str e1, w) = (Raise e1', w)
                                /\ (@Raise str e2, w) = (Raise e2', w)
                                /\ same_error e1' e2')).
  { intros e1 e2 He. right. by exists e1, e2. }
  destruct (bool_decide (src_ext = lit ".docx")).
  - unfold extract_docx_text. run. rewrite <- Hpq.
    destruct (files w !! p) as [[b|]|]; try by apply Hraise.
    destruct (zip_read b DOCX_MAIN_XML); [|by apply Hraise].
    destruct (xml_fromstring _); [|by apply Hraise..].
    destruct (extracted_paragraphs _); left; eauto.
  - unfold read_text. run. rewrite <- Hpq.
    destruct (files w !! p) as [[b|]|]; try by apply Hraise.
    destruct (utf8_decode_text b); [left; eauto | by apply Hraise].
Qed.

Lemma bind_same {A B : Type} (m1 m2 : M A) (k : A -> M B) (w : world) :
  (exists a, m1 w = (Ok a, w) /\ m2 w = (Ok a, w))
  \/ (exists e1 e2, m1 w = (Raise e1, w) /\ m2 w = (Raise e2, w)
                    /\ same_error e1 e2) ->
  ((m1 ≫= k) w).2 = ((m2 ≫= k) w).2
  /\ same_outcome ((m1 ≫= k) w).1 ((m2 ≫= k) w).1.
Proof.
  unfold mbind, M_bind.
  intros [(a & -> & ->)|(e1 & e2 & -> & -> & He)]; [|by split].
  split; [done|]. destruct (k a w).1; [done | apply same_error_refl].
Qed.

Lemma convert_and_write_same (p q out : Path) (src_ext dst : str) (w : world) :
  files w !! p = files w !! q ->
  (convert_and_write p out src_ext dst w).2
  = (convert_and_write q out src_ext dst w).2
  /\ same_outcome (convert_and_write p out src_ext dst w).1
       (convert_and_write q out src_ext dst w).1.
Proof.
  intros Hpq. unfold convert_and_write.
  apply bind_same, (source_text_same p q src_ext w Hpq).
Qed.

(** Two runs agree: same result, same files, and the same state when
    logging is off. *)
Definition same_run {A : Type} (lg : bool) (x y : outcome A * world) : Prop :=
  same_outcome x.1 y.1 /\ files x.2 = files y.2 /\ (lg = false -> x.2 = y.2).

Lemma same_run_bind {A B : Type} (lg : bool) (m1 m2 : M A) (k1 k2 : A -> M B)
    (w : world) :
  (m1 w).2 = (m2 w).2 ->
  same_outcome (m1 w).1 (m2 w).1 ->
  (forall a w1, m1 w = (Ok a, w1) -> same_run lg (k1 a w1) (k2 a w1)) ->
  same_run lg ((m1 ≫= k1) w) ((m2 ≫= k2) w).
Proof.
  unfold mbind, M_bind.
  destruct (m1 w) as [[a|e1] w1], (m2 w) as [[a'|e2] w2]; cbn [fst snd];
    intros <- Hr Hk; try done.
  change (a = a') in Hr. subst a'. by apply Hk.
Qed.

Lemma same_run_bind_eq {A B : Type} (lg : bool) (m : M A) (k1 k2 : A -> M B)
    (w : world) :
  (forall a w1, m w = (Ok a, w1) -> same_run lg (k1 a w1) (k2 a w1)) ->
  same_run lg ((m ≫= k1) w) ((m ≫= k2) w).
Proof.
  apply same_run_bind; [done|].
  destruct (m w).1; [done | apply same_error_refl].
Qed.

Lemma convert_checked_same (e : env) (p q : Path) (src_ext dst mode : str)
    (lg : bool) (w : world) :
  suffix p <> [] -> suffix q <> [] ->
  parent q = parent p -> stem q = stem p ->
  files w !! q = files w !! p ->
  same_run lg (convert_checked e p src_ext dst mode lg w)
    (convert_checked e q src_ext dst mode lg w).
Proof.
  intros Hsp Hsq Hparent Hstem Hfiles. unfold convert_checked.
  rewrite !with_suffix_nil by done. rewrite Hparent, Hstem.
  apply same_run_bind_eq. intros base w1 [= <- <-].
  apply same_run_bind_eq. intros raw_out w1 Hraw.
  assert (w1 = w) as -> by (unfold lift in Hraw; congruence).
  apply same_run_bind_eq. intros out w1 [-> _]%unique_path_fresh.
  destruct (convert_and_write_same p q out src_ext dst w (eq_sym Hfiles))
    as [Hw Hr].
  apply same_run_bind; [done..|]. intros conv w1 _.
  unfold mbind, M_bind, mret, M_ret.
  destruct lg; [|done]. unfold _log_conversion.
  by destruct (env_log_writable e).
Qed.

Lemma src_exts_lower_fixed (ext : str) : ext ∈ src_exts -> lower ext = ext.
Proof.
  unfold src_exts. rewrite !elem_of_cons, elem_of_nil.
  by intros [->|[->|[->|[]]]].
Qed.

Lemma case_variant_nonempty (s t : str) :
  differs_only_in_case s t = true -> t <> [] -> s <> [].
Proof. by destruct s, t. Qed.

(** Two files that differ in the letter case of the extension only.  Let [p]
    be an existing file whose extension is .docx, .txt or .md up to the case
    of its letters, and [q] a path with the same content, directory and stem
    whose extension is the lowercase one.  Then [convert_any] converts [p] as
    it converts [q]: same result (same output path, or an error of the same
    kind), same files afterwards, and the same state when logging is off (a
    log row names the input path). *)
Lemma extension_case_twin (e : env) (p q : Path)
    (ext dst mode : str) (lg : bool) (w : world) :
  ext ∈ src_exts ->
  differs_only_in_case (suffix p) ext = true ->
  suffix q = ext ->
  parent q = parent p ->
  stem q = stem p ->
  is_file (files w) p = true ->
  files w !! q = files w !! p ->
  (forall e', (convert_any e p dst mode lg w).1 = Raise e' ->
              e' <> Domain UnsupportedInput)
  /\ same_outcome (convert_any e p dst mode lg w).1
       (convert_any e q dst mode lg w).1
  /\ files (convert_any e p dst mode lg w).2
     = files (convert_any e q dst mode lg w).2
  /\ (lg = false ->
      (convert_any e p dst mode lg w).2 = (convert_any e q dst mode lg w).2).
Proof.
  intros Hext Hcase Hq Hparent Hstem Hfile Hfiles.
  destruct (src_exts_lower ext Hext) as [Hlow Hne].
  assert (Hlp : lower (suffix p) = ext) by by apply lower_of_case_variant.
  assert (Hlq : lower (suffix q) = ext)
    by (rewrite Hq; by apply src_exts_lower_fixed).
  assert (Hfile_q : is_file (files w) q = true)
    by (unfold is_file in *; by rewrite Hfiles).
  destruct (decide (lower dst ∈ dst_formats)) as [Hdst|Hdst].
  - rewrite !convert_any_checked by (done || by rewrite ?Hlp, ?Hlq).
    rewrite Hlp, Hlq.
    split; [|apply (convert_checked_same e p q); try done].
    + intros e' He' ->.
      destruct (convert_checked e p ext (lower dst) mode lg w) as [r w'] eqn:Hc.
      cbn [fst] in He'. subst r.
      by apply convert_checked_raise in Hc.
    + by eapply case_variant_nonempty.
    + by rewrite Hq.
  - assert (Hrun : forall x, is_file (files w) x = true ->
                             lower (suffix x) = ext ->
              convert_any e x dst mode lg w = (Raise (Domain UnsupportedOutput), w)).
    { intros x Hx Hlx. unfold convert_any. run. rewrite Hx, Hlx. cbn [negb].
      rewrite bool_decide_eq_true_2 by done. cbn [negb].
      by rewrite bool_decide_eq_false_2. }
    rewrite !Hrun by done. cbn [fst snd].
    split; [by intros e' [= <-]|]. by split.
Qed.

(** *** Existing files are never written *)

Lemma convert_checked_keeps_existing (e : env) (p : Path)
    (src_ext dst mode : str) (lg : bool) (w : world) (p' : Path) :
  is_Some (files w !! p') ->
  files (convert_checked e p src_ext dst mode lg w).2 !! p' = files w !! p'.
Proof.
  intros Hp'. unfold convert_checked.
  unfold mbind at 1, M_bind at 1, lift at 1.
  destruct (with_suffix p []) as [base|e1]; [|done].
  unfold mbind at 1, M_bind at 1, lift at 1.
  destruct (with_suffix base _) as [raw_out|e1]; [|done].
  unfold mbind at 1, M_bind at 1.
  destruct (_unique_path raw_out w) as [[out|e1] w1] eqn:Hout.
  2:{ cbn [snd]. by rewrite <- (unique_path_world raw_out w), Hout. }
  apply unique_path_fresh in Hout as [-> Hfresh].
  assert (Hne : p' <> out) by (intros ->; rewrite Hfresh in Hp'; by destruct Hp').
  unfold mbind at 1, M_bind at 1.
  destruct (convert_and_write p out src_ext dst w) as [[conv|e1] w2] eqn:Hconv;
    destruct (convert_and_write_spec _ _ _ _ _ _ _ Hconv) as (_ & Hframe & _);
    [|by apply Hframe].
  unfold mbind, M_bind, mret, M_ret.
  destruct lg; [|by apply Hframe].
  destruct (log_conversion_ok e p out (lstrip_chars [DOT] src_ext) dst mode
              (env_duration_ms e) (length conv)
              (_compute_omega_score conv dst) w2) as (w3 & -> & Hw3).
  cbn [snd]. rewrite Hw3. by apply Hframe.
Qed.

(** Whatever [convert_any] does, every path that existed before the call
    refers to what it referred to before. *)
Lemma convert_any_keeps_existing (e : env) (p : Path) (dst mode : str)
    (lg : bool) (w : world) (p' : Path) :
  is_Some (files w !! p') ->
  files (convert_any e p dst mode lg w).2 !! p' = files w !! p'.
Proof.
  intros Hp'.
  destruct (is_file (files w) p) eqn:Hfile;
    [|by unfold convert_any; run; rewrite Hfile].
  destruct (decide (lower (suffix p) ∈ src_exts)) as [Hsrc|Hsrc].
  2:{ unfold convert_any. run. rewrite Hfile. cbn [negb].
      by rewrite bool_decide_eq_false_2. }
  destruct (decide (lower dst ∈ dst_formats)) as [Hdst|Hdst].
  2:{ unfold convert_any. run. rewrite Hfile. cbn [negb].
      rewrite bool_decide_eq_true_2 by done. cbn [negb].
      by rewrite bool_decide_eq_false_2. }
  rewrite convert_any_checked by done.
  by apply convert_checked_keeps_existing.
Qed.

(** *** The output path *)

Lemma with_suffix_ok (p : Path) (sfx : str) :
  name p <> [] -> mem SLASH sfx = false ->
  startswith sfx [DOT] = true -> sfx <> [DOT] ->
  with_suffix p sfx = Ok (mkPath (parent p) (stem p ++ sfx)).
Proof.
  intros Hname Hslash Hdot Hne. unfold with_suffix.
  rewrite Hslash, Hdot, andb_false_r, (bool_decide_eq_false_2 _ Hne).
  cbn [orb]. destruct (name p) as [|c nm] eqn:Hnm; [done|].
  unfold stem, suffix. rewrite Hnm.
  destruct (suffix_index (c :: nm)) as [i|] eqn:Hi; [|done].
  apply suffix_index_bound in Hi.
  destruct (drop i (c :: nm)) as [|d ds] eqn:Hdrop.
  - apply (f_equal length) in Hdrop. rewrite length_drop in Hdrop.
    cbn [length] in *. lia.
  - rewrite <- Hdrop, length_drop.
    by replace (length (c :: nm) - (length (c :: nm) - i)) with i by lia.
Qed.

Lemma stem_nonempty (p : Path) : suffix p <> [] -> stem p <> [].
Proof.
  unfold suffix, stem, suffix_index.
  destruct (rfind DOT (name p)) as [i|]; [|done].
  destruct (_ && _) eqn:Hi; [|done]. intros _.
  apply andb_prop in Hi as [Hpos%Nat.ltb_lt Hlen%Nat.ltb_lt].
  intros Htake. apply (f_equal length) in Htake.
  rewrite length_take in Htake. cbn [length] in Htake. lia.
Qed.

Lemma stem_no_slash (p : Path) :
  mem SLASH (name p) = false -> mem SLASH (stem p) = false.
Proof.
  rewrite <- (stem_suffix p), mem_app. by intros [-> _]%orb_false_elim.
Qed.

Lemma lower_nil : lower [] = [].
Proof. reflexivity. Qed.

Lemma convert_any_ok_inv (e : env) (p : Path) (dst mode : str) (lg : bool)
    (w w' : world) (out : Path) :
  convert_any e p dst mode lg w = (Ok out, w') ->
  is_file (files w) p = true
  /\ lower (suffix p) ∈ src_exts /\ lower dst ∈ dst_formats.
Proof.
  unfold convert_any. run.
  destruct (is_file (files w) p); [|done]. cbn [negb].
  destruct (decide (lower (suffix p) ∈ src_exts)) as [Hsrc|Hsrc];
    [|by rewrite bool_decide_eq_false_2].
  rewrite bool_decide_eq_true_2 by done. cbn [negb].
  destruct (decide (lower dst ∈ dst_formats)) as [Hdst|Hdst];
    [done | by rewrite bool_decide_eq_false_2].
Qed.

(** The path [convert_any] derives before looking for a free name: the
    destination extension put after the stem of the stem of the input
    name. *)
Definition raw_output_path (p : Path) (dst : str) : Path :=
  mkPath (parent p) (stem (mkPath (parent p) (stem p)) ++ [DOT] ++ lower dst).

(** Where a successful conversion writes: at a path that did not exist, in
    the directory of the input; it is the derived path, or, when that
    exists, one of its numbered candidates. *)
Lemma convert_any_output_path (e : env) (p : Path) (dst mode : str) (lg : bool)
    (w w' : world) (out : Path) :
  mem SLASH (name p) = false ->
  convert_any e p dst mode lg w = (Ok out, w') ->
  files w !! out = None
  /\ parent out = parent p
  /\ (out = raw_output_path p dst
      \/ exists_ (files w) (raw_output_path p dst) = true
         /\ exists j, 1 <= j /\ out = candidate (raw_output_path p dst) j).
Proof.
  intros Hslash Hrun.
  destruct (convert_any_ok_inv _ _ _ _ _ _ _ _ Hrun) as (Hfile & Hsrc & Hdst).
  rewrite convert_any_checked in Hrun by done.
  assert (Hsfx : suffix p <> []).
  { intros Heq. rewrite Heq, lower_nil in Hsrc.
    unfold src_exts in Hsrc. by repeat (apply elem_of_cons in Hsrc as [?|Hsrc];
      [done|]); apply elem_of_nil in Hsrc. }
  assert (Hfmt : lower dst = lit "txt" \/ lower dst = lit "md"
                 \/ lower dst = lit "html" \/ lower dst = lit "docx").
  { unfold dst_formats in Hdst.
    rewrite !elem_of_cons, elem_of_nil in Hdst. tauto. }
  assert (Hraw : with_suffix (mkPath (parent p) (stem p)) ([DOT] ++ lower dst)
                 = Ok (raw_output_path p dst)).
  { apply with_suffix_ok; cbn [name]; [by apply stem_nonempty|..];
      destruct Hfmt as [-> | [-> | [-> | ->]]]; by vm_compute. }
  destruct (unique_path_total w (raw_output_path p dst))
    as (r & Hr & Hfresh & Hparent & Hform).
  { unfold raw_output_path. cbn [name]. intros Heq.
    apply (f_equal length) in Heq. rewrite !length_app in Heq.
    cbn [length] in Heq. lia. }
  { unfold raw_output_path. cbn [name]. rewrite mem_app.
    rewrite (stem_no_slash (mkPath (parent p) (stem p)))
      by (by apply stem_no_slash).
    destruct Hfmt as [-> | [-> | [-> | ->]]]; by vm_compute. }
  unfold convert_checked in Hrun.
  rewrite with_suffix_nil in Hrun by done.
  unfold mbind at 1, M_bind at 1, lift at 1 in Hrun. cbv beta iota in Hrun.
  rewrite Hraw in Hrun.
  unfold mbind at 1, M_bind at 1, lift at 1 in Hrun. cbv beta iota in Hrun.
  unfold mbind at 1, M_bind at 1 in Hrun. rewrite Hr in Hrun.
  unfold mbind at 1, M_bind at 1 in Hrun.
  destruct (convert_and_write p r _ _ w) as [[conv|e1] w1]; [|done].
  unfold mbind, M_bind, mret, M_ret in Hrun.
  assert (out = r) as ->.
  { destruct lg; [|by injection Hrun as <- _].
    destruct (log_conversion_ok e p r (lstrip_chars [DOT] (lower (suffix p)))
                (lower dst) mode (env_duration_ms e) (length conv)
                (_compute_omega_score conv (lower dst)) w1) as (w2 & Hlog & _).
    rewrite Hlog in Hrun. by injection Hrun as <- _. }
  done.
Qed.

Lemma stem_no_suffix (q : Path) : suffix q = [] -> stem q = name q.
Proof.
  unfold suffix, stem.
  destruct (suffix_index (name q)) as [i|] eqn:Hi; [|done].
  apply suffix_index_bound in Hi. intros Hdrop.
  apply (f_equal length) in Hdrop. rewrite length_drop in Hdrop.
  cbn [length] in Hdrop. lia.
Qed.

(** When the stem of the input name has no extension of its own, the derived
    path is the input name with its extension replaced. *)
Lemma raw_output_path_plain_stem (p : Path) (dst : str) :
  suffix (mkPath (parent p) (stem p)) = [] ->
  raw_output_path p dst = mkPath (parent p) (stem p ++ [DOT] ++ lower dst).
Proof.
  intros Hs. unfold raw_output_path. by rewrite (stem_no_suffix _ Hs).
Qed.

End CoreFacts.

(** *** Runs on sample files *)

Module Samples.
Import Py.

Definition docs (nm : string) : Path := mkPath (lit "/docs") (lit nm).

Definition sample_env : env := mkEnv (lit "2024-05-01T10:00:00") 1.5%float true.

Definition sample_world : world :=
  mkWorld
    (list_to_map
       [ (docs "input.txt", File (lit "Hello World"));
         (docs "input.html", File (lit "<p>old</p>"));
         (docs "notes.v2.txt", File (lit "Release notes"));
         (docs "Report.MD", File (lit "# Title"));
         (docs "Report.md", File (lit "# Title"));
         (docs "scan.pdf", File (lit "%PDF-1.4")) ])
    None.

Definition run (input : string) (dst : string) (lg : bool) :=
  @convert_any latin1_db ascii_runtime sample_env (docs input) (lit dst)
    (lit "cli-single") lg sample_world.

(** The scenario of the specification: converting input.txt to html next
    to input.html gives "input (1).html" and leaves input.html as it was. *)
Example convert_input_txt_to_html :
  (run "input.txt" "html" true).1 = Ok (docs "input (1).html")
  /\ files (run "input.txt" "html" true).2 !! docs "input.html"
     = Some (File (lit "<p>old</p>"))
  /\ files (run "input.txt" "html" true).2 !! docs "input (1).html"
     = Some (File (text_to_html (lit "Hello World"))).
Proof. vm_compute. repeat split. Qed.

(** With "input (1).html" taken too, here by a directory, the next number
    is used. *)
Example convert_input_txt_to_html_twice_taken :
  (@convert_any latin1_db ascii_runtime sample_env (docs "input.txt")
     (lit "html") (lit "cli-single") false
     (mkWorld (<[docs "input (1).html" := Dir]> (files sample_world)) None)).1
  = Ok (docs "input (2).html").
Proof. vm_compute. reflexivity. Qed.

End Samples.

Lemma convert_any_validation_samples :
  Samples.run "absent.txt" "html" true
  = (Raise (Domain (InputMissing (Samples.docs "absent.txt"))), Samples.sample_world)
  /\ Samples.run "scan.pdf" "html" true
     = (Raise (Domain UnsupportedInput), Samples.sample_world)
  /\ Samples.run "input.txt" "pdf" true
     = (Raise (Domain UnsupportedOutput), Samples.sample_world)
  /\ (forall e', (Samples.run "input.txt" "HTML" true).1 = Raise e' ->
                 validation_error e' = false).
Proof.
  unfold Samples.run.
  split; [|split; [|split]].
  - apply convert_any_validation. reflexivity.
  - apply convert_any_validation; [reflexivity|].
    refine (bool_decide_eq_false_1 _ _); reflexivity.
  - apply convert_any_validation; [reflexivity| |].
    + refine (bool_decide_eq_true_1 _ _); reflexivity.
    + refine (bool_decide_eq_false_1 _ _); reflexivity.
  - apply convert_any_validation; [reflexivity| |].
    + refine (bool_decide_eq_true_1 _ _); reflexivity.
    + refine (bool_decide_eq_true_1 _ _); reflexivity.
Defined.

(** C2 on a name with two dots.  The output path should keep the base name
    and replace the extension: notes.v2.txt converted to html should give
    notes.v2.html.  [convert_any] removes the extension and then replaces
    what [with_suffix] takes for the extension of the rest, ".v2": the output
    is notes.html. *)
Theorem convert_any_drops_inner_extension :
  Pathlib.stem (Samples.docs "notes.v2.txt") = Py.lit "notes.v2"
  /\ Pathlib.suffix (Samples.docs "notes.v2.txt") = Py.lit ".txt"
  /\ (Samples.run "notes.v2.txt" "html" false).1 = Ok (Samples.docs "notes.html")
  /\ Samples.docs "notes.html" <> Samples.docs "notes.v2.html".
Proof. vm_compute. repeat split. discriminate. Qed.

(** ** Package writer *)

Module DocxFacts.
Import Py PyFacts Docx.

(** A paragraph without whitespace at either end. *)
Definition trimmed (p : str) : Prop :=
  match p with c :: _ => isspace c = false | [] => True end
  /\ match rev p with c :: _ => isspace c = false | [] => True end.

Lemma strip_trimmed (s : str) : trimmed (strip s).
Proof.
  unfold trimmed, strip, rstrip.
  destruct (drop_while_split isspace s) as (_ & _ & _ & Hhead).
  destruct (drop_while_split isspace (rev (lstrip s))) as (ws & _ & Hrev & Hlast).
  fold (lstrip s) in Hhead. rewrite rev_involutive. split; [|done].
  apply (f_equal (@rev N)) in Hrev. rewrite rev_involutive, rev_app_distr in Hrev.
  destruct (rev (drop_while isspace (rev (lstrip s)))) as [|c r]; [done|].
  rewrite Hrev in Hhead. done.
Qed.

(** The element built for one paragraph, and the whole document. *)
Definition para_elem (t : str) : element :=
  Elem (wtag "p") None [Elem (wtag "r") None [Elem (wtag "t") (Some t) []]].

Definition document_elem (paragraphs : list str) : element :=
  Elem (wtag "document") None [Elem (wtag "body") None (para_elem <$> paragraphs)].

(** The heap nodes of the paragraphs, the first one at index [start]. *)
Fixpoint para_nodes (start : nat) (ps : list str) : heap :=
  match ps with
  | [] => []
  | t :: ps' =>
      [mkNode (wtag "p") None [S start];
       mkNode (wtag "r") None [S (S start)];
       mkNode (wtag "t") (Some t) []]
      ++ para_nodes (3 + start) ps'
  end.

Fixpoint para_ids (start n : nat) : list nat :=
  match n with
  | O => []
  | S n' => start :: para_ids (3 + start) n'
  end.

Lemma SubElement_eq (pre : heap) (n : enode) (post : heap) (tag : str) :
  SubElement (length pre) tag (pre ++ n :: post)
  = (length pre + S (length post),
     pre ++ mkNode (e_tag n) (e_text n)
              (e_children n ++ [length pre + S (length post)])
         :: post ++ [mkNode tag None []]).
Proof.
  unfold SubElement. rewrite length_app. cbn [length]. f_equal.
  rewrite alter_app_r_alt by lia. rewrite Nat.sub_diag.
  by rewrite <- app_assoc.
Qed.

Lemma set_text_eq (pre : heap) (n : enode) (post : heap) (s : str) :
  set_text (length pre) s (pre ++ n :: post)
  = pre ++ mkNode (e_tag n) (Some s) (e_children n) :: post.
Proof.
  unfold set_text. rewrite alter_app_r_alt by lia. by rewrite Nat.sub_diag.
Qed.

Lemma add_paragraph_eq (d : enode) (bt : str) (btxt : option str)
    (kids : list nat) (nodes : heap) (x : str) :
  add_paragraph 1 (d :: mkNode bt btxt kids :: nodes) x
  = d :: mkNode bt btxt (kids ++ [2 + length nodes])
      :: nodes ++ [mkNode (wtag "p") None [3 + length nodes];
                   mkNode (wtag "r") None [4 + length nodes];
                   mkNode (wtag "t") (Some x) []].
Proof.
  unfold add_paragraph.
  pose proof (SubElement_eq [d] (mkNode bt btxt kids) nodes (wtag "p")) as E1.
  cbn [length app e_tag e_text e_children Nat.add] in E1. rewrite E1.
  pose proof (SubElement_eq
                (d :: mkNode bt btxt (kids ++ [S (S (length nodes))]) :: nodes)
                (mkNode (wtag "p") None []) [] (wtag "r")) as E2.
  cbn [length app e_tag e_text e_children] in E2.
  rewrite Nat.add_1_r in E2. rewrite E2.
  pose proof (SubElement_eq
                (d :: mkNode bt btxt (kids ++ [S (S (length nodes))])
                   :: nodes ++ [mkNode (wtag "p") None [S (S (S (length nodes)))]])
                (mkNode (wtag "r") None []) [] (wtag "t")) as E3.
  cbn [length app e_tag e_text e_children] in E3.
  rewrite length_app in E3. rewrite <- !app_assoc in E3. cbn [length app] in E3.
  rewrite !Nat.add_1_r in E3. rewrite E3.
  pose proof (set_text_eq
                (d :: mkNode bt btxt (kids ++ [S (S (length nodes))])
                   :: nodes ++ [mkNode (wtag "p") None [S (S (S (length nodes)))];
                                mkNode (wtag "r") None
                                  [S (S (S (S (length nodes))))]])
                (mkNode (wtag "t") None []) [] x) as E4.
  cbn [length app e_tag e_text e_children] in E4.
  rewrite length_app in E4. rewrite <- !app_assoc in E4. cbn [length app] in E4.
  replace (length nodes + 2) with (S (S (length nodes))) in E4 by lia.
  rewrite E4. reflexivity.
Qed.

Lemma foldl_add_paragraph (d : enode) (bt : str) (btxt : option str)
    (ps : list str) (kids : list nat) (nodes : heap) :
  foldl (add_paragraph 1) (d :: mkNode bt btxt kids :: nodes) ps
  = d :: mkNode bt btxt (kids ++ para_ids (2 + length nodes) (length ps))
      :: nodes ++ para_nodes (2 + length nodes) ps.
Proof.
  revert kids nodes. induction ps as [|x ps IH]; intros kids nodes.
  - cbn. by rewrite !app_nil_r.
  - cbn [foldl]. rewrite add_paragraph_eq, IH.
    rewrite length_app. cbn [length para_ids para_nodes].
    replace (2 + (length nodes + 3)) with (3 + (2 + length nodes)) by lia.
    by rewrite <- !app_assoc.
Qed.

(** The heap [_create_basic_docx_xml] serializes. *)
Lemma docx_document_eq (ps : list str) :
  docx_document ps
  = (mkNode (wtag "document") None [1]
       :: mkNode (wtag "body") None (para_ids 2 (length ps))
       :: para_nodes 2 ps, 0).
Proof.
  unfold docx_document, Element, SubElement.
  cbn [length alter list_alter app e_tag e_text e_children].
  by rewrite foldl_add_paragraph.
Qed.

Lemma tree_of_paragraphs (ps : list str) (pre post : heap) :
  mapM (tree_of 3 (pre ++ para_nodes (length pre) ps ++ post))
    (para_ids (length pre) (length ps))
  = Some (para_elem <$> ps).
Proof.
  revert pre. induction ps as [|x ps IH]; intros pre; [done|].
  cbn [length para_ids para_nodes].
  set (h := pre ++ _).
  assert (Hp : h !! length pre = Some (mkNode (wtag "p") None [S (length pre)])).
  { unfold h. cbn [app]. by rewrite list_lookup_middle. }
  assert (Hr : h !! S (length pre)
               = Some (mkNode (wtag "r") None [S (S (length pre))])).
  { unfold h. cbn [app]. rewrite lookup_app_r by lia.
    by replace (S (length pre) - length pre) with 1 by lia. }
  assert (Ht : h !! S (S (length pre)) = Some (mkNode (wtag "t") (Some x) [])).
  { unfold h. cbn [app]. rewrite lookup_app_r by lia.
    by replace (S (S (length pre)) - length pre) with 2 by lia. }
  assert (Hrest : mapM (tree_of 3 h) (para_ids (3 + length pre) (length ps))
                  = Some (para_elem <$> ps)).
  { specialize (IH (pre ++ [mkNode (wtag "p") None [S (length pre)];
                            mkNode (wtag "r") None [S (S (length pre))];
                            mkNode (wtag "t") (Some x) []])).
    rewrite length_app in IH. cbn [length] in IH.
    replace (length pre + 3) with (3 + length pre) in IH by lia.
    rewrite <- IH. f_equal. unfold h. by rewrite <- !app_assoc. }
  cbn [mapM]. rewrite Hrest.
  cbn [tree_of]. rewrite Hp. cbn [e_children e_tag e_text mapM tree_of].
  rewrite Hr. cbn [e_children e_tag e_text mapM tree_of].
  rewrite Ht. reflexivity.
Qed.

(** Read back from the heap, the document is a body holding one paragraph
    element per paragraph, in order. *)
Lemma tree_of_docx_document (ps : list str) :
  tree_of 5 (docx_document ps).1 (docx_document ps).2 = Some (document_elem ps).
Proof.
  rewrite docx_document_eq. cbn [fst snd].
  pose proof (tree_of_paragraphs ps
                [mkNode (wtag "document") None [1];
                 mkNode (wtag "body") None (para_ids 2 (length ps))] [])
    as Hps.
  cbn [length app] in Hps. rewrite app_nil_r in Hps.
  cbn [tree_of lookup list_lookup e_children e_tag e_text mapM].
  cbn [tree_of] in Hps. rewrite Hps. reflexivity.
Qed.

Lemma findall_p_document (ps : list str) :
  findall_desc "p" (document_elem ps) = para_elem <$> ps.
Proof.
  unfold findall_desc, document_elem.
  cbn [children_of List.map iter concat]. rewrite app_nil_r.
  cbn [List.filter]. rewrite bool_decide_eq_false_2 by (by vm_compute).
  induction ps as [|x ps IH]; [done|].
  cbn [fmap list_fmap List.map concat].
  rewrite List.filter_app. cbn [fmap list_fmap] in IH. rewrite IH.
  reflexivity.
Qed.

(** The paragraphs as the specification words them: the blocks between
    blank-line boundaries, each trimmed, the empty ones dropped; one empty
    paragraph when nothing is left. *)
Definition paragraphs_as_stated (text : str) : list str :=
  let kept :=
    omap (fun block => match strip block with
                       | [] => None
                       | (_ :: _) as t => Some t
                       end) (split [LF; LF] text) in
  match kept with
  | [] => [[]]
  | _ :: _ => kept
  end.

Lemma filter_nonempty_omap (blocks : list str) :
  filter (fun p => p <> []) (strip <$> blocks)
  = omap (fun block => match strip block with
                       | [] => None
                       | (_ :: _) as t => Some t
                       end) blocks.
Proof.
  induction blocks as [|b blocks IH]; [done|].
  cbn [fmap list_fmap omap list_omap]. rewrite filter_cons.
  fold (fmap (M := list) strip blocks). rewrite IH.
  by destruct (strip b).
Qed.

Lemma docx_paragraphs_as_stated (text : str) :
  docx_paragraphs text = paragraphs_as_stated text.
Proof.
  unfold docx_paragraphs, paragraphs_as_stated. cbv zeta.
  rewrite filter_nonempty_omap. by destruct (omap _ _).
Qed.

Lemma docx_paragraphs_shape (text : str) :
  docx_paragraphs text = [[]]
  \/ Forall (fun p => p <> [] /\ trimmed p) (docx_paragraphs text).
Proof.
  unfold docx_paragraphs.
  destruct (filter _ _) as [|p ps] eqn:Hkept; [by left|]. right.
  rewrite <- Hkept. apply Forall_forall. intros x Hx.
  apply list_elem_of_filter in Hx as [Hne Hx].
  apply list_elem_of_fmap in Hx as (b & -> & _).
  split; [done | apply strip_trimmed].
Qed.

Section Writer.
Context `{Runtime}.

(** C7. [text_to_docx_bytes] takes the blocks of its input between blank-line
    boundaries, trims them and drops the empty ones, and takes one empty
    paragraph when none is left; it returns exactly three parts, named
    [Content_Types].xml, _rels/.rels and word/document.xml; the last is the
    serialization of a document whose body holds one paragraph element (a
    run holding a text) per paragraph, in order.  For the text of the two
    paragraphs "Title" and "Body text" these are two paragraph elements, in
    that order. *)
Theorem text_to_docx_bytes_parts (text : str) :
  let paragraphs := docx_paragraphs text in
  let built := docx_document paragraphs in
  paragraphs = paragraphs_as_stated text
  /\ paragraphs <> []
  /\ (paragraphs = [[]]
      \/ Forall (fun p => p <> [] /\ trimmed p) paragraphs)
  /\ text_to_docx_bytes text
     = [ (lit "[Content_Types].xml", content_types_xml);
         (lit "_rels/.rels", rels_xml);
         (lit "word/document.xml", xml_tostring built.1 built.2) ]
  /\ NoDup (text_to_docx_bytes text).*1
  /\ tree_of 5 built.1 built.2 = Some (document_elem paragraphs)
  /\ findall_desc "p" (document_elem paragraphs) = para_elem <$> paragraphs
  /\ length (findall_desc "p" (document_elem paragraphs)) = length paragraphs
  /\ findall_desc "p"
       (document_elem
          (docx_paragraphs (lit "Title" ++ [LF; LF] ++ lit "Body text" ++ [LF])))
     = [para_elem (lit "Title"); para_elem (lit "Body text")].
Proof.
  cbv zeta.
  split; [apply docx_paragraphs_as_stated|].
  split; [unfold docx_paragraphs; by destruct (filter _ _)|].
  split; [apply docx_paragraphs_shape|].
  split.
  { unfold text_to_docx_bytes, _create_basic_docx_xml.
    by destruct (docx_document _). }
  split.
  { unfold text_to_docx_bytes. cbn [fmap list_fmap fst].
    refine (bool_decide_eq_true_1 _ _). reflexivity. }
  split; [apply tree_of_docx_document|].
  split; [apply findall_p_document|].
  split; [by rewrite findall_p_document, length_fmap|].
  rewrite findall_p_document. reflexivity.
Qed.

End Writer.

(** The reader finds in such a document the paragraphs it was built from. *)
Example extracted_paragraphs_of_document :
  extracted_paragraphs (document_elem [lit "Title"; lit "Body text"])
  = [lit "Title"; lit "Body text"].
Proof. reflexivity. Qed.

End DocxFacts.

(** * Further properties of the conversion core *)

(** ** HTML escaping *)

Module EscapeFacts.
Import Py PyFacts HtmlFacts.

(** What [_html_escape] puts for one character. *)
Definition escape_char (c : N) : str :=
  if N.eqb c 38 then lit "&amp;"
  else if N.eqb c 60 then lit "&lt;"
  else if N.eqb c 62 then lit "&gt;"
  else [c].

(** The three [replace] calls amount to one pass over the text: the
    ampersands of the entities put for "<" and ">" are not escaped again,
    because "&" is replaced first. *)
Lemma html_escape_one_pass (s : str) :
  _html_escape s = flat_map escape_char s.
Proof.
  unfold _html_escape, replace_char.
  induction s as [|c s IH]; [done|].
  cbn [flat_map]. rewrite !flat_map_app, IH. f_equal.
  unfold escape_char.
  destruct (N.eqb_spec c 38) as [->|H38]; [reflexivity|].
  cbn [flat_map]. rewrite app_nil_r.
  destruct (N.eqb_spec c 60) as [->|H60]; [reflexivity|].
  cbn [flat_map]. rewrite app_nil_r.
  by destruct (N.eqb_spec c 62) as [->|H62].
Qed.

Lemma escape_char_no_markup (c : N) :
  Forall (fun x => x <> 60%N /\ x <> 62%N) (escape_char c).
Proof.
  unfold escape_char.
  destruct (N.eqb_spec c 38); [by repeat constructor|].
  destruct (N.eqb_spec c 60); [by repeat constructor|].
  destruct (N.eqb_spec c 62); by repeat constructor.
Qed.

(** Escaped text holds no angle bracket. *)
Lemma escape_no_markup (s : str) :
  Forall (fun x => x <> 60%N /\ x <> 62%N) (_html_escape s).
Proof.
  rewrite html_escape_one_pass.
  induction s as [|c s IH]; [constructor|].
  cbn [flat_map]. apply Forall_app. split; [apply escape_char_no_markup | done].
Qed.

(** X1. Escaped text holds neither "<" nor ">": whatever the input, it
    cannot open or close a tag in the HTML output. *)
Theorem html_escape_no_markup (s : str) :
  Forall (fun x => x <> 60%N /\ x <> 62%N) (_html_escape s).
Proof. apply escape_no_markup. Qed.

Lemma escape_char_head (c : N) :
  exists t, escape_char c = (if N.eqb c 60 || N.eqb c 62 then 38%N else c) :: t
            /\ (N.eqb c 38 = true -> t = lit "amp;")
            /\ (N.eqb c 60 = true -> t = lit "lt;")
            /\ (N.eqb c 62 = true -> t = lit "gt;")
            /\ (N.eqb c 38 = false -> N.eqb c 60 = false ->
                N.eqb c 62 = false -> t = []).
Proof.
  unfold escape_char.
  destruct (N.eqb_spec c 38) as [->|H38]; [by eexists|].
  destruct (N.eqb_spec c 60) as [->|H60]; [by eexists|].
  destruct (N.eqb_spec c 62) as [->|H62]; by eexists.
Qed.

Lemma escape_char_app_inj (c1 c2 : N) (r1 r2 : str) :
  escape_char c1 ++ r1 = escape_char c2 ++ r2 -> c1 = c2 /\ r1 = r2.
Proof.
  unfold escape_char.
  destruct (N.eqb_spec c1 38) as [->|A1], (N.eqb_spec c2 38) as [->|A2];
    [by intros [= ->] | | |].
  - destruct (N.eqb_spec c2 60) as [->|B2]; [by intros [=]|].
    destruct (N.eqb_spec c2 62) as [->|C2]; [by intros [=]|].
    intros [= <- _]. done.
  - destruct (N.eqb_spec c1 60) as [->|B1]; [by intros [=]|].
    destruct (N.eqb_spec c1 62) as [->|C1]; [by intros [=]|].
    intros [= -> _]. done.
  - destruct (N.eqb_spec c1 60) as [->|B1], (N.eqb_spec c2 60) as [->|B2];
      [by intros [= ->] | | |].
    + destruct (N.eqb_spec c2 62) as [->|C2]; [by intros [=]|].
      intros [= <- _]. done.
    + destruct (N.eqb_spec c1 62) as [->|C1]; [by intros [=]|].
      intros [= -> _]. done.
    + destruct (N.eqb_spec c1 62) as [->|C1], (N.eqb_spec c2 62) as [->|C2];
        [by intros [= ->] | | |].
      * intros [= <- _]. done.
      * intros [= -> _]. done.
      * by intros [= -> ->].
Qed.

(** X2. Escaping loses nothing: two texts with the same escaped form are
    the same text. *)
Theorem html_escape_inj (s1 s2 : str) :
  _html_escape s1 = _html_escape s2 -> s1 = s2.
Proof.
  rewrite !html_escape_one_pass. revert s2.
  induction s1 as [|c1 s1 IH]; intros [|c2 s2]; cbn [flat_map].
  - done.
  - intros Heq. destruct (escape_char_head c2) as (t & Ht & _).
    rewrite Ht in Heq. discriminate Heq.
  - intros Heq. destruct (escape_char_head c1) as (t & Ht & _).
    rewrite Ht in Heq. discriminate Heq.
  - intros [-> Hrest]%escape_char_app_inj. f_equal. by apply IH.
Qed.

End EscapeFacts.

Lemma html_escape_inj_example :
  _html_escape (Py.lit "a < b & c") = _html_escape (Py.lit "a < b & c")
  /\ Py.lit "a < b & c" = Py.lit "a < b & c".
Proof.
  split; [reflexivity|]. by apply EscapeFacts.html_escape_inj.
Defined.

(** ** Shape of the HTML made from Markdown *)

Module HtmlShape.
Import Py PyFacts HtmlFacts EscapeFacts.

(** A line of the body: a list tag alone, or escaped text inside one of the
    five block tags. *)
Definition block_tags : list string := ["h1"; "h2"; "h3"; "li"; "p"]%string.

Definition html_line_ok (l : str) : Prop :=
  l = lit "<ul>" \/ l = lit "</ul>"
  \/ exists tag body,
       In tag block_tags
       /\ l = lit "<" ++ lit tag ++ lit ">" ++ body ++ lit "</" ++ lit tag ++ lit ">"
       /\ Forall (fun x => x <> 60%N /\ x <> 62%N) body.

Lemma wrapped_line_ok (tag : string) (s : str) :
  In tag block_tags ->
  html_line_ok (lit ("<" ++ tag ++ ">") ++ _html_escape s
                ++ lit ("</" ++ tag ++ ">")).
Proof.
  intros Htag. right. right. exists tag, (_html_escape s).
  split; [done|]. split; [|apply escape_no_markup].
  unfold block_tags in Htag. cbn in Htag.
  by repeat (destruct Htag as [<-|Htag]; [reflexivity|]).
Qed.

Definition lines_ok (st : html_state) : Prop := Forall html_line_ok st.2.

Lemma lines_ok_close_list (st : html_state) :
  lines_ok st -> lines_ok (close_list st).
Proof.
  unfold lines_ok. destruct st as [[] ls]; cbn [close_list snd]; [|done].
  intros Hls. apply Forall_app. split; [done|].
  constructor; [|constructor]. right. by left.
Qed.

Lemma lines_ok_append (st : html_state) (l : str) :
  lines_ok st -> html_line_ok l -> lines_ok (append_line st l).
Proof.
  unfold lines_ok, append_line. cbn [snd]. intros Hls Hl.
  apply Forall_app. split; [done|]. by constructor.
Qed.

Lemma lines_ok_step (st : html_state) (line : str) :
  lines_ok st -> lines_ok (markdown_to_html_line st line).
Proof.
  intros Hst. unfold markdown_to_html_line.
  pose proof (lines_ok_close_list st Hst) as Hcl.
  destruct (strip line) as [|ch s]; [done|].
  destruct (startswith (ch :: s) (lit "### "));
    [|destruct (startswith (ch :: s) (lit "## "));
      [|destruct (startswith (ch :: s) (lit "# "));
        [|destruct (startswith_any (ch :: s) _)]]].
  - apply lines_ok_append; [done|]. apply (wrapped_line_ok "h3"). cbn. tauto.
  - apply lines_ok_append; [done|]. apply (wrapped_line_ok "h2"). cbn. tauto.
  - apply lines_ok_append; [done|]. apply (wrapped_line_ok "h1"). cbn. tauto.
  - apply lines_ok_append; [|apply (wrapped_line_ok "li"); cbn; tauto].
    destruct st as [[] ls]; [done|]. unfold lines_ok in *. cbn [fst snd] in *.
    apply Forall_app. split; [done|]. constructor; [by left | constructor].
  - apply lines_ok_append; [done|]. apply (wrapped_line_ok "p"). cbn. tauto.
Qed.

(** X3. Every line [markdown_to_html] puts in the body is "<ul>", "</ul>",
    or text without "<" and ">" between the opening and closing tag of one of
    h1, h2, h3, li, p: no markup of the input reaches the output. *)
Theorem markdown_html_lines_ok (md : str) :
  Forall html_line_ok (markdown_html_lines md).
Proof.
  unfold markdown_html_lines. apply lines_ok_close_list.
  generalize (splitlines md).
  assert (Hinit : lines_ok (false, [])) by constructor.
  revert Hinit. generalize ((false, []) : html_state).
  intros st Hst lines. revert st Hst.
  induction lines as [|l lines IH]; intros st Hst; [done|].
  cbn [foldl]. by apply IH, lines_ok_step.
Qed.

(** The kind of a line of the body, as a reader of the HTML sees it. *)
Inductive line_kind := ListOpen | ListClose | ListItem | Block.

Definition kind_of (l : str) : line_kind :=
  if bool_decide (l = lit "<ul>") then ListOpen
  else if bool_decide (l = lit "</ul>") then ListClose
  else if startswith l (lit "<li>") then ListItem
  else Block.

(** Reading the lines with the list state: a list is opened only outside a
    list and closed only inside one, items occur only inside a list, every
    other block only outside.  [None] when a line is out of place. *)
Fixpoint nesting (in_list : bool) (ls : list str) : option bool :=
  match ls with
  | [] => Some in_list
  | l :: ls' =>
      match kind_of l, in_list with
      | ListOpen, false => nesting true ls'
      | ListClose, true => nesting false ls'
      | ListItem, true => nesting true ls'
      | Block, false => nesting false ls'
      | _, _ => None
      end
  end.

Lemma nesting_app (b : bool) (l1 l2 : list str) :
  nesting b (l1 ++ l2)
  = match nesting b l1 with Some b' => nesting b' l2 | None => None end.
Proof.
  revert b. induction l1 as [|l l1 IH]; intros b; [done|].
  cbn [app nesting]. by destruct (kind_of l), b.
Qed.

Definition nested (st : html_state) : Prop := nesting false st.2 = Some st.1.

Lemma nested_close_list (st : html_state) :
  nested st -> nested (close_list st) /\ (close_list st).1 = false.
Proof.
  unfold nested. destruct st as [[] ls]; cbn [close_list fst snd]; [|done].
  intros Hls. by rewrite nesting_app, Hls.
Qed.

Lemma kind_of_heading (level : string) (body : str) :
  In level ["h1"; "h2"; "h3"; "p"]%string ->
  kind_of (lit ("<" ++ level ++ ">") ++ body) = Block.
Proof.
  cbn. intros [<-|[<-|[<-|[<-|[]]]]]; unfold kind_of;
    rewrite !bool_decide_eq_false_2 by (by vm_compute); reflexivity.
Qed.

Lemma kind_of_item (body : str) : kind_of (lit "<li>" ++ body) = ListItem.
Proof.
  unfold kind_of. rewrite !bool_decide_eq_false_2 by (by vm_compute).
  reflexivity.
Qed.

Lemma nested_block (st : html_state) (level : string) (body : str) :
  In level ["h1"; "h2"; "h3"; "p"]%string ->
  nested st ->
  nested (append_line (close_list st) (lit ("<" ++ level ++ ">") ++ body)).
Proof.
  intros Hlevel Hst. destruct (nested_close_list st Hst) as [Hcl Hin].
  unfold nested, append_line in *. cbn [fst snd].
  rewrite nesting_app, Hcl, Hin. cbn [nesting].
  by rewrite kind_of_heading.
Qed.

Lemma nested_step (st : html_state) (line : str) :
  nested st -> nested (markdown_to_html_line st line).
Proof.
  intros Hst. unfold markdown_to_html_line.
  destruct (strip line) as [|ch s]; [by apply nested_close_list|].
  destruct (startswith (ch :: s) (lit "### "));
    [|destruct (startswith (ch :: s) (lit "## "));
      [|destruct (startswith (ch :: s) (lit "# "));
        [|destruct (startswith_any (ch :: s) _)]]].
  - apply (nested_block st "h3"); [cbn; tauto | done].
  - apply (nested_block st "h2"); [cbn; tauto | done].
  - apply (nested_block st "h1"); [cbn; tauto | done].
  - unfold nested, append_line in *.
    destruct st as [[] ls]; cbn [fst snd] in *.
    + rewrite nesting_app, Hst. cbn [nesting]. by rewrite kind_of_item.
    + rewrite !nesting_app, Hst. cbn [nesting].
      change (kind_of (lit "<ul>")) with ListOpen. cbn iota.
      by rewrite kind_of_item.
  - apply (nested_block st "p"); [cbn; tauto | done].
Qed.

(** X4. The lists of the body are well nested: "<ul>" occurs only outside a
    list, "<li>" lines and "</ul>" only inside one, headings and paragraphs
    only outside, and no list is open at the end. *)
Theorem markdown_html_lines_nested (md : str) :
  nesting false (markdown_html_lines md) = Some false.
Proof.
  unfold markdown_html_lines.
  assert (Hfold : forall lines st, nested st ->
                    nested (foldl markdown_to_html_line st lines)).
  { induction lines as [|l lines IH]; intros st Hst; [done|].
    cbn [foldl]. by apply IH, nested_step. }
  destruct (nested_close_list _ (Hfold (splitlines md) (false, []) eq_refl))
    as [Hn Hin].
  unfold nested in Hn. by rewrite Hin in Hn.
Qed.

(** The lines that carry text: all but the two list tags. *)
Definition is_content_line (l : str) : bool :=
  negb (bool_decide (l = lit "<ul>")) && negb (bool_decide (l = lit "</ul>")).

Definition is_blank (line : str) : bool :=
  match strip line with [] => true | _ :: _ => false end.

Definition content_count (st : html_state) : nat :=
  length (List.filter is_content_line st.2).

Lemma content_count_close_list (st : html_state) :
  content_count (close_list st) = content_count st.
Proof.
  unfold content_count. destruct st as [[] ls]; cbn [close_list snd]; [|done].
  rewrite List.filter_app, length_app.
  change (length (List.filter is_content_line [lit "</ul>"])) with 0. lia.
Qed.

Lemma content_count_append (st : html_state) (l : str) :
  is_content_line l = true ->
  content_count (append_line st l) = S (content_count st).
Proof.
  intros Hl. unfold content_count, append_line. cbn [snd].
  rewrite List.filter_app, length_app. cbn [List.filter]. rewrite Hl.
  cbn [length]. lia.
Qed.

Lemma wrapped_is_content (tag : string) (body : str) :
  In tag block_tags ->
  is_content_line (lit ("<" ++ tag ++ ">") ++ body) = true.
Proof.
  unfold block_tags. cbn. unfold is_content_line.
  intros [<-|[<-|[<-|[<-|[<-|[]]]]]];
    rewrite !bool_decide_eq_false_2 by (by vm_compute); reflexivity.
Qed.

Lemma content_count_step (st : html_state) (line : str) :
  content_count (markdown_to_html_line st line)
  = content_count st + (if is_blank line then 0 else 1).
Proof.
  unfold markdown_to_html_line, is_blank.
  destruct (strip line) as [|ch s]; [rewrite content_count_close_list; lia|].
  assert (Hopen : content_count
                    (if st.1 then st else (true, st.2 ++ [lit "<ul>"]))
                  = content_count st).
  { destruct st as [[] ls]; [done|]. unfold content_count. cbn [fst snd].
    rewrite List.filter_app, length_app.
    change (length (List.filter is_content_line [lit "<ul>"])) with 0. lia. }
  destruct (startswith (ch :: s) (lit "### "));
    [|destruct (startswith (ch :: s) (lit "## "));
      [|destruct (startswith (ch :: s) (lit "# "));
        [|destruct (startswith_any (ch :: s) _)]]].
  - rewrite (content_count_append _ _ (wrapped_is_content "h3" _ ltac:(cbn; tauto))),
      content_count_close_list. lia.
  - rewrite (content_count_append _ _ (wrapped_is_content "h2" _ ltac:(cbn; tauto))),
      content_count_close_list. lia.
  - rewrite (content_count_append _ _ (wrapped_is_content "h1" _ ltac:(cbn; tauto))),
      content_count_close_list. lia.
  - rewrite (content_count_append _ _ (wrapped_is_content "li" _ ltac:(cbn; tauto))),
      Hopen. lia.
  - rewrite (content_count_append _ _ (wrapped_is_content "p" _ ltac:(cbn; tauto))),
      content_count_close_list. lia.
Qed.

(** X5. No line of the input is dropped or doubled: the body holds exactly
    one heading, list item or paragraph per non-blank line of the Markdown
    text. *)
Theorem markdown_html_lines_count (md : str) :
  length (List.filter is_content_line (markdown_html_lines md))
  = length (List.filter (fun line => negb (is_blank line)) (splitlines md)).
Proof.
  unfold markdown_html_lines.
  change (length (List.filter is_content_line ?x.2)) with (content_count x).
  rewrite content_count_close_list.
  assert (Hfold : forall lines st,
            content_count (foldl markdown_to_html_line st lines)
            = content_count st
              + length (List.filter (fun line => negb (is_blank line)) lines)).
  { induction lines as [|l lines IH]; intros st; [cbn; lia|].
    cbn [foldl List.filter]. rewrite IH, content_count_step.
    destruct (is_blank l); cbn [negb length]; lia. }
  by rewrite Hfold.
Qed.

End HtmlShape.

(** ** Indented marker lines *)

Module IndentFacts.
Import Py PyFacts HtmlFacts HtmlShape.

(** [element] is the line the output holds for the input line that follows
    the lines [pre]: a line of the body, with as many headings, list items
    and paragraphs before it as [pre] has lines that are not blank. *)
Definition emitted_for (md : str) (pre : list str) (element : str) : Prop :=
  exists before after,
    markdown_html_lines md = before ++ element :: after
    /\ markdown_to_html md
       = html_header ++ join [LF] (before ++ element :: after) ++ html_footer
    /\ length (List.filter is_content_line before)
       = length (List.filter (fun l => negb (is_blank l)) pre).

(** The heading or list item for a stripped line that starts with a
    marker. *)
Definition marker_element (stripped : str) : str :=
  if startswith stripped (lit "### ") then
    lit "<h3>" ++ _html_escape (strip (drop 4 stripped)) ++ lit "</h3>"
  else if startswith stripped (lit "## ") then
    lit "<h2>" ++ _html_escape (strip (drop 3 stripped)) ++ lit "</h2>"
  else if startswith stripped (lit "# ") then
    lit "<h1>" ++ _html_escape (strip (drop 2 stripped)) ++ lit "</h1>"
  else
    lit "<li>" ++ _html_escape (strip (drop 2 stripped)) ++ lit "</li>".

Lemma marker_element_content (stripped : str) :
  is_content_line (marker_element stripped) = true
  /\ startswith (marker_element stripped) (lit "<p>") = false.
Proof.
  unfold marker_element.
  destruct (startswith stripped (lit "### "));
    [|destruct (startswith stripped (lit "## "));
      [|destruct (startswith stripped (lit "# "))]];
    (split; [|reflexivity]).
  - apply (wrapped_is_content "h3"). cbn. tauto.
  - apply (wrapped_is_content "h2"). cbn. tauto.
  - apply (wrapped_is_content "h1"). cbn. tauto.
  - apply (wrapped_is_content "li"). cbn. tauto.
Qed.

Lemma content_count_foldl (lines : list str) (st : html_state) :
  content_count (foldl markdown_to_html_line st lines)
  = content_count st
    + length (List.filter (fun line => negb (is_blank line)) lines).
Proof.
  revert st. induction lines as [|l lines IH]; intros st; [cbn; lia|].
  cbn [foldl List.filter]. rewrite IH, content_count_step.
  destruct (is_blank l); cbn [negb length]; lia.
Qed.

(** The loop only appends. *)
Lemma close_list_extends (st : html_state) :
  exists more, (close_list st).2 = st.2 ++ more.
Proof.
  destruct st as [[] ls]; cbn [close_list snd]; [by eexists|].
  exists []. by rewrite app_nil_r.
Qed.

Lemma step_extends (st : html_state) (line : str) :
  exists more, (markdown_to_html_line st line).2 = st.2 ++ more.
Proof.
  unfold markdown_to_html_line.
  destruct (close_list_extends st) as (m & Hm).
  assert (Happ : forall l, exists more,
            (append_line (close_list st) l).2 = st.2 ++ more).
  { intros l. exists (m ++ [l]). unfold append_line. cbn [snd].
    by rewrite Hm, app_assoc. }
  destruct (strip line) as [|ch s]; [by exists m|].
  destruct (startswith (ch :: s) (lit "### ")); [apply Happ|].
  destruct (startswith (ch :: s) (lit "## ")); [apply Happ|].
  destruct (startswith (ch :: s) (lit "# ")); [apply Happ|].
  destruct (startswith_any (ch :: s) _); [|apply Happ].
  destruct st as [[] ls]; unfold append_line; cbn [fst snd].
  - by eexists.
  - eexists. by rewrite <- app_assoc.
Qed.

Lemma foldl_extends (lines : list str) (st : html_state) :
  exists more, (foldl markdown_to_html_line st lines).2 = st.2 ++ more.
Proof.
  revert st. induction lines as [|l lines IH]; intros st.
  - exists []. by rewrite app_nil_r.
  - cbn [foldl]. destruct (IH (markdown_to_html_line st l)) as (m2 & ->).
    destruct (step_extends st l) as (m1 & ->).
    exists (m1 ++ m2). by rewrite app_assoc.
Qed.

(** What the loop body appends for a line whose stripped form starts with a
    marker: a list tag or nothing, then the element. *)
Lemma step_marker (st : html_state) (line : str) :
  is_marker (strip line) = true ->
  exists tags,
    (markdown_to_html_line st line).2
    = (st.2 ++ tags) ++ [marker_element (strip line)]
    /\ List.filter is_content_line tags = [].
Proof.
  unfold is_marker, marker_element, markdown_to_html_line.
  fold bullet_markers. intros Hm.
  assert (Hclose : forall l, exists tags,
            (append_line (close_list st) l).2 = (st.2 ++ tags) ++ [l]
            /\ List.filter is_content_line tags = []).
  { intros l. destruct st as [[] ls]; unfold append_line;
      cbn [close_list fst snd].
    - by exists [lit "</ul>"].
    - exists []. by rewrite app_nil_r. }
  destruct (strip line) as [|ch s]; [done|].
  destruct (startswith (ch :: s) (lit "### ")); [apply Hclose|].
  destruct (startswith (ch :: s) (lit "## ")); [apply Hclose|].
  destruct (startswith (ch :: s) (lit "# ")); [apply Hclose|].
  cbn [orb] in Hm. rewrite Hm.
  destruct st as [[] ls]; unfold append_line; cbn [fst snd].
  - exists []. by rewrite app_nil_r.
  - by exists [lit "<ul>"].
Qed.

Lemma marker_emitted (md : str) (pre post : list str) (line : str) :
  splitlines md = pre ++ line :: post ->
  is_marker (strip line) = true ->
  emitted_for md pre (marker_element (strip line)).
Proof.
  intros Hlines Hm. unfold emitted_for, markdown_to_html, markdown_html_lines.
  rewrite Hlines, foldl_app. cbn [foldl].
  set (st1 := foldl markdown_to_html_line (false, []) pre).
  destruct (step_marker st1 line Hm) as (tags & Hstep & Htags).
  destruct (foldl_extends post (markdown_to_html_line st1 line)) as (m1 & H1).
  destruct (close_list_extends
              (foldl markdown_to_html_line (markdown_to_html_line st1 line) post))
    as (m2 & H2).
  exists (st1.2 ++ tags), (m1 ++ m2).
  assert (Hall : (close_list
                    (foldl markdown_to_html_line
                       (markdown_to_html_line st1 line) post)).2
                 = (st1.2 ++ tags) ++ marker_element (strip line) :: m1 ++ m2).
  { rewrite H2, H1, Hstep. by rewrite <- !app_assoc. }
  rewrite Hall. split; [done|]. split; [done|].
  rewrite List.filter_app, Htags, app_nil_r.
  change (length (List.filter is_content_line st1.2)) with (content_count st1).
  unfold st1. rewrite content_count_foldl. reflexivity.
Qed.

(** The line of the body at a given place among the headings, list items and
    paragraphs is one line. *)
Lemma emitted_for_unique (md : str) (pre : list str) (l1 l2 : str) :
  is_content_line l1 = true -> is_content_line l2 = true ->
  emitted_for md pre l1 -> emitted_for md pre l2 -> l1 = l2.
Proof.
  intros Hc1 Hc2 (b1 & a1 & H1 & _ & Hn1) (b2 & a2 & H2 & _ & Hn2).
  assert (Hnth : forall b a l, is_content_line l = true ->
            List.filter is_content_line (b ++ l :: a)
            !! length (List.filter is_content_line b) = Some l).
  { intros b a l Hl. rewrite List.filter_app. cbn [List.filter]. rewrite Hl.
    by rewrite lookup_app_r, Nat.sub_diag. }
  pose proof (Hnth b1 a1 l1 Hc1) as E1. pose proof (Hnth b2 a2 l2 Hc2) as E2.
  rewrite <- H1, Hn1 in E1. rewrite <- H2, Hn2 in E2. congruence.
Qed.

(** C10.  [markdown_to_html] classifies a line by its stripped form.  Putting
    whitespace in front of a line of the text does not change the page; and a
    line, indented or not, whose stripped form starts with "# ", "## ",
    "### ", "- ", "* " or "+ " has in the page, at its place among the
    headings, list items and paragraphs, the heading of that level or the
    list item for it, and no paragraph. *)
Theorem markdown_to_html_indent (md md' : str) (pre post : list str)
    (ws line : str) :
  forallb isspace ws = true ->
  splitlines md = pre ++ line :: post ->
  splitlines md' = pre ++ (ws ++ line) :: post ->
  let stripped := strip line in
  markdown_to_html md' = markdown_to_html md
  /\ (startswith stripped (lit "### ") = true ->
      emitted_for md' pre
        (lit "<h3>" ++ _html_escape (strip (drop 4 stripped)) ++ lit "</h3>"))
  /\ (startswith stripped (lit "## ") = true ->
      emitted_for md' pre
        (lit "<h2>" ++ _html_escape (strip (drop 3 stripped)) ++ lit "</h2>"))
  /\ (startswith stripped (lit "# ") = true ->
      emitted_for md' pre
        (lit "<h1>" ++ _html_escape (strip (drop 2 stripped)) ++ lit "</h1>"))
  /\ (startswith_any stripped bullet_markers = true ->
      emitted_for md' pre
        (lit "<li>" ++ _html_escape (strip (drop 2 stripped)) ++ lit "</li>"))
  /\ (is_marker stripped = true ->
      forall l, is_content_line l = true -> emitted_for md' pre l ->
                startswith l (lit "<p>") = false).
Proof.
  intros Hws Hmd Hmd'. cbv zeta.
  assert (Hstrip : strip (ws ++ line) = strip line)
    by (by apply strip_app_space).
  assert (Hemit : is_marker (strip line) = true ->
            emitted_for md' pre (marker_element (strip line))).
  { intros Hm. rewrite <- Hstrip in Hm |- *.
    by apply (marker_emitted md' pre post). }
  split.
  { unfold markdown_to_html, markdown_html_lines.
    rewrite Hmd, Hmd', !foldl_app. cbn [foldl].
    by rewrite (markdown_to_html_line_strip _ (ws ++ line) line Hstrip). }
  unfold is_marker in *. unfold marker_element in Hemit.
  split; [|split; [|split; [|split]]].
  - intros H3. rewrite H3 in Hemit. by apply Hemit.
  - intros H2. rewrite (h2_not_h3 _ H2), H2 in Hemit.
    apply Hemit. by rewrite orb_true_r.
  - intros H1. rewrite (h1_not_h3 _ H1), (h1_not_h2 _ H1), H1 in Hemit.
    apply Hemit. by rewrite orb_true_r.
  - intros Hb. destruct (bullet_not_heading _ Hb) as (E3 & E2 & E1).
    rewrite E3, E2, E1, Hb in Hemit. by apply Hemit.
  - intros Hm l Hl Hemitted.
    destruct (marker_element_content (strip line)) as [Hc Hp].
    fold (marker_element (strip line)) in Hemit.
    by rewrite (emitted_for_unique md' pre l _ Hl Hc Hemitted (Hemit Hm)).
Qed.

End IndentFacts.

Lemma markdown_to_html_indent_example :
  let md := Py.lit "intro" ++ [Py.LF] ++ Py.lit "- item" ++ [Py.LF]
            ++ Py.lit "end" in
  let md' := Py.lit "intro" ++ [Py.LF] ++ Py.lit "   - item" ++ [Py.LF]
             ++ Py.lit "end" in
  forallb Py.isspace (Py.lit "   ") = true
  /\ Py.splitlines md = [Py.lit "intro"] ++ Py.lit "- item" :: [Py.lit "end"]
  /\ Py.splitlines md'
     = [Py.lit "intro"] ++ (Py.lit "   " ++ Py.lit "- item") :: [Py.lit "end"]
  /\ Py.startswith_any (Py.strip (Py.lit "- item")) HtmlFacts.bullet_markers
     = true
  /\ markdown_to_html md' = markdown_to_html md
  /\ IndentFacts.emitted_for md' [Py.lit "intro"] (Py.lit "<li>item</li>").
Proof.
  cbv zeta. do 4 (split; [reflexivity|]).
  destruct (IndentFacts.markdown_to_html_indent
              (Py.lit "intro" ++ [Py.LF] ++ Py.lit "- item" ++ [Py.LF]
               ++ Py.lit "end")
              (Py.lit "intro" ++ [Py.LF] ++ Py.lit "   - item" ++ [Py.LF]
               ++ Py.lit "end")
              [Py.lit "intro"] [Py.lit "end"] (Py.lit "   ") (Py.lit "- item")
              eq_refl eq_refl eq_refl) as (Heq & _ & _ & _ & Hli & _).
  split; [exact Heq|]. exact (Hli eq_refl).
Defined.

(** ** What the line heuristics keep of a line *)

Module LineContent.
Import Py PyFacts HtmlFacts.

(** [a] is a contiguous part of [b]. *)
Definition part_of (a b : str) : Prop := exists pre post, b = pre ++ a ++ post.

Lemma part_of_refl (a : str) : part_of a a.
Proof. exists [], []. by rewrite app_nil_r. Qed.

Lemma part_of_trans (a b c : str) : part_of a b -> part_of b c -> part_of a c.
Proof.
  intros (p1 & q1 & ->) (p2 & q2 & ->).
  exists (p2 ++ p1), (q1 ++ q2). by rewrite <- !app_assoc.
Qed.

Lemma part_of_suffix (pre a : str) : part_of a (pre ++ a).
Proof. exists pre, []. by rewrite app_nil_r. Qed.

Lemma part_of_prefix (a post : str) : part_of a (a ++ post).
Proof. by exists [], post. Qed.

Lemma drop_while_part (f : N -> bool) (s : str) : part_of (drop_while f s) s.
Proof.
  destruct (drop_while_split f s) as (ws & _ & Hs & _).
  rewrite Hs at 2. apply part_of_suffix.
Qed.

Lemma rev_drop_while_part (f : N -> bool) (s : str) :
  part_of (rev (drop_while f (rev s))) s.
Proof.
  destruct (drop_while_split f (rev s)) as (ws & _ & Hs & _).
  apply (f_equal (@rev N)) in Hs. rewrite rev_involutive, rev_app_distr in Hs.
  rewrite Hs at 2. apply part_of_prefix.
Qed.

Lemma lstrip_part (s : str) : part_of (lstrip s) s.
Proof. apply drop_while_part. Qed.

Lemma strip_part (s : str) : part_of (strip s) s.
Proof.
  unfold strip, rstrip.
  eapply part_of_trans; [apply rev_drop_while_part | apply lstrip_part].
Qed.

Lemma drop_part (n : nat) (s : str) : part_of (drop n s) s.
Proof. rewrite <- (take_drop n s) at 2. apply part_of_suffix. Qed.

Lemma split_ws_max1_rest_part (s p0 p1 : str) :
  split_ws_max1 s = [p0; p1] -> part_of p1 s.
Proof.
  unfold split_ws_max1.
  destruct (lstrip s) as [|c t] eqn:Hl; [done|].
  destruct (lstrip (drop_while _ (c :: t))) as [|d r] eqn:Hr; [done|].
  intros [= _ <-]. rewrite <- Hr.
  eapply part_of_trans; [apply lstrip_part|].
  eapply part_of_trans; [apply drop_while_part|].
  rewrite <- Hl. apply lstrip_part.
Qed.

Section WithUnicode.
Context `{UnicodeDB}.

(** X6. [markdown_to_plain_text] invents nothing: what it keeps of a line is
    a contiguous part of that line (the line without a marker and the
    whitespace around it). *)
Theorem markdown_to_plain_text_line_part (line : str) :
  part_of (markdown_to_plain_text_line line) line.
Proof.
  unfold markdown_to_plain_text_line.
  pose proof (lstrip_part line) as Hl.
  destruct (startswith (lstrip line) (lit "#")).
  { eapply part_of_trans; [apply strip_part|].
    eapply part_of_trans; [apply drop_while_part | done]. }
  destruct (startswith_any (lstrip line) _).
  { eapply part_of_trans; [apply strip_part|].
    eapply part_of_trans; [apply drop_part | done]. }
  destruct (split_ws_max1 (lstrip line)) as [|p0 [|p1 [|p2 ps]]] eqn:Hparts;
    try done.
  destruct (isdigit _); [|done].
  eapply part_of_trans; [apply strip_part|].
  eapply part_of_trans; [by eapply split_ws_max1_rest_part | done].
Qed.

End WithUnicode.
End LineContent.

(** ** Package reader *)

Module ReaderFacts.
Import Py PyFacts Docx DocxFacts.

Lemma strip_trimmed_id (p : str) : trimmed p -> strip p = p.
Proof.
  intros [Hhead Hlast]. unfold strip, rstrip, lstrip.
  assert (drop_while isspace p = p) as ->.
  { destruct p as [|c p]; [done|]. cbn. by rewrite Hhead. }
  assert (drop_while isspace (rev p) = rev p) as ->.
  { destruct (rev p) as [|c r]; [done|]. cbn. by rewrite Hlast. }
  apply rev_involutive.
Qed.

(** The paragraphs read are non-empty and trimmed. *)
Lemma paragraphs_trimmed (root : element) :
  Forall (fun p => p <> [] /\ trimmed p) (extracted_paragraphs root).
Proof.
  unfold extracted_paragraphs. apply Forall_forall. intros p Hp.
  apply list_elem_of_omap in Hp as (e & _ & He).
  destruct (run_texts e) as [|t ts]; [done|].
  pose proof (strip_trimmed (concat (t :: ts))) as Htrim.
  destruct (strip (concat (t :: ts))) as [|c s]; [done|].
  injection He as <-. done.
Qed.

(** X8. The paragraph list the reader extracts holds no empty paragraph and
    no paragraph with whitespace at either end, whatever the XML tree. *)
Theorem extracted_paragraphs_trimmed (root : element) :
  Forall (fun p => p <> [] /\ trimmed p) (extracted_paragraphs root).
Proof. apply paragraphs_trimmed. Qed.

Lemma join_trimmed (sep : str) (ps : list str) :
  ps <> [] ->
  Forall (fun p => p <> [] /\ trimmed p) ps ->
  join sep ps <> [] /\ trimmed (join sep ps).
Proof.
  induction ps as [|p ps IH]; [done|]. intros _ Hps.
  apply Forall_cons in Hps as [[Hne [Hhead Hlast]] Hps].
  destruct ps as [|q ps]; [done|].
  destruct (IH ltac:(done) Hps) as [HJ [_ HJlast]].
  change (join sep (p :: q :: ps)) with (p ++ sep ++ join sep (q :: ps)).
  destruct p as [|c p]; [done|]. split; [done|]. split; [done|].
  rewrite !rev_app_distr.
  destruct (rev (join sep (q :: ps))) as [|d r] eqn:Hrev; [|done].
  apply (f_equal (@rev N)) in Hrev. by rewrite rev_involutive in Hrev.
Qed.

(** The text [extract_docx_text] returns for a parsed main part. *)
Definition docx_text (root : element) : str :=
  match extracted_paragraphs root with
  | [] => []
  | (_ :: _) as ps => join [LF; LF] ps ++ [LF]
  end.

Section WithRuntime.
Context `{UnicodeDB} `{Runtime}.

(** X9. [extract_docx_text] reads only: the state is unchanged.  It fails
    with a [SovereignDocError] when the path is no file, when the main part
    cannot be read from the archive, and when [ET.fromstring] raises a
    [ParseError]; a [ValueError] or [LookupError] of [ET.fromstring] (a
    declared encoding the parser does not support or does not know) is not
    caught and is raised as it is.  On success the path is a file whose main
    part parses, and the text returned is empty (no paragraph with text) or
    the extracted paragraphs joined by blank lines and ended by one line
    feed: stripping the joined text removes nothing. *)
Theorem extract_docx_text_result (p : Path) (w : world) :
  (extract_docx_text p w).2 = w
  /\ match (extract_docx_text p w).1 with
     | Ok s =>
         exists b xml root,
           files w !! p = Some (File b)
           /\ zip_read b DOCX_MAIN_XML = Some xml
           /\ xml_fromstring xml = XmlTree root
           /\ s = docx_text root
     | Raise e =>
         (is_file (files w) p = false /\ e = Domain (InputMissing p))
         \/ exists b,
              files w !! p = Some (File b)
              /\ ((zip_read b DOCX_MAIN_XML = None
                   /\ e = Domain (DocxUnreadable p))
                  \/ exists xml,
                       zip_read b DOCX_MAIN_XML = Some xml
                       /\ ((xml_fromstring xml = XmlParseError
                            /\ e = Domain (DocxXmlInvalid p))
                           \/ (xml_fromstring xml = XmlValueError
                               /\ e = ValueError)
                           \/ (xml_fromstring xml = XmlLookupError
                               /\ e = LookupError)))
     end.
Proof.
  unfold extract_docx_text, is_file, mbind, M_bind, mret, M_ret, raise,
    get_files.
  destruct (files w !! p) as [[b|]|] eqn:Hp;
    [|split; [done|cbn; by left]..].
  destruct (zip_read b DOCX_MAIN_XML) as [xml|] eqn:Hzip;
    [|split; [done|cbn; right; exists b; split; [done|by left]]].
  destruct (xml_fromstring xml) as [root| | |] eqn:Hxml.
  2-4: split; [done|]; cbn; right; exists b; split; [done|];
       right; exists xml; split; [done|]; tauto.
  pose proof (paragraphs_trimmed root) as Hps.
  unfold docx_text.
  destruct (extracted_paragraphs root) as [|q qs] eqn:Hq;
    (split; [done|]); exists b, xml, root; rewrite Hq;
    (do 3 (split; [done|])); [done|].
  destruct (join_trimmed [LF; LF] (q :: qs) ltac:(done) Hps) as [_ Htrim].
  by rewrite (strip_trimmed_id _ Htrim).
Qed.

End WithRuntime.

(** What the reader finds in the paragraph element the writer builds for a
    text. *)
Lemma run_texts_para_elem (t : str) :
  run_texts (para_elem t) = match t with [] => [] | _ :: _ => [t] end.
Proof.
  unfold run_texts, para_elem, findall_desc.
  cbn [children_of List.map iter concat app].
  cbn [List.filter tag_of].
  rewrite (bool_decide_eq_false_2 (wtag "r" = wtag "t")) by (by vm_compute).
  rewrite (bool_decide_eq_true_2 (wtag "t" = wtag "t")) by done.
  by destruct t.
Qed.

Lemma extracted_paragraphs_document (ps : list str) :
  extracted_paragraphs (document_elem ps)
  = omap (fun t => match strip t with
                   | [] => None
                   | (_ :: _) as s => Some s
                   end) ps.
Proof.
  unfold extracted_paragraphs. rewrite findall_p_document.
  induction ps as [|t ps IH]; [done|].
  cbn [fmap list_fmap omap list_omap]. cbn [fmap list_fmap] in IH.
  rewrite IH, run_texts_para_elem.
  destruct t as [|c t]; [done|].
  cbn [concat]. rewrite app_nil_r. by destruct (strip (c :: t)).
Qed.

(** The paragraphs read from a document written for a text. *)
Lemma written_paragraphs_read (text : str) :
  extracted_paragraphs (document_elem (docx_paragraphs text))
  = filter (fun p => p <> []) (strip <$> split [LF; LF] text).
Proof.
  rewrite extracted_paragraphs_document.
  assert (Hkept : Forall (fun p => p <> [] /\ trimmed p)
                    (filter (fun p => p <> []) (strip <$> split [LF; LF] text))).
  { apply Forall_forall. intros x Hx.
    apply list_elem_of_filter in Hx as [Hne Hx].
    apply list_elem_of_fmap in Hx as (b & -> & _).
    split; [done | apply strip_trimmed]. }
  unfold docx_paragraphs.
  destruct (filter _ _) as [|p ps]; [done|].
  induction Hkept as [|q qs [Hq Htrim] _ IH]; [done|].
  cbn [omap list_omap]. rewrite (strip_trimmed_id _ Htrim).
  destruct q as [|c q]; [done|]. cbn. f_equal.
  destruct qs as [|q' qs]; [done | apply IH].
Qed.

(** *** From package to package *)

(** The paragraph holds two line feeds in a row. *)
Fixpoint has_blank_line (p : str) : bool :=
  match p with
  | a :: p' =>
      match p' with
      | b :: _ => (N.eqb a LF && N.eqb b LF) || has_blank_line p'
      | [] => false
      end
  | [] => false
  end.

Definition ends_with_lf (p : str) : bool :=
  match rev p with
  | c :: _ => N.eqb c LF
  | [] => false
  end.

Lemma ends_with_lf_cons (c d : N) (p : str) :
  ends_with_lf (c :: d :: p) = ends_with_lf (d :: p).
Proof.
  unfold ends_with_lf. cbn [rev].
  destruct (rev p ++ [d]) as [|x r] eqn:Hr; [by destruct (rev p)|done].
Qed.

Lemma no_match_at_head (c : N) (p rest : str) :
  has_blank_line (c :: p) = false -> ends_with_lf (c :: p) = false ->
  startswith (c :: p ++ LF :: rest) [LF; LF] = false.
Proof.
  intros Hblank Hend. cbn [startswith].
  destruct p as [|d p].
  - unfold ends_with_lf in Hend. cbn in Hend. cbn [app].
    by rewrite (N.eqb_sym LF c), Hend.
  - cbn [has_blank_line] in Hblank. apply orb_false_elim in Hblank as [Hcd _].
    cbn [app]. rewrite (N.eqb_sym LF c), (N.eqb_sym LF d), andb_true_r.
    exact Hcd.
Qed.

Lemma has_blank_line_tail (c : N) (p : str) :
  has_blank_line (c :: p) = false -> has_blank_line p = false.
Proof.
  destruct p as [|d p]; [done|]. cbn [has_blank_line].
  by intros [_ ?]%orb_false_elim.
Qed.

Lemma ends_with_lf_tail (c : N) (p : str) :
  ends_with_lf (c :: p) = false -> ends_with_lf p = false.
Proof. destruct p as [|d p]; [done|]. by rewrite ends_with_lf_cons. Qed.

(** A block without blank line that does not end with a line feed is cut
    off at the blank line after it. *)
Lemma split_paragraph (p cur rest : str) :
  has_blank_line p = false -> ends_with_lf p = false ->
  split_from [LF; LF] cur (p ++ [LF; LF] ++ rest) 0
  = (cur ++ p) :: split_from [LF; LF] [] rest 0.
Proof.
  revert cur. induction p as [|c p IH]; intros cur Hblank Hend.
  - by rewrite app_nil_r.
  - cbn [app split_from].
    rewrite (no_match_at_head c p (LF :: rest) Hblank Hend).
    change (p ++ LF :: LF :: rest) with (p ++ [LF; LF] ++ rest).
    rewrite (IH (cur ++ [c])).
    + by rewrite <- app_assoc.
    + by eapply has_blank_line_tail.
    + by eapply ends_with_lf_tail.
Qed.

Lemma split_last_paragraph (p cur : str) :
  has_blank_line p = false -> ends_with_lf p = false ->
  split_from [LF; LF] cur (p ++ [LF]) 0 = [cur ++ p ++ [LF]].
Proof.
  revert cur. induction p as [|c p IH]; intros cur Hblank Hend; [done|].
  cbn [app split_from].
  pose proof (no_match_at_head c p [] Hblank Hend) as Hno.
  rewrite Hno.
  rewrite (IH (cur ++ [c])).
  - by rewrite <- app_assoc.
  - by eapply has_blank_line_tail.
  - by eapply ends_with_lf_tail.
Qed.

Lemma trimmed_not_ends_with_lf (p : str) : trimmed p -> ends_with_lf p = false.
Proof.
  intros [_ Hlast]. unfold ends_with_lf.
  destruct (rev p) as [|c r]; [done|].
  destruct (N.eqb_spec c LF) as [->|]; [done | done].
Qed.

Lemma strip_app_lf (p : str) : p <> [] -> trimmed p -> strip (p ++ [LF]) = p.
Proof.
  intros Hne [Hhead Hlast]. unfold strip, rstrip, lstrip.
  destruct p as [|c p]; [done|].
  cbn [app drop_while]. rewrite Hhead.
  change (c :: p ++ [LF]) with ((c :: p) ++ [LF]).
  rewrite rev_app_distr. cbn [rev app drop_while].
  change (isspace LF) with true. cbv iota.
  destruct (rev p ++ [c]) as [|x r] eqn:Hr; [by destruct (rev p)|].
  cbn [rev] in Hlast. rewrite Hr in Hlast. cbn [drop_while]. rewrite Hlast.
  rewrite <- Hr. change (rev p ++ [c]) with (rev (c :: p)).
  apply rev_involutive.
Qed.

Definition block_ok (p : str) : Prop :=
  (p <> [] /\ trimmed p) /\ has_blank_line p = false.

Lemma split_joined_paragraphs (ps : list str) :
  ps <> [] -> Forall block_ok ps ->
  strip <$> split [LF; LF] (join [LF; LF] ps ++ [LF]) = ps.
Proof.
  unfold split.
  induction ps as [|p ps IH]; [done|]. intros _ Hps.
  apply Forall_cons in Hps as [[[Hne Htrim] Hblank] Hps].
  pose proof (trimmed_not_ends_with_lf p Htrim) as Hend.
  destruct ps as [|q ps].
  - cbn [join]. rewrite split_last_paragraph by done.
    cbn [fmap list_fmap app]. by rewrite strip_app_lf.
  - change (join [LF; LF] (p :: q :: ps))
      with (p ++ [LF; LF] ++ join [LF; LF] (q :: ps)).
    rewrite <- !app_assoc, split_paragraph by done.
    cbn [fmap list_fmap app]. rewrite strip_trimmed_id by done.
    f_equal. by apply IH.
Qed.

(** The paragraphs of the text read from a package are the paragraphs
    read. *)
Lemma docx_text_paragraphs (root : element) :
  Forall (fun p => has_blank_line p = false) (extracted_paragraphs root) ->
  filter (fun p => p <> []) (strip <$> split [LF; LF] (docx_text root))
  = extracted_paragraphs root.
Proof.
  intros Hblank.
  pose proof (paragraphs_trimmed root) as Htrim.
  unfold docx_text.
  destruct (extracted_paragraphs root) as [|p ps] eqn:Hps; [done|].
  rewrite split_joined_paragraphs; [|done|].
  - rewrite <- Hps in *. clear Hps Hblank.
    induction Htrim as [|q qs [Hq _] _ IH]; [done|].
    rewrite filter_cons_True by done. by rewrite IH.
  - apply Forall_forall. intros x Hx. split.
    + by apply (proj1 (Forall_forall _ _) Htrim).
    + by apply (proj1 (Forall_forall _ _) Hblank).
Qed.

(** *** Through the archive and the parser *)

(** The text [extract_docx_text] returns for a list of paragraphs. *)
Definition paragraphs_text (ps : list str) : str :=
  match ps with
  | [] => []
  | _ :: _ => join [LF; LF] ps ++ [LF]
  end.

Section RoundTrip.
Context `{Runtime}.

(** The libraries give back what was written for the package of [text]: the
    archive gives back its main part, and parsing the serialization of the
    tree gives the tree.  Python's serializer and parser do so for
    paragraphs of characters XML allows and without carriage return; they do
    not for a carriage return (read back as a line feed), for a form feed
    (not parsed), nor for the empty paragraph written for a blank text (its
    empty text is read back as no text). *)
Definition round_trips (text : str) : Prop :=
  let built := docx_document (docx_paragraphs text) in
  let xml := xml_tostring built.1 built.2 in
  zip_read (zip_write (text_to_docx_bytes text)) DOCX_MAIN_XML = Some xml
  /\ forall root, tree_of 5 built.1 built.2 = Some root ->
                  xml_fromstring xml = XmlTree root.

Lemma extract_docx_text_ok (p : Path) (w : world) (b xml : bytes)
    (root : element) :
  files w !! p = Some (File b) ->
  zip_read b DOCX_MAIN_XML = Some xml ->
  xml_fromstring xml = XmlTree root ->
  extract_docx_text p w = (Ok (docx_text root), w).
Proof.
  intros Hp Hzip Hxml.
  unfold extract_docx_text, mbind, M_bind, mret, M_ret, raise, get_files.
  rewrite Hp, Hzip, Hxml.
  pose proof (paragraphs_trimmed root) as Hps.
  unfold docx_text.
  destruct (extracted_paragraphs root) as [|q qs] eqn:Hq; [done|].
  destruct (join_trimmed [LF; LF] (q :: qs) ltac:(done) Hps) as [_ Htrim].
  by rewrite (strip_trimmed_id _ Htrim).
Qed.

(** Reading the package written for a text. *)
Lemma written_package_read (text : str) (p : Path) (w : world) :
  round_trips text ->
  files w !! p = Some (File (zip_write (text_to_docx_bytes text))) ->
  extract_docx_text p w
  = (Ok (paragraphs_text
           (filter (fun q => q <> []) (strip <$> split [LF; LF] text))), w).
Proof.
  intros [Hzip Hxml] Hp.
  rewrite (extract_docx_text_ok p w _ _ (document_elem (docx_paragraphs text))
             Hp Hzip (Hxml _ (tree_of_docx_document _))).
  unfold docx_text, paragraphs_text. rewrite written_paragraphs_read.
  by destruct (filter _ _).
Qed.

(** X10. Writer and reader agree where the libraries give back what was
    written.  Let a file hold the archive of the three parts
    [text_to_docx_bytes] builds for a text, and let the archive give back the
    main part and the parser the tree that was serialized.  Then
    [extract_docx_text] returns the paragraphs of that text, the trimmed
    non-empty blocks between blank lines, in order, joined by blank lines
    and ended by one line feed. *)
Theorem reader_finds_written_paragraphs (text : str) (p : Path) (w : world) :
  round_trips text ->
  files w !! p = Some (File (zip_write (text_to_docx_bytes text))) ->
  extract_docx_text p w
  = (Ok (paragraphs_text
           (filter (fun q => q <> []) (strip <$> split [LF; LF] text))), w).
Proof. apply written_package_read. Qed.

(** X11. From package to package the text is kept where the libraries give
    back what was written.  Let [extract_docx_text] read from a package a
    document in which no paragraph holds two line feeds in a row; let a
    second file hold the archive [text_to_docx_bytes] builds for the text
    read, and let the archive and the parser give back what was written for
    it.  Then reading the second file returns the text read from the
    first. *)
Theorem docx_to_docx_paragraphs (p q : Path) (w w2 : world) (b xml : bytes)
    (root : element) :
  files w !! p = Some (File b) ->
  zip_read b DOCX_MAIN_XML = Some xml ->
  xml_fromstring xml = XmlTree root ->
  Forall (fun x => has_blank_line x = false) (extracted_paragraphs root) ->
  round_trips (docx_text root) ->
  files w2 !! q
  = Some (File (zip_write (text_to_docx_bytes (docx_text root)))) ->
  extract_docx_text p w = (Ok (docx_text root), w)
  /\ extract_docx_text q w2 = (Ok (docx_text root), w2).
Proof.
  intros Hp Hzip Hxml Hblank Htrip Hq.
  split; [by eapply extract_docx_text_ok|].
  rewrite (written_package_read _ q w2 Htrip Hq).
  rewrite (docx_text_paragraphs root Hblank).
  unfold docx_text, paragraphs_text. by destruct (extracted_paragraphs root).
Qed.

End RoundTrip.
End ReaderFacts.

(** ** The orchestrator as a whole *)

Section OrchestratorFacts.
Context `{UnicodeDB} `{Runtime}.
Import Py PyFacts Pathlib PathFacts Docx Score UniquePath.

(** The first free candidate: every candidate tried before the result
    exists. *)
Lemma unique_path_loop_first (fuel : nat) (fs : gmap Path node)
    (base_path c r : Path) (k : nat) :
  name base_path <> [] -> mem SLASH (name base_path) = false ->
  _unique_path_loop fuel fs base_path c k = Ok r ->
  (r = c /\ exists_ fs c = false)
  \/ (exists_ fs c = true
      /\ exists j, k <= j /\ r = candidate base_path j
                   /\ forall i, k <= i < j ->
                                exists_ fs (candidate base_path i) = true).
Proof.
  intros Hne Hslash. revert c k.
  induction fuel as [|fuel IH]; intros c k; cbn [_unique_path_loop]; [done|].
  destruct (exists_ fs c) eqn:Hc; [|intros [= <-]; by left].
  fold (candidate_name base_path k). rewrite with_name_candidate by done.
  intros Hloop. right. split; [done|].
  destruct (IH _ _ Hloop) as [[-> Hfree]|(Hk & j & Hj & -> & Hbefore)].
  - exists k. split; [lia|]. split; [done|]. intros i Hi. lia.
  - exists j. split; [lia|]. split; [done|]. intros i Hi.
    destruct (decide (i = k)) as [->|Hik]; [done|]. apply Hbefore. lia.
Qed.

(** X12. [_unique_path] always returns, for a base path with a proper name:
    the base path itself when nothing exists there, else the base name with
    " (j)" before the extension for the least j >= 1 that is free; the result
    never exists, and the state is not touched. *)
Theorem unique_path_least (w : world) (base_path : Path) :
  name base_path <> [] -> mem SLASH (name base_path) = false ->
  exists r,
    _unique_path base_path w = (Ok r, w)
    /\ files w !! r = None
    /\ (exists_ (files w) base_path = false -> r = base_path)
    /\ (exists_ (files w) base_path = true ->
        exists j, 1 <= j
                  /\ r = mkPath (parent base_path)
                           (stem base_path ++ lit " (" ++ str_of_nat j
                            ++ lit ")" ++ suffix base_path)
                  /\ forall i, 1 <= i < j ->
                       exists_ (files w) (candidate base_path i) = true).
Proof.
  intros Hne Hslash.
  destruct (unique_path_total w base_path Hne Hslash) as (r & Hr & Hfresh & _).
  exists r. split; [done|]. split; [done|].
  unfold _unique_path, mbind, M_bind, get_files, lift in Hr.
  apply (f_equal fst) in Hr. cbn [fst] in Hr.
  destruct (unique_path_loop_first _ _ _ _ _ _ Hne Hslash Hr)
    as [[-> Hfree]|(Hex & j & Hj & -> & Hbefore)].
  - split; [done|]. by rewrite Hfree.
  - split; [by rewrite Hex|]. intros _. by exists j.
Qed.

(** *** What is written *)

(** The source text: the part [plain = ...] of [convert_any]. *)
Definition source_text (p : Path) (src_ext : str) : M str :=
  if bool_decide (src_ext = lit ".docx")
  then extract_docx_text p else read_text p.

(** The dispatch of [convert_any] on the source extension and the
    destination: the converted text. *)
Definition transform (src_ext dst plain : str) : str :=
  if bool_decide (dst = lit "txt") then plain
  else if bool_decide (dst = lit "md") then
    let md := if bool_decide (src_ext = lit ".md")
              then plain else txt_to_markdown plain in
    if endswith md [LF] then md else md ++ [LF]
  else if bool_decide (dst = lit "html") then
    if bool_decide (src_ext = lit ".md")
    then markdown_to_html plain else text_to_html plain
  else
    if bool_decide (src_ext = lit ".md")
    then markdown_to_plain_text plain else plain.

(** The content of the output file for a converted text. *)
Definition rendered (dst converted : str) : option bytes :=
  if bool_decide (dst = lit "txt") || bool_decide (dst = lit "md")
     || bool_decide (dst = lit "html")
  then utf8_encode_text converted
  else Some (zip_write (text_to_docx_bytes converted)).

Lemma write_text_cases (out : Path) (s : str) (w : world) :
  match write_text out s w with
  | (Ok _, w') =>
      exists b, utf8_encode_text s = Some b
                /\ w' = mkWorld (<[out := File b]> (files w)) (log_file w)
  | (Raise e, w') => forall d, e <> Domain d
  end.
Proof.
  unfold write_text, mbind, M_bind, mret, M_ret, raise, get_files, put_file.
  destruct (files w !! out) as [[b|]|];
    try destruct (utf8_encode_text s); cbn; eauto.
Qed.

Lemma write_zip_cases (out : Path) (members : list (str * bytes)) (w : world) :
  match write_zip out members w with
  | (Ok _, w') =>
      w' = mkWorld (<[out := File (zip_write members)]> (files w)) (log_file w)
  | (Raise e, w') => forall d, e <> Domain d
  end.
Proof.
  unfold write_zip, mbind, M_bind, mret, M_ret, raise, get_files, put_file.
  by destruct (files w !! out) as [[b|]|].
Qed.

Lemma source_text_world (p : Path) (src_ext : str) (w : world) :
  (source_text p src_ext w).2 = w.
Proof. apply (source_text_spec p src_ext w). Qed.

(** The extract, transform and write steps: on success the output file
    holds the rendering of the transformed source text; a domain error
    comes from reading the source and leaves the state as it was. *)
Lemma convert_and_write_cases (p out : Path) (src_ext dst : str) (w : world) :
  match convert_and_write p out src_ext dst w with
  | (Ok conv, w') =>
      exists plain b,
        source_text p src_ext w = (Ok plain, w)
        /\ conv = transform src_ext dst plain
        /\ rendered dst conv = Some b
        /\ w' = mkWorld (<[out := File b]> (files w)) (log_file w)
  | (Raise (Domain d), w') => w' = w
  | (Raise _, _) => True
  end.
Proof.
  unfold convert_and_write. fold (source_text p src_ext).
  unfold mbind at 1, M_bind at 1.
  pose proof (source_text_world p src_ext w) as Hw.
  destruct (source_text p src_ext w) as [[plain|e1] w1]; cbn [snd] in Hw.
  2:{ subst w1. by destruct e1 as [d| | | | | |]. }
  subst w1. unfold transform, rendered.
  destruct (bool_decide (dst = lit "txt")) eqn:Htxt;
    [|destruct (bool_decide (dst = lit "md")) eqn:Hmd;
      [|destruct (bool_decide (dst = lit "html")) eqn:Hhtml]];
    cbn [orb]; unfold mbind, M_bind, mret, M_ret.
  1-3: match goal with
       | |- context [write_text ?o ?s ?w0] =>
           pose proof (write_text_cases o s w0) as Hwr;
           destruct (write_text o s w0) as [[[]|e1] w1]
       end;
       [destruct Hwr as (b & Hb & ->); by exists plain, b
       |destruct e1 as [d| | | | | |]; [by destruct (Hwr d) | done..]].
  match goal with
  | |- context [write_zip ?o ?m ?w0] =>
      pose proof (write_zip_cases o m w0) as Hwr;
      destruct (write_zip o m w0) as [[[]|e1] w1]
  end.
  - subst w1. by eexists plain, _.
  - destruct e1 as [d| | | | | |]; [by destruct (Hwr d) | done..].
Qed.

(** The row [convert_any] hands to [_log_conversion]. *)
Definition log_row_of (e : env) (p out : Path) (src_ext dst mode conv : str)
    : log_row :=
  mkRow (env_now e) p out (lstrip_chars [DOT] src_ext) dst mode
    (env_duration_ms e) (length conv) (_compute_omega_score conv dst).

(** The state after the log step. *)
Definition logged (e : env) (lg : bool) (row : log_row) (w : world) : world :=
  if lg && env_log_writable e
  then mkWorld (files w) (Some (default [] (log_file w) ++ [row]))
  else w.

Definition is_domain (e : exn) : bool :=
  match e with
  | Domain _ => true
  | _ => false
  end.

Lemma unique_path_loop_no_domain (fuel : nat) (fs : gmap Path node)
    (base_path c : Path) (k : nat) (e : exn) :
  _unique_path_loop fuel fs base_path c k = Raise e -> is_domain e = false.
Proof.
  revert c k. induction fuel as [|fuel IH]; intros c k; cbn.
  - by intros [= <-].
  - destruct (exists_ fs c); [|done].
    destruct (with_name _ _) as [c'|e'] eqn:Hname; [apply IH|].
    intros [= <-]. by rewrite (with_name_raise _ _ _ Hname).
Qed.

(** The path computations at the head of [convert_any]: the derived path
    and the search for a free name. *)
Definition output_path (p : Path) (dst : str) : M Path :=
  base ← lift (with_suffix p []);
  raw_out ← lift (with_suffix base ([DOT] ++ dst));
  _unique_path raw_out.

Lemma output_path_cases (p : Path) (dst : str) (w : world) :
  (output_path p dst w).2 = w
  /\ match (output_path p dst w).1 with
     | Ok out => files w !! out = None
     | Raise e => is_domain e = false
     end.
Proof.
  unfold output_path, mbind, M_bind, lift.
  destruct (with_suffix p []) as [base|e1] eqn:Hbase.
  2:{ cbn. by rewrite (with_suffix_raise _ _ _ Hbase). }
  destruct (with_suffix base _) as [raw_out|e1] eqn:Hraw.
  2:{ cbn. by rewrite (with_suffix_raise _ _ _ Hraw). }
  split; [apply unique_path_world|].
  unfold _unique_path, mbind, M_bind, get_files, lift. cbn [fst].
  destruct (_unique_path_loop _ _ _ _ _) as [r|e1] eqn:Hloop.
  - by eapply unique_path_loop_fresh.
  - by eapply unique_path_loop_no_domain.
Qed.

(** [convert_any] after its checks, step by step: the output path, then
    the extract, transform and write steps, then the log step, which cannot
    fail. *)
Lemma convert_checked_eq (e : env) (p : Path) (src_ext dst mode : str)
    (lg : bool) (w : world) :
  convert_checked e p src_ext dst mode lg w
  = match (output_path p dst w).1 with
    | Ok out =>
        match convert_and_write p out src_ext dst w with
        | (Ok conv, w1) =>
            (Ok out, logged e lg (log_row_of e p out src_ext dst mode conv) w1)
        | (Raise e', w1) => (Raise e', w1)
        end
    | Raise e' => (Raise e', w)
    end.
Proof.
  pose proof (output_path_cases p dst w) as [Hw _]. revert Hw.
  unfold convert_checked, output_path, mbind, M_bind, lift.
  destruct (with_suffix p []) as [base|e1]; [|done].
  destruct (with_suffix base _) as [raw_out|e1]; [|done].
  destruct (_unique_path raw_out w) as [[out|e1] w1]; cbn [fst snd];
    intros ->; [|done].
  destruct (convert_and_write p out src_ext dst w) as [[conv|e1] w2]; [|done].
  unfold mret, M_ret, logged, log_row_of, _log_conversion.
  destruct lg; [|done]. cbn [andb]. by destruct (env_log_writable e).
Qed.

(** The outcomes of the checks of [convert_any]: a domain error that does
    not depend on the clock, the mode or logging, or the checked run. *)
Lemma convert_any_cases (p : Path) (dst : str) (w : world) :
  (exists d, forall e mode lg,
      convert_any e p dst mode lg w = (Raise (Domain d), w))
  \/ (forall e mode lg,
        convert_any e p dst mode lg w
        = convert_checked e p (lower (suffix p)) (lower dst) mode lg w).
Proof.
  destruct (is_file (files w) p) eqn:Hfile.
  2:{ left. eexists. intros e mode lg.
      unfold convert_any, mbind, M_bind, get_files, raise. by rewrite Hfile. }
  destruct (decide (lower (suffix p) ∈ src_exts)) as [Hsrc|Hsrc].
  2:{ left. eexists. intros e mode lg.
      unfold convert_any, mbind, M_bind, get_files, raise.
      rewrite Hfile. cbn [negb]. by rewrite bool_decide_eq_false_2. }
  destruct (decide (lower dst ∈ dst_formats)) as [Hdst|Hdst].
  2:{ left. eexists. intros e mode lg.
      unfold convert_any, mbind, M_bind, get_files, raise.
      rewrite Hfile. cbn [negb]. rewrite bool_decide_eq_true_2 by done.
      cbn [negb]. by rewrite bool_decide_eq_false_2. }
  right. intros e mode lg. by apply convert_any_checked.
Qed.

(** A run of [convert_any], whatever its outcome. *)
Lemma convert_any_run (e : env) (p : Path) (dst mode : str) (lg : bool)
    (w : world) :
  match convert_any e p dst mode lg w with
  | (Ok out, w') =>
      exists plain b,
        source_text p (lower (suffix p)) w = (Ok plain, w)
        /\ rendered (lower dst) (transform (lower (suffix p)) (lower dst) plain)
           = Some b
        /\ files w !! out = None
        /\ w' = logged e lg
                  (log_row_of e p out (lower (suffix p)) (lower dst) mode
                     (transform (lower (suffix p)) (lower dst) plain))
                  (mkWorld (<[out := File b]> (files w)) (log_file w))
  | (Raise e', w') =>
      log_file w' = log_file w /\ (is_domain e' = true -> w' = w)
  end.
Proof.
  destruct (convert_any_cases p dst w) as [(d & ->) | ->]; [done|].
  rewrite convert_checked_eq.
  pose proof (output_path_cases p (lower dst) w) as [_ Hout].
  destruct (output_path p (lower dst) w).1 as [out|e1].
  2:{ split; [done|]. by rewrite Hout. }
  pose proof (convert_and_write_cases p out (lower (suffix p)) (lower dst) w)
    as Hcases.
  destruct (convert_and_write p out _ _ w) as [[conv|e1] w1] eqn:Hconv.
  - destruct Hcases as (plain & b & Hsrc & -> & Hb & ->). by exists plain, b.
  - split; [apply (convert_and_write_spec _ _ _ _ _ _ _ Hconv)|].
    by destruct e1.
Qed.

(** C9.  The extension of the input path is lowercased before it is
    checked and before it is used.  Let [p] be an existing file whose
    extension differs from [ext], one of .docx, .txt and .md, in the case of
    its letters at most (the lowercase file itself is such a file).  The
    lowercased extension of [p] is [ext]; [convert_any] does not reject [p] as
    an unsupported input; with a supported destination it raises none of the
    validation errors and is the conversion for the source format [ext]; when
    it succeeds, the source was read by the reader for [ext] and the output
    holds the transform for [ext] of what was read; and when the directory
    holds the lowercase file too, with the same content, both are converted
    alike. *)
Theorem convert_any_extension_case (e : env) (p : Path) (ext dst mode : str)
    (lg : bool) (w : world) :
  ext ∈ src_exts ->
  differs_only_in_case (suffix p) ext = true ->
  is_file (files w) p = true ->
  lower (suffix p) = ext
  /\ (forall e', (convert_any e p dst mode lg w).1 = Raise e' ->
                 e' <> Domain UnsupportedInput)
  /\ (lower dst ∈ dst_formats ->
      convert_any e p dst mode lg w
      = convert_checked e p ext (lower dst) mode lg w
      /\ forall e', (convert_any e p dst mode lg w).1 = Raise e' ->
                    validation_error e' = false)
  /\ (forall out,
        (convert_any e p dst mode lg w).1 = Ok out ->
        exists plain b,
          source_text p ext w = (Ok plain, w)
          /\ rendered (lower dst) (transform ext (lower dst) plain) = Some b
          /\ files w !! out = None
          /\ files (convert_any e p dst mode lg w).2
             = <[out := File b]> (files w))
  /\ (forall q,
        suffix q = ext -> parent q = parent p -> stem q = stem p ->
        files w !! q = files w !! p ->
        same_outcome (convert_any e p dst mode lg w).1
          (convert_any e q dst mode lg w).1
        /\ files (convert_any e p dst mode lg w).2
           = files (convert_any e q dst mode lg w).2
        /\ (lg = false ->
            (convert_any e p dst mode lg w).2
            = (convert_any e q dst mode lg w).2)).
Proof.
  intros Hext Hcase Hfile.
  destruct (src_exts_lower ext Hext) as [Hlow Hne].
  assert (Hlp : lower (suffix p) = ext) by by apply lower_of_case_variant.
  assert (Hchecked : lower dst ∈ dst_formats ->
            convert_any e p dst mode lg w
            = convert_checked e p ext (lower dst) mode lg w).
  { intros Hdst. rewrite convert_any_checked by (done || by rewrite Hlp).
    by rewrite Hlp. }
  assert (Hraise : lower dst ∈ dst_formats ->
            forall e', (convert_any e p dst mode lg w).1 = Raise e' ->
                       validation_error e' = false).
  { intros Hdst e' He'. rewrite Hchecked in He' by done.
    destruct (convert_checked e p ext (lower dst) mode lg w) as [r w'] eqn:Hc.
    cbn [fst] in He'. subst r. by apply convert_checked_raise in Hc. }
  split; [exact Hlp|]. split; [|split; [|split]].
  - intros e' He' ->.
    destruct (decide (lower dst ∈ dst_formats)) as [Hdst|Hdst].
    + by pose proof (Hraise Hdst _ He').
    + revert He'. unfold convert_any, mbind, M_bind, get_files, raise.
      rewrite Hfile, Hlp. cbn [negb].
      rewrite bool_decide_eq_true_2 by done. cbn [negb].
      by rewrite bool_decide_eq_false_2.
  - intros Hdst. split; [by apply Hchecked | by apply Hraise].
  - intros out Hout.
    pose proof (convert_any_run e p dst mode lg w) as Hrun.
    destruct (convert_any e p dst mode lg w) as [[out'|e'] w'];
      cbn [fst snd] in *; [|done].
    injection Hout as ->. rewrite Hlp in Hrun.
    destruct Hrun as (plain & b & Hsrc & Hb & Hfresh & ->).
    exists plain, b. do 3 (split; [done|]).
    unfold logged. by destruct (lg && env_log_writable e).
  - intros q Hq Hparent Hstem Hfiles.
    destruct (extension_case_twin e p q ext dst mode lg w) as (_ & Htwin);
      done.
Qed.

(** X13. [convert_any] never writes to a path that exists (the log file
    apart): whatever the outcome, every path that referred to a file or a
    directory before the call refers to the same afterwards. *)
Theorem convert_any_never_overwrites (e : env) (p : Path) (dst mode : str)
    (lg : bool) (w : world) (p' : Path) (n : node) :
  files w !! p' = Some n ->
  files (convert_any e p dst mode lg w).2 !! p' = Some n.
Proof.
  intros Hp'. rewrite convert_any_keeps_existing; [done|]. by rewrite Hp'.
Qed.

(** X14. A domain error leaves everything as it was: when [convert_any]
    raises a [SovereignDocError], no file has been created or changed and
    nothing has been logged. *)
Theorem convert_any_domain_error_atomic (e : env) (p : Path) (dst mode : str)
    (lg : bool) (w : world) (d : SovereignDocError) :
  (convert_any e p dst mode lg w).1 = Raise (Domain d) ->
  (convert_any e p dst mode lg w).2 = w.
Proof.
  pose proof (convert_any_run e p dst mode lg w) as Hrun.
  destruct (convert_any e p dst mode lg w) as [[out|e'] w']; cbn [fst snd];
    [done|].
  intros [= ->]. by apply Hrun.
Qed.


(** X16. The clock, the invocation mode and logging have no part in the
    conversion: two calls that differ only in these return the same result
    and leave the same files (the log file apart). *)
Theorem convert_any_log_independent (e e' : env) (p : Path)
    (dst mode mode' : str) (lg lg' : bool) (w : world) :
  (convert_any e p dst mode lg w).1 = (convert_any e' p dst mode' lg' w).1
  /\ files (convert_any e p dst mode lg w).2
     = files (convert_any e' p dst mode' lg' w).2.
Proof.
  destruct (convert_any_cases p dst w) as [(d & Hd)|Hc].
  { by rewrite !Hd. }
  rewrite !Hc, !convert_checked_eq.
  destruct (output_path p (lower dst) w).1 as [out|e1]; [|done].
  destruct (convert_and_write p out _ _ w) as [[conv|e1] w1]; [|done].
  split; [done|]. unfold logged.
  by destruct (lg && env_log_writable e), (lg' && env_log_writable e').
Qed.


Lemma endswith_app_same (s t : str) : endswith (s ++ t) t = true.
Proof.
  unfold endswith. rewrite rev_app_distr. apply startswith_app.
Qed.

Lemma transform_md_newline (src_ext plain : str) :
  endswith (transform src_ext (lit "md") plain) [LF] = true.
Proof.
  unfold transform.
  rewrite (bool_decide_eq_false_2 (lit "md" = lit "txt")) by done.
  rewrite (bool_decide_eq_true_2 (lit "md" = lit "md")) by done.
  cbv zeta.
  destruct (bool_decide (src_ext = lit ".md"));
    match goal with
    | |- context [if endswith ?s [LF] then _ else _] =>
        destruct (endswith s [LF]) eqn:Hend
    end; done || apply endswith_app_same.
Qed.

(** X18. Markdown output always ends with a line feed: after a successful
    conversion to md (in any letter case) the output file holds the encoding
    of a text whose last character is a line feed, also when the source is
    empty. *)
Theorem convert_any_md_newline (e : env) (p : Path) (dst mode : str)
    (lg : bool) (w : world) (out : Path) :
  lower dst = lit "md" ->
  (convert_any e p dst mode lg w).1 = Ok out ->
  exists conv b,
    endswith conv [LF] = true
    /\ utf8_encode_text conv = Some b
    /\ files (convert_any e p dst mode lg w).2 !! out = Some (File b).
Proof.
  intros Hmd.
  pose proof (convert_any_run e p dst mode lg w) as Hrun.
  destruct (convert_any e p dst mode lg w) as [[out'|e'] w']; cbn [fst snd];
    [|done].
  intros [= ->]. destruct Hrun as (plain & b & _ & Hb & _ & ->).
  rewrite Hmd in Hb |- *.
  exists (transform (lower (suffix p)) (lit "md") plain), b.
  split; [apply transform_md_newline|].
  split; [exact Hb|].
  unfold logged. destruct (lg && env_log_writable e); cbn [files];
    apply lookup_insert_eq.
Qed.

(** X19. Where a successful conversion writes: at a path that did not
    exist, in the directory of the input; it is the derived path (the
    destination extension after the stem of the stem of the input name), or,
    when that exists, one of its numbered candidates. *)
Theorem convert_any_output_location (e : env) (p : Path) (dst mode : str)
    (lg : bool) (w : world) (out : Path) :
  mem SLASH (name p) = false ->
  (convert_any e p dst mode lg w).1 = Ok out ->
  files w !! out = None
  /\ parent out = parent p
  /\ (out = raw_output_path p dst
      \/ exists_ (files w) (raw_output_path p dst) = true
         /\ exists j, 1 <= j /\ out = candidate (raw_output_path p dst) j).
Proof.
  intros Hslash Hrun.
  destruct (convert_any e p dst mode lg w) as [r w'] eqn:Heq.
  cbn [fst] in Hrun. subst r.
  by eapply convert_any_output_path.
Qed.

End OrchestratorFacts.

(** ** The command line *)

(** With a destination among the four formats, the destination check of
    [convert_any] does not fail. *)
Lemma convert_any_dst_accepted `{UnicodeDB} `{Runtime} (e : env) (p : Path)
    (dst mode : str) (lg : bool) (w : world) :
  lower dst ∈ dst_formats ->
  (convert_any e p dst mode lg w).1 <> Raise (Domain UnsupportedOutput).
Proof.
  intros Hdst.
  destruct (is_file (files w) p) eqn:Hfile.
  2:{ unfold convert_any, mbind, M_bind, get_files, raise. by rewrite Hfile. }
  destruct (decide (lower (Pathlib.suffix p) ∈ src_exts)) as [Hsrc|Hsrc].
  2:{ unfold convert_any, mbind, M_bind, get_files, raise.
      rewrite Hfile. cbn [negb]. by rewrite bool_decide_eq_false_2. }
  rewrite convert_any_checked by done.
  destruct (convert_checked _ _ _ _ _ _ _) as [[out|e'] w'] eqn:Hrun; [done|].
  apply convert_checked_raise in Hrun; [|done].
  cbn [fst]. by intros [= ->].
Qed.

Module CliFacts.
Import Py Pathlib Cli.

(** The file name a line of the batch reports on. *)
Definition line_file (l : line) : option str :=
  match l with
  | BatchOk f _ | BatchError f _ | BatchFatal f _ => Some f
  | _ => None
  end.

Definition is_ok (l : line) : bool :=
  match l with
  | BatchOk _ _ => true
  | _ => false
  end.

Definition reports_unsupported_output (l : line) : bool :=
  match l with
  | SingleError UnsupportedOutput | BatchError _ UnsupportedOutput => true
  | _ => false
  end.

Lemma str_ltb_irrefl (s : str) : str_ltb s s = false.
Proof.
  induction s as [|a s IH]; [done|]. cbn.
  by rewrite N.ltb_irrefl, N.eqb_refl, IH.
Qed.

Lemma str_ltb_total (s t : str) : str_ltb s t = false \/ str_ltb t s = false.
Proof.
  revert t. induction s as [|a s IH]; intros [|b t]; cbn; auto.
  destruct (N.ltb_spec a b) as [Hab|Hab], (N.ltb_spec b a) as [Hba|Hba];
    cbn; try lia; auto.
  - right. destruct (N.eqb_spec b a); [lia|done].
  - left. destruct (N.eqb_spec a b); [lia|done].
  - assert (a = b) as -> by lia. rewrite N.eqb_refl. cbn. apply IH.
Qed.

#[global] Instance name_le_total : Total name_le.
Proof. intros p q. unfold name_le. destruct (str_ltb_total (name q) (name p)); auto. Qed.

(** Which entries the batch takes. *)
Lemma elem_of_docx_files (fs : gmap Path node) (folder q : Path) :
  q ∈ merge_sort name_le (glob_docx fs folder)
  <-> is_Some (fs !! q) /\ parent q = path_str folder
      /\ endswith (name q) (lit ".docx") = true.
Proof.
  rewrite merge_sort_Permutation. unfold glob_docx.
  rewrite list_elem_of_In, filter_In, <- list_elem_of_In.
  rewrite andb_true_iff, bool_decide_eq_true.
  rewrite list_elem_of_fmap. split.
  - intros [([q' nd] & -> & Hq%elem_of_map_to_list) Hrest]. cbn in *.
    split; [by rewrite Hq|done].
  - intros ([nd Hq] & Hrest). split; [|done].
    exists (q, nd). split; [done|]. by apply elem_of_map_to_list.
Qed.

Lemma NoDup_docx_files (fs : gmap Path node) (folder : Path) :
  NoDup (merge_sort name_le (glob_docx fs folder)).
Proof.
  rewrite merge_sort_Permutation. unfold glob_docx.
  apply NoDup_ListNoDup, List.NoDup_filter, NoDup_ListNoDup.
  apply NoDup_fst_map_to_list.
Qed.

Section WithRuntime.
Context `{UnicodeDB} `{Runtime}.

(** The loop of the batch: one line for each file, in order; the count is
    that of the files converted; nothing that existed is touched. *)
Lemma convert_folder_loop_spec (clock : nat -> env) (docx_files : list Path)
    (dst : str) (lg : bool) :
  forall (i c : nat) (w : world),
    let r := _convert_folder_loop clock i docx_files dst lg c w in
    omap line_file r.1.1 = name <$> docx_files
    /\ length r.1.1 = length docx_files
    /\ r.1.2 = c + length (List.filter is_ok r.1.1)
    /\ (forall p', is_Some (files w !! p') ->
                   files r.2 !! p' = files w !! p')
    /\ (lower dst ∈ dst_formats ->
        Forall (fun l => reports_unsupported_output l = false) r.1.1).
Proof.
  induction docx_files as [|f rest IH]; intros i c w; cbn zeta.
  { cbn. do 2 (split; [done|]). split; [lia|]. by split. }
  cbn [_convert_folder_loop].
  pose proof (convert_any_keeps_existing (clock i) f dst (lit "cli-batch") lg w)
    as Hkeep.
  pose proof (convert_any_dst_accepted (clock i) f dst (lit "cli-batch") lg w)
    as Hdst.
  destruct (convert_any (clock i) f dst (lit "cli-batch") lg w)
    as [[out|e'] w1]; cbn [fst snd] in Hkeep, Hdst.
  - specialize (IH (S i) (S c) w1). cbn zeta in IH.
    destruct (_convert_folder_loop clock (S i) rest dst lg (S c) w1)
      as [[ls n] w2]; cbn [fst snd] in *.
    destruct IH as (Hnames & Hlen & Hn & Hfiles & Hout).
    split; [simpl; f_equal; exact Hnames|].
    split; [simpl; f_equal; exact Hlen|].
    split; [simpl; lia|]. split.
    + intros p' Hp'. rewrite Hfiles, Hkeep; [done..|]. by rewrite Hkeep.
    + intros Hd. constructor; [done|by apply Hout].
  - assert (Hcont :
      let r := _convert_folder_loop clock (S i) rest dst lg c w1 in
      forall l, line_file l = Some (name f) -> is_ok l = false ->
                (reports_unsupported_output l = true ->
                 e' = Domain UnsupportedOutput) ->
        omap line_file (l :: r.1.1) = name <$> f :: rest
        /\ length (l :: r.1.1) = length (f :: rest)
        /\ r.1.2 = c + length (List.filter is_ok (l :: r.1.1))
        /\ (forall p', is_Some (files w !! p') ->
                       files r.2 !! p' = files w !! p')
        /\ (lower dst ∈ dst_formats ->
            Forall (fun l => reports_unsupported_output l = false)
              (l :: r.1.1))).
    { specialize (IH (S i) c w1). cbn zeta in IH |- *.
      destruct IH as (Hnames & Hlen & Hn & Hfiles & Hout).
      intros l Hl Hok Hbad.
      split; [simpl; rewrite Hl; f_equal; exact Hnames|].
      split; [simpl; f_equal; exact Hlen|].
      split; [simpl; by rewrite Hok|]. split.
      - intros p' Hp'. rewrite Hfiles, Hkeep; [done..|]. by rewrite Hkeep.
      - intros Hd. constructor; [|by apply Hout].
        destruct (reports_unsupported_output l) eqn:Hr; [|done].
        destruct (Hdst Hd). by rewrite Hbad. }
    cbn zeta in Hcont.
    destruct e' as [d| | | | | |];
      destruct (_convert_folder_loop clock (S i) rest dst lg c w1)
        as [[ls n] w2]; cbn [fst snd] in *; apply Hcont; try done.
    by destruct d.
Qed.


(** X21. The batch always ends with status 0, also when conversions fail.
    With no entry to convert it prints one line and changes nothing; else it
    prints the opening line, one line for each entry (a failure does not
    stop the entries after it), and the closing line, whose count is the
    number of [OK] lines. *)
Theorem convert_folder_report (clock : nat -> env) (folder : Path) (dst : str)
    (lg : bool) (w : world) :
  let r := _convert_folder clock folder dst lg w in
  let n := length (glob_docx (files w) folder) in
  status r.1 = 0%Z
  /\ if decide (n = 0) then console r.1 = [BatchEmpty folder] /\ r.2 = w
     else exists ls,
         console r.1
         = BatchStart n folder dst :: ls
           ++ [BatchCompleted (length (List.filter is_ok ls)) n]
         /\ length ls = n
         /\ Forall (fun l => is_Some (line_file l)) ls.
Proof.
  cbn zeta. unfold _convert_folder.
  pose proof (merge_sort_Permutation name_le (glob_docx (files w) folder))
    as Hperm.
  apply Permutation_length in Hperm. rewrite <- Hperm.
  destruct (merge_sort name_le (glob_docx (files w) folder)) as [|f rest]
    eqn:Hfiles; [done|].
  pose proof (convert_folder_loop_spec clock (f :: rest) dst lg 0 0 w) as Hloop.
  cbn zeta in Hloop.
  destruct (_convert_folder_loop clock 0 (f :: rest) dst lg 0 w)
    as [[ls k] w']; cbn [fst snd] in *.
  destruct Hloop as (Hnames & Hlen & Hk & _).
  split; [done|]. rewrite decide_False by done.
  exists ls. split; [by rewrite Hk|]. split; [done|].
  clear Hk. revert Hnames Hlen.
  generalize (f :: rest). clear. intros fs.
  revert fs. induction ls as [|l ls IH]; intros [|f fs]; try done.
  cbn. intros Hnames [= Hlen].
  destruct (line_file l) as [nm|] eqn:Hl.
  - injection Hnames as _ Hnames. constructor; [done|by eapply IH].
  - exfalso. assert (length (omap line_file ls) <= length ls) as Hle.
    { clear. induction ls as [|x xs IHx]; cbn; [lia|].
      destruct (line_file x); cbn; lia. }
    apply (f_equal length) in Hnames.
    rewrite length_cons, length_fmap in Hnames. lia.
Qed.

(** X22. A batch never writes to a path that exists (the log file apart):
    every file or directory there before the batch, the inputs still to
    come among them, is the same after it. *)
Theorem convert_folder_never_overwrites (clock : nat -> env) (folder : Path)
    (dst : str) (lg : bool) (w : world) (p' : Path) (nd : node) :
  files w !! p' = Some nd ->
  files (_convert_folder clock folder dst lg w).2 !! p' = Some nd.
Proof.
  intros Hp'. unfold _convert_folder.
  destruct (merge_sort name_le (glob_docx (files w) folder)) as [|f rest];
    [done|].
  pose proof (convert_folder_loop_spec clock (f :: rest) dst lg 0 0 w) as Hloop.
  cbn zeta in Hloop.
  destruct (_convert_folder_loop clock 0 (f :: rest) dst lg 0 w)
    as [[ls k] w']; cbn [fst snd] in *.
  destruct Hloop as (_ & _ & _ & Hkeep & _).
  rewrite Hkeep; [done|]. by rewrite Hp'.
Qed.

(** X23. From the command line the destination check of [convert_any]
    cannot fail: whatever the arguments and the files, no line printed by
    [main] reports an unsupported output format. *)
Theorem main_destination_accepted (clock : nat -> env) (a : args) (w : world) :
  Forall (fun l => reports_unsupported_output l = false)
    (console (main clock a w).1).
Proof.
  assert (Hdst : lower (choice_str (arg_dst_format a)) ∈ dst_formats).
  { destruct (arg_dst_format a); vm_compute;
      repeat (apply list_elem_of_here || apply list_elem_of_further). }
  assert (Hsingle : Forall (fun l => reports_unsupported_output l = false)
            (console (_convert_single (clock 0) (arg_input a)
                        (choice_str (arg_dst_format a))
                        (negb (arg_no_log a)) w).1)).
  { unfold _convert_single.
    pose proof (convert_any_dst_accepted (clock 0) (arg_input a)
                  (choice_str (arg_dst_format a)) (lit "cli-single")
                  (negb (arg_no_log a)) w Hdst) as Hne.
    destruct (convert_any _ _ _ _ _ _) as [[out|e'] w']; cbn [fst] in *.
    - by repeat constructor.
    - destruct e' as [d| | | | | |]; repeat constructor. by destruct d. }
  unfold main. destruct (files w !! arg_input a) as [[b|]|]; try done.
  unfold _convert_folder.
  destruct (merge_sort name_le (glob_docx (files w) (arg_input a)))
    as [|f rest]; [by repeat constructor|].
  pose proof (convert_folder_loop_spec clock (f :: rest)
                (choice_str (arg_dst_format a)) (negb (arg_no_log a)) 0 0 w)
    as Hloop.
  cbn zeta in Hloop.
  destruct (_convert_folder_loop _ _ _ _ _ _ _) as [[ls k] w'];
    cbn [fst snd] in *.
  destruct Hloop as (_ & _ & _ & _ & Hout).
  constructor; [done|]. apply Forall_app. split; [by apply Hout|].
  by repeat constructor.
Qed.

(** X24. What a batch takes: the names it reports on are those of the
    entries of the folder, files or not, that end with .docx as written (an
    upper-case extension is not taken), each once, in the order of their
    code points; files created during the batch are not among them. *)
Theorem convert_folder_attempts (clock : nat -> env) (folder : Path)
    (dst : str) (lg : bool) (w : world) :
  let names := omap line_file (console (_convert_folder clock folder dst lg w).1) in
  (forall nm, nm ∈ names
              <-> is_Some (files w !! mkPath (path_str folder) nm)
                  /\ endswith nm (lit ".docx") = true)
  /\ NoDup names
  /\ Sorted (fun a b => str_ltb b a = false) names.
Proof.
  cbn zeta.
  assert (Hnames : omap line_file
                     (console (_convert_folder clock folder dst lg w).1)
                   = name <$> merge_sort name_le (glob_docx (files w) folder)).
  { unfold _convert_folder.
    destruct (merge_sort name_le (glob_docx (files w) folder)) as [|f rest];
      [done|].
    pose proof (convert_folder_loop_spec clock (f :: rest) dst lg 0 0 w)
      as Hloop.
    cbn zeta in Hloop.
    destruct (_convert_folder_loop clock 0 (f :: rest) dst lg 0 w)
      as [[ls k] w']; cbn [fst snd] in *.
    destruct Hloop as (Hnames & _).
    cbn [console omap list_omap line_file].
    rewrite omap_app. cbn [omap list_omap line_file].
    by rewrite app_nil_r. }
  rewrite Hnames. clear Hnames.
  pose proof (elem_of_docx_files (files w) folder) as Hin.
  pose proof (NoDup_docx_files (files w) folder) as Hnodup.
  pose proof (Sorted_merge_sort name_le (glob_docx (files w) folder)) as Hsorted.
  set (l := merge_sort name_le (glob_docx (files w) folder)) in *.
  clearbody l. split; [|split].
  - intros nm. rewrite list_elem_of_fmap. split.
    + intros (q & -> & Hq%Hin). destruct Hq as (Hq & Hparent & Hend).
      split; [|done]. rewrite <- Hparent. by destruct q.
    + intros (Hq & Hend). exists (mkPath (path_str folder) nm).
      split; [done|]. by apply Hin.
  - apply NoDup_fmap_2_strong; [|done].
    intros [d1 n1] [d2 n2] (_ & Hd1 & _)%Hin (_ & Hd2 & _)%Hin Heq.
    cbn in *. congruence.
  - clear Hin Hnodup. induction Hsorted as [|q l Hs IH Hhd]; [constructor|].
    cbn. constructor; [done|]. destruct Hhd; by constructor.
Qed.

End WithRuntime.
End CliFacts.

(** ** Blank texts and the paragraphs of a package *)

Module ParagraphFacts.
Import Py Docx DocxFacts ReaderFacts.

(** The text holds whitespace only. *)
Definition blank (s : str) : bool := forallb isspace s.

Lemma split_from_blank (sep s : str) :
  forall (cur : str) (skip : nat),
    blank cur = true -> blank s = true ->
    Forall (fun p => blank p = true) (split_from sep cur s skip).
Proof.
  induction s as [|c s IH]; intros cur skip Hcur Hs; cbn [split_from].
  - by constructor.
  - apply andb_prop in Hs as [Hc Hs].
    destruct skip as [|k]; [|by apply IH].
    destruct (startswith (c :: s) sep).
    + constructor; [done|]. by apply IH.
    + apply IH; [|done]. unfold blank. rewrite forallb_app.
      fold (blank cur). rewrite Hcur. cbn. by rewrite Hc.
Qed.

Lemma drop_while_blank (s : str) :
  blank s = true -> drop_while isspace s = [].
Proof.
  induction s as [|c s IH]; [done|]. intros [Hc Hs]%andb_prop.
  cbn. rewrite Hc. by apply IH.
Qed.

Lemma strip_blank (s : str) : blank s = true -> strip s = [].
Proof.
  intros Hs. unfold strip, lstrip, rstrip. by rewrite (drop_while_blank s Hs).
Qed.

(** A blank text has no paragraph. *)
Lemma paragraphs_blank (text : str) :
  blank text = true ->
  filter (fun p => p <> []) (strip <$> split [LF; LF] text) = [].
Proof.
  intros Hs. unfold split.
  pose proof (split_from_blank [LF; LF] text [] 0 eq_refl Hs) as Hall.
  induction Hall as [|p ps Hp _ IH]; [done|].
  rewrite fmap_cons, filter_cons_False; [done|].
  rewrite (strip_blank p Hp). by intros [].
Qed.

(** X25. A text of whitespace only, the empty text among them, has no
    paragraph: [text_to_html] gives the page with an empty body. *)
Theorem text_to_html_blank (text : str) :
  blank text = true ->
  text_to_html text
  = join [LF] [lit "<!DOCTYPE html>"; lit "<html>"; lit "<body>";
               lit "</body>"; lit "</html>"] ++ [LF].
Proof.
  intros Hs. unfold text_to_html. cbv zeta.
  by rewrite (paragraphs_blank text Hs).
Qed.

(** X26. For a text of whitespace only [text_to_docx_bytes] writes the
    document of the single empty paragraph, between the two fixed parts: the
    package is that of the empty text. *)
Theorem text_to_docx_bytes_blank `{Runtime} (text : str) :
  blank text = true ->
  text_to_docx_bytes text
  = [ (lit "[Content_Types].xml", content_types_xml);
      (lit "_rels/.rels", rels_xml);
      (lit "word/document.xml", _create_basic_docx_xml [[]]) ]
  /\ text_to_docx_bytes text = text_to_docx_bytes [].
Proof.
  intros Hs.
  assert (Hp : docx_paragraphs text = [[]]).
  { unfold docx_paragraphs. by rewrite (paragraphs_blank text Hs). }
  unfold text_to_docx_bytes. cbv zeta. by rewrite Hp.
Qed.

(** X27. From a package to a page: [text_to_html] applied to the text
    [extract_docx_text] returns for a document gives one "<p>" line for each
    paragraph read, in order, with the paragraph escaped, when no paragraph
    holds two line feeds in a row. *)
Theorem docx_to_html_paragraphs (root : element) :
  Forall (fun p => has_blank_line p = false) (extracted_paragraphs root) ->
  text_to_html (docx_text root)
  = join [LF]
      ([lit "<!DOCTYPE html>"; lit "<html>"; lit "<body>"]
       ++ ((fun p => lit "<p>" ++ _html_escape p ++ lit "</p>")
             <$> extracted_paragraphs root)
       ++ [lit "</body>"; lit "</html>"]) ++ [LF].
Proof.
  intros Hblank. unfold text_to_html. cbv zeta.
  by rewrite (docx_text_paragraphs root Hblank).
Qed.

End ParagraphFacts.

(** ** What [txt_to_markdown] keeps of a text *)

Module MarkdownLines.
Import Py PyFacts DocxFacts.




Section WithUnicode.
Context `{UnicodeDB}.



End WithUnicode.
End MarkdownLines.

(** ** A lone file with an upper-case extension *)

Definition lone_report : world :=
  mkWorld (list_to_map [ (Samples.docs "Report.MD", File (Py.lit "# Title")) ])
    None.

Lemma convert_any_extension_case_sample :
  let run :=
    @convert_any latin1_db ascii_runtime Samples.sample_env
      (Samples.docs "Report.MD") (Py.lit "html") (Py.lit "cli-single") false
      lone_report in
  Py.lit ".md" ∈ src_exts
  /\ differs_only_in_case (Pathlib.suffix (Samples.docs "Report.MD"))
       (Py.lit ".md") = true
  /\ is_file (files lone_report) (Samples.docs "Report.MD") = true
  /\ @lower latin1_db (Pathlib.suffix (Samples.docs "Report.MD")) = Py.lit ".md"
  /\ run.1 = Ok (Samples.docs "Report.html")
  /\ exists plain b,
       @source_text ascii_runtime (Samples.docs "Report.MD") (Py.lit ".md")
         lone_report = (Ok plain, lone_report)
       /\ @rendered ascii_runtime (@lower latin1_db (Py.lit "html"))
            (@transform latin1_db (Py.lit ".md")
               (@lower latin1_db (Py.lit "html")) plain) = Some b
       /\ files lone_report !! Samples.docs "Report.html" = None
       /\ files run.2
          = <[Samples.docs "Report.html" := File b]> (files lone_report).
Proof.
  cbv zeta.
  assert (Hext : Py.lit ".md" ∈ src_exts)
    by (refine (bool_decide_eq_true_1 _ _); reflexivity).
  split; [exact Hext|]. do 2 (split; [reflexivity|]).
  destruct (@convert_any_extension_case latin1_db ascii_runtime
              Samples.sample_env (Samples.docs "Report.MD") (Py.lit ".md")
              (Py.lit "html") (Py.lit "cli-single") false lone_report
              Hext eq_refl eq_refl) as (Hlow & _ & _ & Hok & _).
  split; [exact Hlow|]. split; [reflexivity|].
  apply Hok. reflexivity.
Defined.

(** ** Runs of the further properties on sample files *)

Lemma unique_path_least_example :
  name (Samples.docs "input.html") <> []
  /\ Py.mem Pathlib.SLASH (name (Samples.docs "input.html")) = false
  /\ _unique_path (Samples.docs "input.html") Samples.sample_world
     = (Ok (Samples.docs "input (1).html"), Samples.sample_world).
Proof.
  split; [done|]. split; [reflexivity|].
  destruct (unique_path_least Samples.sample_world (Samples.docs "input.html"))
    as (r & Hr & _); [done | reflexivity |].
  rewrite Hr. vm_compute in Hr. by injection Hr as <-.
Defined.

Lemma convert_any_never_overwrites_example :
  files Samples.sample_world !! Samples.docs "input.html"
  = Some (File (Py.lit "<p>old</p>"))
  /\ files (Samples.run "input.txt" "html" true).2 !! Samples.docs "input.html"
     = Some (File (Py.lit "<p>old</p>")).
Proof.
  split; [reflexivity|]. unfold Samples.run.
  apply convert_any_never_overwrites. reflexivity.
Defined.

Lemma convert_any_domain_error_atomic_example :
  (Samples.run "scan.pdf" "html" true).1 = Raise (Domain UnsupportedInput)
  /\ (Samples.run "scan.pdf" "html" true).2 = Samples.sample_world.
Proof.
  split; [reflexivity|]. unfold Samples.run.
  apply (convert_any_domain_error_atomic _ _ _ _ _ _ UnsupportedInput).
  reflexivity.
Defined.


Lemma convert_any_md_newline_example :
  @lower latin1_db (Py.lit "MD") = Py.lit "md"
  /\ (Samples.run "input.txt" "MD" false).1 = Ok (Samples.docs "input.md")
  /\ exists conv b,
       Py.endswith conv [Py.LF] = true
       /\ @utf8_encode_text ascii_runtime conv = Some b
       /\ files (Samples.run "input.txt" "MD" false).2 !! Samples.docs "input.md"
          = Some (File b).
Proof.
  split; [reflexivity|]. split; [reflexivity|]. unfold Samples.run.
  apply convert_any_md_newline; reflexivity.
Defined.

Lemma convert_any_output_location_example :
  Py.mem Pathlib.SLASH (name (Samples.docs "input.txt")) = false
  /\ (Samples.run "input.txt" "html" true).1 = Ok (Samples.docs "input (1).html")
  /\ parent (Samples.docs "input (1).html")
     = parent (Samples.docs "input.txt").
Proof.
  split; [reflexivity|]. split; [reflexivity|].
  destruct (@convert_any_output_location latin1_db ascii_runtime
              Samples.sample_env (Samples.docs "input.txt") (Py.lit "html")
              (Py.lit "cli-single") true Samples.sample_world
              (Samples.docs "input (1).html"))
    as (_ & Hparent & _); [reflexivity | reflexivity | exact Hparent].
Defined.

(** A folder with a package that cannot be read, a directory named like a
    package, and a text. *)
Definition sample_folder : world :=
  mkWorld
    (list_to_map
       [ (mkPath (Py.lit "/") (Py.lit "in"), Dir);
         (mkPath (Py.lit "/in") (Py.lit "b.docx"), File (Py.lit "not a zip"));
         (mkPath (Py.lit "/in") (Py.lit "a.docx"), Dir);
         (mkPath (Py.lit "/in") (Py.lit "c.DOCX"), File (Py.lit "not a zip"));
         (mkPath (Py.lit "/in") (Py.lit "notes.txt"), File (Py.lit "Hello")) ])
    None.

Lemma convert_folder_never_overwrites_example :
  files sample_folder !! mkPath (Py.lit "/in") (Py.lit "b.docx")
  = Some (File (Py.lit "not a zip"))
  /\ files (@Cli._convert_folder latin1_db ascii_runtime
              (fun _ => Samples.sample_env)
              (mkPath (Py.lit "/") (Py.lit "in")) (Py.lit "txt") true
              sample_folder).2
     !! mkPath (Py.lit "/in") (Py.lit "b.docx")
     = Some (File (Py.lit "not a zip")).
Proof.
  split; [reflexivity|].
  apply CliFacts.convert_folder_never_overwrites. reflexivity.
Defined.

(** The batch on the sample folder: both entries named .docx are tried, in
    the order of their names, and both fail; the status is 0. *)
Example convert_folder_sample :
  (@Cli._convert_folder latin1_db ascii_runtime (fun _ => Samples.sample_env)
     (mkPath (Py.lit "/") (Py.lit "in")) (Py.lit "txt") true sample_folder).1
  = Cli.mkReport 0
      [ Cli.BatchStart 2 (mkPath (Py.lit "/") (Py.lit "in")) (Py.lit "txt");
        Cli.BatchError (Py.lit "a.docx")
          (InputMissing (mkPath (Py.lit "/in") (Py.lit "a.docx")));
        Cli.BatchError (Py.lit "b.docx")
          (DocxUnreadable (mkPath (Py.lit "/in") (Py.lit "b.docx")));
        Cli.BatchCompleted 0 2 ].
Proof. vm_compute. reflexivity. Qed.

Lemma text_to_html_blank_example :
  ParagraphFacts.blank (Py.lit "   ") = true
  /\ text_to_html (Py.lit "   ")
     = Py.join [Py.LF]
         [Py.lit "<!DOCTYPE html>"; Py.lit "<html>"; Py.lit "<body>";
          Py.lit "</body>"; Py.lit "</html>"] ++ [Py.LF].
Proof.
  split; [reflexivity|]. apply ParagraphFacts.text_to_html_blank. reflexivity.
Defined.

Lemma text_to_docx_bytes_blank_example :
  ParagraphFacts.blank (Py.lit "   ") = true
  /\ @Docx.text_to_docx_bytes ascii_runtime (Py.lit "   ")
     = @Docx.text_to_docx_bytes ascii_runtime [].
Proof.
  split; [reflexivity|].
  apply (@ParagraphFacts.text_to_docx_bytes_blank ascii_runtime). reflexivity.
Defined.

Lemma docx_to_html_paragraphs_example :
  let root := DocxFacts.document_elem [Py.lit "Title"; Py.lit "a < b"] in
  Forall (fun p => ReaderFacts.has_blank_line p = false)
    (Docx.extracted_paragraphs root)
  /\ text_to_html (ReaderFacts.docx_text root)
     = Py.join [Py.LF]
         [Py.lit "<!DOCTYPE html>"; Py.lit "<html>"; Py.lit "<body>";
          Py.lit "<p>Title</p>"; Py.lit "<p>a &lt; b</p>";
          Py.lit "</body>"; Py.lit "</html>"] ++ [Py.LF].
Proof.
  cbv zeta. split; [by repeat constructor|].
  rewrite ParagraphFacts.docx_to_html_paragraphs; [reflexivity|].
  by repeat constructor.
Defined.

(** A package written for a text of two paragraphs, and a copy written from
    the text read from it. *)
Definition sample_text : str :=
  Py.lit "Title" ++ [Py.LF; Py.LF] ++ Py.lit "Body text" ++ [Py.LF].

Definition sample_package : world :=
  mkWorld
    (list_to_map
       [ (Samples.docs "out.docx",
          File (@zip_write codec_runtime
                  (@Docx.text_to_docx_bytes codec_runtime sample_text))) ])
    None.

Lemma sample_text_round_trips : @ReaderFacts.round_trips codec_runtime sample_text.
Proof.
  split; [vm_compute; reflexivity|].
  intros root Hroot. rewrite DocxFacts.tree_of_docx_document in Hroot.
  injection Hroot as <-. vm_compute. reflexivity.
Defined.

Lemma reader_finds_written_paragraphs_example :
  @ReaderFacts.round_trips codec_runtime sample_text
  /\ files sample_package !! Samples.docs "out.docx"
     = Some (File (@zip_write codec_runtime
                     (@Docx.text_to_docx_bytes codec_runtime sample_text)))
  /\ @extract_docx_text codec_runtime (Samples.docs "out.docx") sample_package
     = (Ok sample_text, sample_package).
Proof.
  split; [exact sample_text_round_trips|]. split; [reflexivity|].
  rewrite (@ReaderFacts.reader_finds_written_paragraphs codec_runtime
             sample_text (Samples.docs "out.docx") sample_package
             sample_text_round_trips eq_refl).
  reflexivity.
Defined.

Definition sample_copy : world :=
  mkWorld
    (<[Samples.docs "copy.docx" :=
         File (@zip_write codec_runtime
                 (@Docx.text_to_docx_bytes codec_runtime sample_text))]>
       (files sample_package))
    None.

Lemma docx_to_docx_paragraphs_example :
  let root := DocxFacts.document_elem [Py.lit "Title"; Py.lit "Body text"] in
  ReaderFacts.docx_text root = sample_text
  /\ Forall (fun x => ReaderFacts.has_blank_line x = false)
       (Docx.extracted_paragraphs root)
  /\ @extract_docx_text codec_runtime (Samples.docs "out.docx") sample_package
     = (Ok sample_text, sample_package)
  /\ @extract_docx_text codec_runtime (Samples.docs "copy.docx") sample_copy
     = (Ok sample_text, sample_copy).
Proof.
  cbv zeta. split; [reflexivity|]. split; [by repeat constructor|].
  apply (@ReaderFacts.docx_to_docx_paragraphs codec_runtime
           (Samples.docs "out.docx") (Samples.docs "copy.docx")
           sample_package sample_copy
           (@zip_write codec_runtime
              (@Docx.text_to_docx_bytes codec_runtime sample_text))
           (@Docx._create_basic_docx_xml codec_runtime
              [Py.lit "Title"; Py.lit "Body text"])
           (DocxFacts.document_elem [Py.lit "Title"; Py.lit "Body text"])).
  - reflexivity.
  - vm_compute. reflexivity.
  - vm_compute. reflexivity.
  - by repeat constructor.
  - exact sample_text_round_trips.
  - reflexivity.
Defined.
